(** * Mutable-state map tables of the PostgreSQL persistence plugin

    A shallow embedding of the plugin file that stores the per-execution
    collections (activity infos, timer infos, child-execution infos,
    request-cancel infos, signal infos and the signals-requested set):
    the query templates and their generators, and the Replace / Select /
    Delete operations of every collection kind.

    The plugin talks to collaborators whose code is not part of the file:
    the [sqlx] helpers that expand and rebind placeholders, the date-time
    converter, the shard router, and the driver with the relational
    backend behind it.  The converter is a field of the receiver and the
    shard router a parameter of the operations; [sqlx] and the backend are
    given executable models, so that every operation can be run on a
    concrete store.

    Two smaller parts follow the plugin: the generated handlers of the
    Meta service, and the activity of the scanner that runs the task-list
    scavenger.  Their collaborators are parameters. *)

From Stdlib Require Import String Ascii List ZArith Lia Bool Arith Permutation.
From Stdlib Require Import Strings.Byte DecimalString DecimalNat.
Import ListNotations.
Open Scope string_scope.

Set Implicit Arguments.

(** ** Text helpers *)

Definition LF : string := String (ascii_of_nat 10) EmptyString.
Definition TAB : string := String (ascii_of_nat 9) EmptyString.

(** [strconv.Itoa] on a non-negative number. *)
Definition itoa (n : nat) : string := NilEmpty.string_of_uint (Nat.to_uint n).

(** ** Query templates

    Each [fmt.Sprintf] template is a function of its verbs' arguments:
    [%v] and [%[1]v] are the first argument, [%[2]v] the second, and so on. *)

Definition deleteMapQueryTemplate (a1 : string) : string :=
  "DELETE FROM " ++ a1 ++ LF ++
  "WHERE" ++ LF ++
  "shard_id = $1 AND" ++ LF ++
  "domain_id = $2 AND" ++ LF ++
  "workflow_id = $3 AND" ++ LF ++
  "run_id = $4".

Definition setKeyInMapQueryTemplate (a1 a2 a3 a4 a5 : string) : string :=
  "INSERT INTO " ++ a1 ++ LF ++
  "(shard_id, domain_id, workflow_id, run_id, " ++ a4 ++ ", " ++ a2 ++ ")" ++ LF ++
  "VALUES" ++ LF ++
  "(:shard_id, :domain_id, :workflow_id, :run_id, :" ++ a4 ++ ", " ++ a3 ++ ")" ++ LF ++
  "ON CONFLICT (shard_id, domain_id, workflow_id, run_id, " ++ a4 ++ ") DO UPDATE" ++ LF ++
  TAB ++ "SET (shard_id, domain_id, workflow_id, run_id, " ++ a4 ++ ", " ++ a2 ++ ")" ++ LF ++
  "  " ++ TAB ++ "  = (excluded.shard_id, excluded.domain_id, excluded.workflow_id, excluded.run_id, excluded."
       ++ a4 ++ ", " ++ a5 ++ ")".

Definition deleteKeyInMapQueryTemplate (a1 a2 : string) : string :=
  "DELETE FROM " ++ a1 ++ LF ++
  "WHERE" ++ LF ++
  "shard_id = ? AND" ++ LF ++
  "domain_id = ? AND" ++ LF ++
  "workflow_id = ? AND" ++ LF ++
  "run_id = ? AND" ++ LF ++
  a2 ++ " IN ( ? )".

Definition getMapQueryTemplate (a1 a2 a3 : string) : string :=
  "SELECT " ++ a2 ++ ", " ++ a3 ++ " FROM " ++ a1 ++ LF ++
  "WHERE" ++ LF ++
  "shard_id = $1 AND" ++ LF ++
  "domain_id = $2 AND" ++ LF ++
  "workflow_id = $3 AND" ++ LF ++
  "run_id = $4".

Definition deleteAllSignalsRequestedSetQuery : string :=
  "DELETE FROM signals_requested_sets" ++ LF ++
  "WHERE" ++ LF ++
  "shard_id = $1 AND" ++ LF ++
  "domain_id = $2 AND" ++ LF ++
  "workflow_id = $3 AND" ++ LF ++
  "run_id = $4" ++ LF.

Definition createSignalsRequestedSetQuery : string :=
  "INSERT INTO signals_requested_sets" ++ LF ++
  "(shard_id, domain_id, workflow_id, run_id, signal_id) VALUES" ++ LF ++
  "(:shard_id, :domain_id, :workflow_id, :run_id, :signal_id)" ++ LF ++
  "ON CONFLICT (shard_id, domain_id, workflow_id, run_id, signal_id) DO NOTHING".

Definition deleteSignalsRequestedSetQuery : string :=
  "DELETE FROM signals_requested_sets" ++ LF ++
  "WHERE" ++ LF ++
  "shard_id = ? AND" ++ LF ++
  "domain_id = ? AND" ++ LF ++
  "workflow_id = ? AND" ++ LF ++
  "run_id = ? AND" ++ LF ++
  "signal_id IN ( ? )".

Definition getSignalsRequestedSetQuery : string :=
  "SELECT signal_id FROM signals_requested_sets WHERE" ++ LF ++
  "shard_id = $1 AND" ++ LF ++
  "domain_id = $2 AND" ++ LF ++
  "workflow_id = $3 AND" ++ LF ++
  "run_id = $4".

(** ** Query generators *)

(** [stringMap] fills a fresh slice of the same length, index by index. *)
Fixpoint stringMap (a : list string) (f : string -> string) : list string :=
  match a with
  | [] => []
  | v :: a' => f v :: stringMap a' f
  end.

Definition makeDeleteMapQry (tableName : string) : string :=
  deleteMapQueryTemplate tableName.

Definition makeSetKeyInMapQry (tableName : string)
    (nonPrimaryKeyColumns : list string) (mapKeyName : string) : string :=
  setKeyInMapQueryTemplate
    tableName
    (String.concat "," nonPrimaryKeyColumns)
    (String.concat "," (stringMap nonPrimaryKeyColumns (fun x => ":" ++ x)))
    mapKeyName
    (String.concat "," (stringMap nonPrimaryKeyColumns (fun x => "excluded." ++ x))).

Definition makeDeleteKeyInMapQry (tableName mapKeyName : string) : string :=
  deleteKeyInMapQueryTemplate tableName mapKeyName.

Definition makeGetMapQryTemplate (tableName : string)
    (nonPrimaryKeyColumns : list string) (mapKeyName : string) : string :=
  getMapQueryTemplate tableName mapKeyName (String.concat "," nonPrimaryKeyColumns).

(** ** Per-kind column lists and precomputed statements *)

Definition activityInfoColumns : list string :=
  ["data"; "data_encoding"; "last_heartbeat_details"; "last_heartbeat_updated_time"].
Definition activityInfoTableName : string := "activity_info_maps".
Definition activityInfoKey : string := "schedule_id".

Definition deleteActivityInfoMapQry := makeDeleteMapQry activityInfoTableName.
Definition setKeyInActivityInfoMapQry :=
  makeSetKeyInMapQry activityInfoTableName activityInfoColumns activityInfoKey.
Definition deleteKeyInActivityInfoMapQry :=
  makeDeleteKeyInMapQry activityInfoTableName activityInfoKey.
Definition getActivityInfoMapQry :=
  makeGetMapQryTemplate activityInfoTableName activityInfoColumns activityInfoKey.

Definition timerInfoColumns : list string := ["data"; "data_encoding"].
Definition timerInfoTableName : string := "timer_info_maps".
Definition timerInfoKey : string := "timer_id".

Definition deleteTimerInfoMapSQLQuery := makeDeleteMapQry timerInfoTableName.
Definition setKeyInTimerInfoMapSQLQuery :=
  makeSetKeyInMapQry timerInfoTableName timerInfoColumns timerInfoKey.
Definition deleteKeyInTimerInfoMapSQLQuery :=
  makeDeleteKeyInMapQry timerInfoTableName timerInfoKey.
Definition getTimerInfoMapSQLQuery :=
  makeGetMapQryTemplate timerInfoTableName timerInfoColumns timerInfoKey.

Definition childExecutionInfoColumns : list string := ["data"; "data_encoding"].
Definition childExecutionInfoTableName : string := "child_execution_info_maps".
Definition childExecutionInfoKey : string := "initiated_id".

Definition deleteChildExecutionInfoMapQry := makeDeleteMapQry childExecutionInfoTableName.
Definition setKeyInChildExecutionInfoMapQry :=
  makeSetKeyInMapQry childExecutionInfoTableName childExecutionInfoColumns childExecutionInfoKey.
Definition deleteKeyInChildExecutionInfoMapQry :=
  makeDeleteKeyInMapQry childExecutionInfoTableName childExecutionInfoKey.
Definition getChildExecutionInfoMapQry :=
  makeGetMapQryTemplate childExecutionInfoTableName childExecutionInfoColumns childExecutionInfoKey.

Definition requestCancelInfoColumns : list string := ["data"; "data_encoding"].
Definition requestCancelInfoTableName : string := "request_cancel_info_maps".
Definition requestCancelInfoKey : string := "initiated_id".

Definition deleteRequestCancelInfoMapQry := makeDeleteMapQry requestCancelInfoTableName.
Definition setKeyInRequestCancelInfoMapQry :=
  makeSetKeyInMapQry requestCancelInfoTableName requestCancelInfoColumns requestCancelInfoKey.
Definition deleteKeyInRequestCancelInfoMapQry :=
  makeDeleteKeyInMapQry requestCancelInfoTableName requestCancelInfoKey.
Definition getRequestCancelInfoMapQry :=
  makeGetMapQryTemplate requestCancelInfoTableName requestCancelInfoColumns requestCancelInfoKey.

Definition signalInfoColumns : list string := ["data"; "data_encoding"].
Definition signalInfoTableName : string := "signal_info_maps".
Definition signalInfoKey : string := "initiated_id".

Definition deleteSignalInfoMapQry := makeDeleteMapQry signalInfoTableName.
Definition setKeyInSignalInfoMapQry :=
  makeSetKeyInMapQry signalInfoTableName signalInfoColumns signalInfoKey.
Definition deleteKeyInSignalInfoMapQry :=
  makeDeleteKeyInMapQry signalInfoTableName signalInfoKey.
Definition getSignalInfoMapQry :=
  makeGetMapQryTemplate signalInfoTableName signalInfoColumns signalInfoKey.

(** ** Values, rows and errors *)

Definition bytes := list byte.

(** [time.Time]: an instant, in nanoseconds since the zero time, and the
    offset of its location in seconds.  The zero value is the zero instant
    in UTC. *)
Record Time := mkTime { instant : Z; zoneOffset : Z }.

Definition zeroTime : Time := mkTime 0 0.

(** What a column holds or a placeholder is bound to. *)
Inductive value :=
| VInt (z : Z)
| VText (s : string)
| VBytes (b : bytes)
| VTime (t : Time).

Fixpoint bytes_eqb (a b : bytes) : bool :=
  match a, b with
  | [], [] => true
  | x :: a', y :: b' => Byte.eqb x y && bytes_eqb a' b'
  | _, _ => false
  end.

Definition Time_eqb (a b : Time) : bool :=
  Z.eqb (instant a) (instant b) && Z.eqb (zoneOffset a) (zoneOffset b).

Definition value_eqb (a b : value) : bool :=
  match a, b with
  | VInt x, VInt y => Z.eqb x y
  | VText x, VText y => String.eqb x y
  | VBytes x, VBytes y => bytes_eqb x y
  | VTime x, VTime y => Time_eqb x y
  | _, _ => false
  end.

(** A row as the driver sees it: column name and value, in column order. *)
Definition tuple := list (string * value).

Fixpoint lookup (c : string) (r : tuple) : option value :=
  match r with
  | [] => None
  | (c', v) :: r' => if String.eqb c' c then Some v else lookup c r'
  end.

(** [set_col c v r] assigns column [c] of [r]. *)
Fixpoint set_col (c : string) (v : value) (r : tuple) : tuple :=
  match r with
  | [] => [(c, v)]
  | (c', v') :: r' => if String.eqb c' c then (c, v) :: r' else (c', v') :: set_col c v r'
  end.

(** Go's [error] carries a message; [nil] is [None]. *)
Definition error := string.

(** [sql.Result]: the affected-row handle. *)
Record Result := mkResult { RowsAffected : nat }.

Fixpoint mapM {A B : Type} (f : A -> option B) (l : list A) : option (list B) :=
  match l with
  | [] => Some []
  | a :: l' =>
      match f a with
      | Some b => match mapM f l' with Some bs => Some (b :: bs) | None => None end
      | None => None
      end
  end.

(** ** The [sqlx] helpers *)

(** Modelled from the spec: the mechanism that expands a variable-length
    list into bound [IN (...)] parameters compatible with the backend's
    placeholder dialect (section 6), which the plugin takes from the sqlx
    library and whose code is not part of the file. *)
Module sqlx.

(** An argument of [In]: a single value, or a slice to expand. *)
Inductive inArg :=
| One (v : value)
| Many (vs : list value).

Definition isMany (a : inArg) : bool :=
  match a with Many _ => true | One _ => false end.

Definition isEmptyMany (a : inArg) : bool :=
  match a with Many [] => true | _ => false end.

Definition flat (a : inArg) : list value :=
  match a with One v => [v] | Many vs => vs end.

(** [", ?"] written once per further element of a slice. *)
Fixpoint more (n : nat) (rest : string) : string :=
  match n with
  | O => rest
  | S n' => ", ?" ++ more n' rest
  end.

Fixpoint expand (query : string) (args : list inArg) : (string * list value) + error :=
  match query with
  | EmptyString =>
      match args with
      | [] => inl (EmptyString, [])
      | _ :: _ => inr "number of bindVars less than number arguments"
      end
  | String c query' =>
      if Ascii.eqb c "?" then
        match args with
        | [] => inr "number of bindVars exceeds arguments"
        | a :: args' =>
            match expand query' args' with
            | inl (q, vs) =>
                inl (String c (more (Nat.pred (length (flat a))) q), (flat a ++ vs)%list)
            | inr e => inr e
            end
        end
      else
        match expand query' args with
        | inl (q, vs) => inl (String c q, vs)
        | inr e => inr e
        end
  end.

(** Modelled from the spec: [In] replaces the [?] that meets a slice
    argument by one [?] per element and flattens the slice into the
    argument list.  It fails on an empty slice and when placeholders and
    arguments do not pair up; without any slice it returns what it was
    given. *)
Definition In (query : string) (args : list inArg) : (string * list value) + error :=
  if existsb isEmptyMany args then inr "empty slice passed to 'in' query"
  else if negb (existsb isMany args) then inl (query, flat_map flat args)
  else expand query args.

Inductive bindType := UNKNOWN | QUESTION | DOLLAR | NAMED | AT.

Definition BindType (driverName : string) : bindType :=
  if String.eqb driverName "postgres" then DOLLAR
  else if String.eqb driverName "mysql" then QUESTION
  else if String.eqb driverName "sqlite3" then QUESTION
  else UNKNOWN.

Fixpoint rebindDollar (j : nat) (query : string) : string :=
  match query with
  | EmptyString => EmptyString
  | String c query' =>
      if Ascii.eqb c "?" then "$" ++ itoa (S j) ++ rebindDollar (S j) query'
      else String c (rebindDollar j query')
  end.

(** Modelled from the spec: [Rebind] numbers the [?] placeholders as [$1],
    [$2], ... for the dollar dialect and leaves the query as it is for the
    question-mark dialect. *)
Definition Rebind (bt : bindType) (query : string) : string :=
  match bt with
  | DOLLAR => rebindDollar 0 query
  | _ => query
  end.

End sqlx.

(** Modelled from the spec: the name under which the plugin is registered,
    declared in another file of the package. *)
Definition PluginName : string := "postgres".

(** ** The relational backend *)

(** Modelled from the spec: the relational backend behind the driver,
    which executes parameterized statements and offers an atomic "insert,
    replace on primary-key conflict" primitive (section 6).  The model
    reads the statement text it is given: it splits the text into lexemes,
    parses the three statement forms the plugin generates, and interprets
    the parsed statement over the stored rows.  Nothing in the interpreter
    depends on the collection kind; which columns an upsert overwrites is
    decided by the text of its [SET] clause alone. *)
Module pg.

(** *** Lexemes *)

Definition is_space (c : ascii) : bool :=
  Ascii.eqb c " " || Ascii.eqb c (ascii_of_nat 10)
  || Ascii.eqb c (ascii_of_nat 9) || Ascii.eqb c (ascii_of_nat 13).

Definition is_punct (c : ascii) : bool :=
  Ascii.eqb c "(" || Ascii.eqb c ")" || Ascii.eqb c "," || Ascii.eqb c "=".

Definition flush (w : string) : list string :=
  match w with
  | EmptyString => []
  | String _ _ => [w]
  end.

(** [lexemes w s]: the lexemes of [s], after the pending word [w]. *)
Fixpoint lexemes (w : string) (s : string) : list string :=
  match s with
  | EmptyString => flush w
  | String c s' =>
      if is_space c then (flush w ++ lexemes EmptyString s')%list
      else if is_punct c then (flush w ++ String c EmptyString :: lexemes EmptyString s')%list
      else lexemes (w ++ String c EmptyString) s'
  end.

Definition is_word (x : string) : bool :=
  match x with
  | EmptyString => false
  | String c _ => negb (is_punct c)
  end.

(** [$k]: a positional placeholder. *)
Definition dollar (x : string) : option nat :=
  match x with
  | String c (String d ds) =>
      if Ascii.eqb c "$" then
        match NilEmpty.uint_of_string (String d ds) with
        | Some u => Some (Nat.of_uint u)
        | None => None
        end
      else None
  | _ => None
  end.

(** [:name]: a named placeholder. *)
Definition named (x : string) : option string :=
  match x with
  | String c (String d ds) => if Ascii.eqb c ":" then Some (String d ds) else None
  | _ => None
  end.

Fixpoint strip_prefix (p s : string) : option string :=
  match p with
  | EmptyString => Some s
  | String a p' =>
      match s with
      | String b s' => if Ascii.eqb a b then strip_prefix p' s' else None
      | EmptyString => None
      end
  end.

(** [excluded.col]: a column of the row proposed for insertion. *)
Definition excluded (x : string) : option string := strip_prefix "excluded." x.

(** *** Statements *)

Inductive cond :=
| CEq (col : string) (p : nat)
| CIn (col : string) (ps : list nat).

Inductive conflict :=
| DoNothing
| DoUpdate (set : list string) (src : list string).

Inductive stmt :=
| Insert (table : string) (cols : list string) (vals : list string)
         (target : list string) (act : conflict)
| Select (out : list string) (table : string) (where_ : list cond)
| Delete (table : string) (where_ : list cond).

(** [x , y , z]: a comma-separated list of words and what follows it. *)
Fixpoint items (l : list string) : option (list string * list string) :=
  match l with
  | [] => None
  | x :: l1 =>
      if is_word x then
        match l1 with
        | [] => Some ([x], [])
        | sep :: l2 =>
            if String.eqb sep "," then
              match items l2 with
              | Some (xs, r) => Some (x :: xs, r)
              | None => None
              end
            else Some ([x], l1)
        end
      else None
  end.

Definition parens (l : list string) : option (list string * list string) :=
  match l with
  | [] => None
  | o :: l1 =>
      if String.eqb o "(" then
        match items l1 with
        | Some (xs, c :: r) => if String.eqb c ")" then Some (xs, r) else None
        | _ => None
        end
      else None
  end.

(** [c = $k AND ... ], optionally closed by [c IN ( $k, ... )]. *)
Fixpoint conds (l : list string) : option (list cond) :=
  match l with
  | c :: op :: l2 =>
      if String.eqb op "=" then
        match l2 with
        | [] => None
        | p :: l3 =>
            match dollar p with
            | None => None
            | Some k =>
                match l3 with
                | [] => Some [CEq c k]
                | a :: l4 =>
                    if String.eqb a "AND" then
                      match conds l4 with
                      | Some cs => Some (CEq c k :: cs)
                      | None => None
                      end
                    else None
                end
            end
        end
      else if String.eqb op "IN" then
        match parens l2 with
        | Some (ps, []) =>
            match mapM dollar ps with
            | Some ks => Some [CIn c ks]
            | None => None
            end
        | _ => None
        end
      else None
  | _ => None
  end.

Definition parse_delete (l : list string) : option stmt :=
  match l with
  | f :: t :: w :: cs =>
      if String.eqb f "FROM" && is_word t && String.eqb w "WHERE" then
        match conds cs with
        | Some where_ => Some (Delete t where_)
        | None => None
        end
      else None
  | _ => None
  end.

Definition parse_select (l : list string) : option stmt :=
  match items l with
  | Some (out, f :: t :: w :: cs) =>
      if String.eqb f "FROM" && is_word t && String.eqb w "WHERE" then
        match conds cs with
        | Some where_ => Some (Select out t where_)
        | None => None
        end
      else None
  | _ => None
  end.

Definition parse_conflict (l : list string) : option conflict :=
  match l with
  | d :: a :: l1 =>
      if String.eqb d "DO" then
        if String.eqb a "NOTHING" then
          match l1 with [] => Some DoNothing | _ :: _ => None end
        else if String.eqb a "UPDATE" then
          match l1 with
          | s :: l2 =>
              if String.eqb s "SET" then
                match parens l2 with
                | Some (set, e :: l3) =>
                    if String.eqb e "=" then
                      match parens l3 with
                      | Some (src, []) =>
                          match mapM excluded src with
                          | Some src' => Some (DoUpdate set src')
                          | None => None
                          end
                      | _ => None
                      end
                    else None
                | _ => None
                end
              else None
          | [] => None
          end
        else None
      else None
  | _ => None
  end.

Definition parse_insert (l : list string) : option stmt :=
  match l with
  | i :: t :: l1 =>
      if String.eqb i "INTO" && is_word t then
        match parens l1 with
        | Some (cols, v :: l2) =>
            if String.eqb v "VALUES" then
              match parens l2 with
              | Some (vals, o :: c :: l3) =>
                  if String.eqb o "ON" && String.eqb c "CONFLICT" then
                    match parens l3 with
                    | Some (target, l4) =>
                        match mapM named vals, parse_conflict l4 with
                        | Some vals', Some act => Some (Insert t cols vals' target act)
                        | _, _ => None
                        end
                    | None => None
                    end
                  else None
              | _ => None
              end
            else None
        | _ => None
        end
      else None
  | _ => None
  end.

Definition parse (q : string) : option stmt :=
  match lexemes EmptyString q with
  | [] => None
  | k :: l =>
      if String.eqb k "DELETE" then parse_delete l
      else if String.eqb k "SELECT" then parse_select l
      else if String.eqb k "INSERT" then parse_insert l
      else None
  end.

(** *** Stored rows and statement execution *)

(** A stored row: the physical shard and table it lives in, and its
    columns. *)
Record stored := mkStored { at_shard : Z; in_table : string; cols : tuple }.

Definition on (d : Z) (t : string) (x : stored) : bool :=
  Z.eqb (at_shard x) d && String.eqb (in_table x) t.

(** The value bound to [$k]. *)
Definition arg (k : nat) (args : list value) : option value :=
  match k with
  | O => None
  | S i => nth_error args i
  end.

(** A condition with its placeholders replaced by the bound values: the
    column and the values it may take. *)
Definition resolve (args : list value) (c : cond) : option (string * list value) :=
  match c with
  | CEq col k =>
      match arg k args with
      | Some v => Some (col, [v])
      | None => None
      end
  | CIn col ks =>
      match mapM (fun k => arg k args) ks with
      | Some vs => Some (col, vs)
      | None => None
      end
  end.

Definition satisfies (r : tuple) (rc : string * list value) : bool :=
  match lookup (fst rc) r with
  | Some x => existsb (value_eqb x) (snd rc)
  | None => false
  end.

Definition matches (rcs : list (string * list value)) (r : tuple) : bool :=
  forallb (satisfies r) rcs.

(** The number of arguments a statement takes: its highest placeholder. *)
Definition highest (c : cond) : nat :=
  match c with
  | CEq _ p => p
  | CIn _ ps => list_max ps
  end.

Definition arity (where_ : list cond) : nat := list_max (map highest where_).

(** The conditions with the arguments bound.  The statement is refused
    when it is handed more or fewer arguments than it takes. *)
Definition bind_where (args : list value) (where_ : list cond)
    : list (string * list value) + error :=
  if Nat.eqb (arity where_) (length args) then
    match mapM (resolve args) where_ with
    | Some rcs => inl rcs
    | None => inr "there is no parameter $0"
    end
  else inr "bind message supplies the wrong number of parameters".

Definition exec_delete (d : Z) (t : string) (where_ : list cond) (args : list value)
    (store : list stored) : (list stored * nat) + error :=
  match bind_where args where_ with
  | inr e => inr e
  | inl rcs =>
      let keep := filter (fun x => negb (on d t x && matches rcs (cols x))) store in
      inl (keep, length store - length keep)
  end.

Definition project (out : list string) (r : tuple) : option tuple :=
  mapM (fun c => match lookup c r with Some v => Some (c, v) | None => None end) out.

(** The selected rows come in the order in which they are stored; the
    backend itself promises no order. *)
Definition exec_select (d : Z) (out : list string) (t : string) (where_ : list cond)
    (args : list value) (store : list stored) : list tuple + error :=
  match bind_where args where_ with
  | inr e => inr e
  | inl rcs =>
      match mapM (project out)
              (map cols (filter (fun x => on d t x && matches rcs (cols x)) store)) with
      | Some ts => inl ts
      | None => inr "column does not exist"
      end
  end.

(** The row proposed for insertion: column [c] takes the value bound to
    the named placeholder written at its position. *)
Definition proposed (cols_ vals : list string) (b : tuple) : option tuple :=
  mapM (fun cn => match lookup (snd cn) b with Some v => Some (fst cn, v) | None => None end)
       (combine cols_ vals).

(** Two rows agree on every column of the conflict target. *)
Definition same_key (target : list string) (a b : tuple) : bool :=
  forallb (fun c => match lookup c a, lookup c b with
                    | Some x, Some y => value_eqb x y
                    | _, _ => false
                    end) target.

(** [SET (set) = (excluded.src)] applied to the existing row [e], with
    [n] the proposed row. *)
Definition assign (set src : list string) (n e : tuple) : tuple :=
  fold_left (fun e' cs => match lookup (snd cs) n with
                          | Some v => set_col (fst cs) v e'
                          | None => e'
                          end) (combine set src) e.

Definition hit (d : Z) (t : string) (target : list string) (n : tuple) (x : stored) : bool :=
  on d t x && same_key target (cols x) n.

(** One proposed row of the batch.  The state is the store, the rows this
    statement has already inserted or updated, and their count.  A second
    update of a row within one statement is refused. *)
Definition upsert_one (d : Z) (t : string) (target : list string) (act : conflict)
    (st : list stored * list tuple * nat) (n : tuple)
    : (list stored * list tuple * nat) + error :=
  let '(store, touched, cnt) := st in
  if existsb (hit d t target n) store then
    match act with
    | DoNothing => inl st
    | DoUpdate set src =>
        if existsb (fun m => same_key target m n) touched then
          inr "ON CONFLICT DO UPDATE command cannot affect row a second time"
        else
          inl (map (fun x => if hit d t target n x
                             then mkStored (at_shard x) (in_table x) (assign set src n (cols x))
                             else x) store,
               (map (assign set src n) (map cols (filter (hit d t target n) store)) ++ touched)%list,
               S cnt)
    end
  else inl ((store ++ [mkStored d t n])%list, n :: touched, S cnt).

Fixpoint upsert_all (d : Z) (t : string) (target : list string) (act : conflict)
    (st : list stored * list tuple * nat) (batch : list tuple)
    : (list stored * list tuple * nat) + error :=
  match batch with
  | [] => inl st
  | n :: batch' =>
      match upsert_one d t target act st n with
      | inl st' => upsert_all d t target act st' batch'
      | inr e => inr e
      end
  end.

Definition subset (a b : list string) : bool :=
  forallb (fun c => existsb (String.eqb c) b) a.

Definition valid_insert (cols_ vals target : list string) (act : conflict) : bool :=
  Nat.eqb (length cols_) (length vals) && subset target cols_ &&
  match act with
  | DoNothing => true
  | DoUpdate set src => Nat.eqb (length set) (length src) && subset src cols_
  end.

(** The whole statement: every row of the batch is proposed in turn; an
    error leaves the store as it was. *)
Definition exec_insert (d : Z) (t : string) (cols_ vals target : list string)
    (act : conflict) (batch : list tuple) (store : list stored)
    : (list stored * nat) + error :=
  if valid_insert cols_ vals target act then
    match mapM (proposed cols_ vals) batch with
    | None => inr "could not find name in the bound row"
    | Some ns =>
        match upsert_all d t target act (store, [], O) ns with
        | inl (store', _, cnt) => inl (store', cnt)
        | inr e => inr e
        end
    end
  else inr "malformed INSERT".

End pg.

(** ** The driver *)

(** Modelled from the spec: the driver's parameterized statement execution
    (section 6), whose code is not part of the file.  It keeps the rows
    stored on every physical shard and the list of the statements it was
    asked to execute, in order.  [ctx] only carries cancellation and is
    left out. *)
Module sqldriver.

Inductive bound :=
| Positional (args : list value)
| ByName (batch : list tuple).

Record issued := mkIssued { on_shard : Z; text : string; params : bound }.

Record Backend := mkBackend { rows : list pg.stored; statements : list issued }.

Definition record (dbShardID : Z) (query : string) (p : bound) (b : Backend) : Backend :=
  mkBackend (rows b) (statements b ++ [mkIssued dbShardID query p])%list.

(** Modelled from the spec: the execution of a statement with positional
    arguments.  The statement is recorded, then read and run by the
    backend; a failed statement leaves the stored rows as they were.  A
    call fails only where the backend refuses the statement or its
    arguments: the model has no outage, timeout or cancellation. *)
Definition ExecContext (b : Backend) (dbShardID : Z) (query : string) (args : list value)
    : (option Result * option error) * Backend :=
  let b := record dbShardID query (Positional args) b in
  match pg.parse query with
  | Some (pg.Delete t where_) =>
      match pg.exec_delete dbShardID t where_ args (rows b) with
      | inl (store', n) => ((Some (mkResult n), None), mkBackend store' (statements b))
      | inr e => ((None, Some e), b)
      end
  | Some (pg.Select out t where_) =>
      match pg.exec_select dbShardID out t where_ args (rows b) with
      | inl ts => ((Some (mkResult (length ts)), None), b)
      | inr e => ((None, Some e), b)
      end
  | Some (pg.Insert _ _ _ _ _) => ((None, Some "syntax error at or near :"), b)
  | None => ((None, Some "syntax error"), b)
  end.

(** Modelled from the spec: the execution of a statement with named
    placeholders over a slice of rows.  The rows are bound by name, one
    proposed row per element, and the statement runs once for the whole
    slice.  As for [ExecContext], a call fails only where the backend
    refuses the statement or its rows. *)
Definition NamedExecContext (b : Backend) (dbShardID : Z) (query : string)
    (batch : list tuple) : (option Result * option error) * Backend :=
  let b := record dbShardID query (ByName batch) b in
  match pg.parse query with
  | Some (pg.Insert t cols_ vals target act) =>
      match pg.exec_insert dbShardID t cols_ vals target act batch (rows b) with
      | inl (store', n) => ((Some (mkResult n), None), mkBackend store' (statements b))
      | inr e => ((None, Some e), b)
      end
  | Some _ => ((None, Some "bind message supplies 0 parameters"), b)
  | None => ((None, Some "syntax error"), b)
  end.

(** Modelled from the spec: the execution of a query.  The selected rows
    are scanned into the destination slice with [scan], which assigns the
    fields named by the selected columns. *)
Definition SelectContext {R : Type} (b : Backend) (dbShardID : Z)
    (scan : tuple -> option R) (query : string) (args : list value)
    : (list R * option error) * Backend :=
  let b := record dbShardID query (Positional args) b in
  match pg.parse query with
  | Some (pg.Select out t where_) =>
      match pg.exec_select dbShardID out t where_ args (rows b) with
      | inl ts =>
          match mapM scan ts with
          | Some rs => ((rs, None), b)
          | None => (([], Some "sql: Scan error"), b)
          end
      | inr e => (([], Some e), b)
      end
  | Some _ => (([], Some "statement returns no rows"), b)
  | None => (([], Some "syntax error"), b)
  end.

End sqldriver.

(** ** Rows and filters *)

(** Modelled from the spec: the row and filter types of the six collection
    kinds (section 3: the execution identity, the collection-specific key,
    the payload blob with its encoding tag, and for activity infos the
    last-heartbeat payload and timestamp), which the plugin takes from the
    [sqlplugin] package.  [int64] and [int] are both 64 bits wide, so the
    conversions between them change nothing and both are [Z].  For each
    row type [bind] lists the fields under their column names, as the
    driver binds them to named placeholders, and [scan] assigns the fields
    named by the columns of a selected row, starting from the zero value. *)

Definition UUID := bytes.

Definition scanWith {R : Type} (zero : R) (field : R -> string -> value -> option R)
    (tp : tuple) : option R :=
  fold_left (fun acc cv => match acc with
                           | Some r => field r (fst cv) (snd cv)
                           | None => None
                           end) tp (Some zero).

(** Modelled from the spec: a row of the activity-info table, keyed by schedule id, with the last-heartbeat payload and time. *)
Module ActivityInfoMapsRow.

Record t := mk {
  ShardID : Z;
  DomainID : UUID;
  WorkflowID : string;
  RunID : UUID;
  ScheduleID : Z;
  Data : bytes;
  DataEncoding : string;
  LastHeartbeatDetails : bytes;
  LastHeartbeatUpdatedTime : Time
}.

Definition zero : t := mk 0%Z [] EmptyString [] 0%Z [] EmptyString [] zeroTime.

Definition set_ShardID (v : Z) (r : t) : t :=
  mk v (DomainID r) (WorkflowID r) (RunID r) (ScheduleID r) (Data r) (DataEncoding r) (LastHeartbeatDetails r) (LastHeartbeatUpdatedTime r).

Definition set_DomainID (v : UUID) (r : t) : t :=
  mk (ShardID r) v (WorkflowID r) (RunID r) (ScheduleID r) (Data r) (DataEncoding r) (LastHeartbeatDetails r) (LastHeartbeatUpdatedTime r).

Definition set_WorkflowID (v : string) (r : t) : t :=
  mk (ShardID r) (DomainID r) v (RunID r) (ScheduleID r) (Data r) (DataEncoding r) (LastHeartbeatDetails r) (LastHeartbeatUpdatedTime r).

Definition set_RunID (v : UUID) (r : t) : t :=
  mk (ShardID r) (DomainID r) (WorkflowID r) v (ScheduleID r) (Data r) (DataEncoding r) (LastHeartbeatDetails r) (LastHeartbeatUpdatedTime r).

Definition set_ScheduleID (v : Z) (r : t) : t :=
  mk (ShardID r) (DomainID r) (WorkflowID r) (RunID r) v (Data r) (DataEncoding r) (LastHeartbeatDetails r) (LastHeartbeatUpdatedTime r).

Definition set_Data (v : bytes) (r : t) : t :=
  mk (ShardID r) (DomainID r) (WorkflowID r) (RunID r) (ScheduleID r) v (DataEncoding r) (LastHeartbeatDetails r) (LastHeartbeatUpdatedTime r).

Definition set_DataEncoding (v : string) (r : t) : t :=
  mk (ShardID r) (DomainID r) (WorkflowID r) (RunID r) (ScheduleID r) (Data r) v (LastHeartbeatDetails r) (LastHeartbeatUpdatedTime r).

Definition set_LastHeartbeatDetails (v : bytes) (r : t) : t :=
  mk (ShardID r) (DomainID r) (WorkflowID r) (RunID r) (ScheduleID r) (Data r) (DataEncoding r) v (LastHeartbeatUpdatedTime r).

Definition set_LastHeartbeatUpdatedTime (v : Time) (r : t) : t :=
  mk (ShardID r) (DomainID r) (WorkflowID r) (RunID r) (ScheduleID r) (Data r) (DataEncoding r) (LastHeartbeatDetails r) v.

Definition bind (r : t) : tuple :=
  [("shard_id", VInt (ShardID r));
   ("domain_id", VBytes (DomainID r));
   ("workflow_id", VText (WorkflowID r));
   ("run_id", VBytes (RunID r));
   ("schedule_id", VInt (ScheduleID r));
   ("data", VBytes (Data r));
   ("data_encoding", VText (DataEncoding r));
   ("last_heartbeat_details", VBytes (LastHeartbeatDetails r));
   ("last_heartbeat_updated_time", VTime (LastHeartbeatUpdatedTime r))].

Definition field (r : t) (c : string) (v : value) : option t :=
  if String.eqb c "shard_id" then
    match v with VInt x => Some (set_ShardID x r) | _ => None end
  else if String.eqb c "domain_id" then
    match v with VBytes x => Some (set_DomainID x r) | _ => None end
  else if String.eqb c "workflow_id" then
    match v with VText x => Some (set_WorkflowID x r) | _ => None end
  else if String.eqb c "run_id" then
    match v with VBytes x => Some (set_RunID x r) | _ => None end
  else if String.eqb c "schedule_id" then
    match v with VInt x => Some (set_ScheduleID x r) | _ => None end
  else if String.eqb c "data" then
    match v with VBytes x => Some (set_Data x r) | _ => None end
  else if String.eqb c "data_encoding" then
    match v with VText x => Some (set_DataEncoding x r) | _ => None end
  else if String.eqb c "last_heartbeat_details" then
    match v with VBytes x => Some (set_LastHeartbeatDetails x r) | _ => None end
  else if String.eqb c "last_heartbeat_updated_time" then
    match v with VTime x => Some (set_LastHeartbeatUpdatedTime x r) | _ => None end
  else None.

Definition scan : tuple -> option t := scanWith zero field.

End ActivityInfoMapsRow.

(** Modelled from the spec: the filter of the activity-info table: the execution
    identity and the keys to delete, if any. *)
Module ActivityInfoMapsFilter.

Record t := mk {
  ShardID : Z;
  DomainID : UUID;
  WorkflowID : string;
  RunID : UUID;
  ScheduleIDs : list Z
}.

End ActivityInfoMapsFilter.

(** Modelled from the spec: a row of the timer-info table, keyed by timer id. *)
Module TimerInfoMapsRow.

Record t := mk {
  ShardID : Z;
  DomainID : UUID;
  WorkflowID : string;
  RunID : UUID;
  TimerID : string;
  Data : bytes;
  DataEncoding : string
}.

Definition zero : t := mk 0%Z [] EmptyString [] EmptyString [] EmptyString.

Definition set_ShardID (v : Z) (r : t) : t :=
  mk v (DomainID r) (WorkflowID r) (RunID r) (TimerID r) (Data r) (DataEncoding r).

Definition set_DomainID (v : UUID) (r : t) : t :=
  mk (ShardID r) v (WorkflowID r) (RunID r) (TimerID r) (Data r) (DataEncoding r).

Definition set_WorkflowID (v : string) (r : t) : t :=
  mk (ShardID r) (DomainID r) v (RunID r) (TimerID r) (Data r) (DataEncoding r).

Definition set_RunID (v : UUID) (r : t) : t :=
  mk (ShardID r) (DomainID r) (WorkflowID r) v (TimerID r) (Data r) (DataEncoding r).

Definition set_TimerID (v : string) (r : t) : t :=
  mk (ShardID r) (DomainID r) (WorkflowID r) (RunID r) v (Data r) (DataEncoding r).

Definition set_Data (v : bytes) (r : t) : t :=
  mk (ShardID r) (DomainID r) (WorkflowID r) (RunID r) (TimerID r) v (DataEncoding r).

Definition set_DataEncoding (v : string) (r : t) : t :=
  mk (ShardID r) (DomainID r) (WorkflowID r) (RunID r) (TimerID r) (Data r) v.

Definition bind (r : t) : tuple :=
  [("shard_id", VInt (ShardID r));
   ("domain_id", VBytes (DomainID r));
   ("workflow_id", VText (WorkflowID r));
   ("run_id", VBytes (RunID r));
   ("timer_id", VText (TimerID r));
   ("data", VBytes (Data r));
   ("data_encoding", VText (DataEncoding r))].

Definition field (r : t) (c : string) (v : value) : option t :=
  if String.eqb c "shard_id" then
    match v with VInt x => Some (set_ShardID x r) | _ => None end
  else if String.eqb c "domain_id" then
    match v with VBytes x => Some (set_DomainID x r) | _ => None end
  else if String.eqb c "workflow_id" then
    match v with VText x => Some (set_WorkflowID x r) | _ => None end
  else if String.eqb c "run_id" then
    match v with VBytes x => Some (set_RunID x r) | _ => None end
  else if String.eqb c "timer_id" then
    match v with VText x => Some (set_TimerID x r) | _ => None end
  else if String.eqb c "data" then
    match v with VBytes x => Some (set_Data x r) | _ => None end
  else if String.eqb c "data_encoding" then
    match v with VText x => Some (set_DataEncoding x r) | _ => None end
  else None.

Definition scan : tuple -> option t := scanWith zero field.

End TimerInfoMapsRow.

(** Modelled from the spec: the filter of the timer-info table: the execution
    identity and the keys to delete, if any. *)
Module TimerInfoMapsFilter.

Record t := mk {
  ShardID : Z;
  DomainID : UUID;
  WorkflowID : string;
  RunID : UUID;
  TimerIDs : list string
}.

End TimerInfoMapsFilter.

(** Modelled from the spec: a row of the child-execution-info table, keyed by initiated id. *)
Module ChildExecutionInfoMapsRow.

Record t := mk {
  ShardID : Z;
  DomainID : UUID;
  WorkflowID : string;
  RunID : UUID;
  InitiatedID : Z;
  Data : bytes;
  DataEncoding : string
}.

Definition zero : t := mk 0%Z [] EmptyString [] 0%Z [] EmptyString.

Definition set_ShardID (v : Z) (r : t) : t :=
  mk v (DomainID r) (WorkflowID r) (RunID r) (InitiatedID r) (Data r) (DataEncoding r).

Definition set_DomainID (v : UUID) (r : t) : t :=
  mk (ShardID r) v (WorkflowID r) (RunID r) (InitiatedID r) (Data r) (DataEncoding r).

Definition set_WorkflowID (v : string) (r : t) : t :=
  mk (ShardID r) (DomainID r) v (RunID r) (InitiatedID r) (Data r) (DataEncoding r).

Definition set_RunID (v : UUID) (r : t) : t :=
  mk (ShardID r) (DomainID r) (WorkflowID r) v (InitiatedID r) (Data r) (DataEncoding r).

Definition set_InitiatedID (v : Z) (r : t) : t :=
  mk (ShardID r) (DomainID r) (WorkflowID r) (RunID r) v (Data r) (DataEncoding r).

Definition set_Data (v : bytes) (r : t) : t :=
  mk (ShardID r) (DomainID r) (WorkflowID r) (RunID r) (InitiatedID r) v (DataEncoding r).

Definition set_DataEncoding (v : string) (r : t) : t :=
  mk (ShardID r) (DomainID r) (WorkflowID r) (RunID r) (InitiatedID r) (Data r) v.

Definition bind (r : t) : tuple :=
  [("shard_id", VInt (ShardID r));
   ("domain_id", VBytes (DomainID r));
   ("workflow_id", VText (WorkflowID r));
   ("run_id", VBytes (RunID r));
   ("initiated_id", VInt (InitiatedID r));
   ("data", VBytes (Data r));
   ("data_encoding", VText (DataEncoding r))].

Definition field (r : t) (c : string) (v : value) : option t :=
  if String.eqb c "shard_id" then
    match v with VInt x => Some (set_ShardID x r) | _ => None end
  else if String.eqb c "domain_id" then
    match v with VBytes x => Some (set_DomainID x r) | _ => None end
  else if String.eqb c "workflow_id" then
    match v with VText x => Some (set_WorkflowID x r) | _ => None end
  else if String.eqb c "run_id" then
    match v with VBytes x => Some (set_RunID x r) | _ => None end
  else if String.eqb c "initiated_id" then
    match v with VInt x => Some (set_InitiatedID x r) | _ => None end
  else if String.eqb c "data" then
    match v with VBytes x => Some (set_Data x r) | _ => None end
  else if String.eqb c "data_encoding" then
    match v with VText x => Some (set_DataEncoding x r) | _ => None end
  else None.

Definition scan : tuple -> option t := scanWith zero field.

End ChildExecutionInfoMapsRow.

(** Modelled from the spec: the filter of the child-execution-info table: the execution
    identity and the keys to delete, if any. *)
Module ChildExecutionInfoMapsFilter.

Record t := mk {
  ShardID : Z;
  DomainID : UUID;
  WorkflowID : string;
  RunID : UUID;
  InitiatedIDs : list Z
}.

End ChildExecutionInfoMapsFilter.

(** Modelled from the spec: a row of the request-cancel-info table, keyed by initiated id. *)
Module RequestCancelInfoMapsRow.

Record t := mk {
  ShardID : Z;
  DomainID : UUID;
  WorkflowID : string;
  RunID : UUID;
  InitiatedID : Z;
  Data : bytes;
  DataEncoding : string
}.

Definition zero : t := mk 0%Z [] EmptyString [] 0%Z [] EmptyString.

Definition set_ShardID (v : Z) (r : t) : t :=
  mk v (DomainID r) (WorkflowID r) (RunID r) (InitiatedID r) (Data r) (DataEncoding r).

Definition set_DomainID (v : UUID) (r : t) : t :=
  mk (ShardID r) v (WorkflowID r) (RunID r) (InitiatedID r) (Data r) (DataEncoding r).

Definition set_WorkflowID (v : string) (r : t) : t :=
  mk (ShardID r) (DomainID r) v (RunID r) (InitiatedID r) (Data r) (DataEncoding r).

Definition set_RunID (v : UUID) (r : t) : t :=
  mk (ShardID r) (DomainID r) (WorkflowID r) v (InitiatedID r) (Data r) (DataEncoding r).

Definition set_InitiatedID (v : Z) (r : t) : t :=
  mk (ShardID r) (DomainID r) (WorkflowID r) (RunID r) v (Data r) (DataEncoding r).

Definition set_Data (v : bytes) (r : t) : t :=
  mk (ShardID r) (DomainID r) (WorkflowID r) (RunID r) (InitiatedID r) v (DataEncoding r).

Definition set_DataEncoding (v : string) (r : t) : t :=
  mk (ShardID r) (DomainID r) (WorkflowID r) (RunID r) (InitiatedID r) (Data r) v.

Definition bind (r : t) : tuple :=
  [("shard_id", VInt (ShardID r));
   ("domain_id", VBytes (DomainID r));
   ("workflow_id", VText (WorkflowID r));
   ("run_id", VBytes (RunID r));
   ("initiated_id", VInt (InitiatedID r));
   ("data", VBytes (Data r));
   ("data_encoding", VText (DataEncoding r))].

Definition field (r : t) (c : string) (v : value) : option t :=
  if String.eqb c "shard_id" then
    match v with VInt x => Some (set_ShardID x r) | _ => None end
  else if String.eqb c "domain_id" then
    match v with VBytes x => Some (set_DomainID x r) | _ => None end
  else if String.eqb c "workflow_id" then
    match v with VText x => Some (set_WorkflowID x r) | _ => None end
  else if String.eqb c "run_id" then
    match v with VBytes x => Some (set_RunID x r) | _ => None end
  else if String.eqb c "initiated_id" then
    match v with VInt x => Some (set_InitiatedID x r) | _ => None end
  else if String.eqb c "data" then
    match v with VBytes x => Some (set_Data x r) | _ => None end
  else if String.eqb c "data_encoding" then
    match v with VText x => Some (set_DataEncoding x r) | _ => None end
  else None.

Definition scan : tuple -> option t := scanWith zero field.

End RequestCancelInfoMapsRow.

(** Modelled from the spec: the filter of the request-cancel-info table: the execution
    identity and the keys to delete, if any. *)
Module RequestCancelInfoMapsFilter.

Record t := mk {
  ShardID : Z;
  DomainID : UUID;
  WorkflowID : string;
  RunID : UUID;
  InitiatedIDs : list Z
}.

End RequestCancelInfoMapsFilter.

(** Modelled from the spec: a row of the signal-info table, keyed by initiated id. *)
Module SignalInfoMapsRow.

Record t := mk {
  ShardID : Z;
  DomainID : UUID;
  WorkflowID : string;
  RunID : UUID;
  InitiatedID : Z;
  Data : bytes;
  DataEncoding : string
}.

Definition zero : t := mk 0%Z [] EmptyString [] 0%Z [] EmptyString.

Definition set_ShardID (v : Z) (r : t) : t :=
  mk v (DomainID r) (WorkflowID r) (RunID r) (InitiatedID r) (Data r) (DataEncoding r).

Definition set_DomainID (v : UUID) (r : t) : t :=
  mk (ShardID r) v (WorkflowID r) (RunID r) (InitiatedID r) (Data r) (DataEncoding r).

Definition set_WorkflowID (v : string) (r : t) : t :=
  mk (ShardID r) (DomainID r) v (RunID r) (InitiatedID r) (Data r) (DataEncoding r).

Definition set_RunID (v : UUID) (r : t) : t :=
  mk (ShardID r) (DomainID r) (WorkflowID r) v (InitiatedID r) (Data r) (DataEncoding r).

Definition set_InitiatedID (v : Z) (r : t) : t :=
  mk (ShardID r) (DomainID r) (WorkflowID r) (RunID r) v (Data r) (DataEncoding r).

Definition set_Data (v : bytes) (r : t) : t :=
  mk (ShardID r) (DomainID r) (WorkflowID r) (RunID r) (InitiatedID r) v (DataEncoding r).

Definition set_DataEncoding (v : string) (r : t) : t :=
  mk (ShardID r) (DomainID r) (WorkflowID r) (RunID r) (InitiatedID r) (Data r) v.

Definition bind (r : t) : tuple :=
  [("shard_id", VInt (ShardID r));
   ("domain_id", VBytes (DomainID r));
   ("workflow_id", VText (WorkflowID r));
   ("run_id", VBytes (RunID r));
   ("initiated_id", VInt (InitiatedID r));
   ("data", VBytes (Data r));
   ("data_encoding", VText (DataEncoding r))].

Definition field (r : t) (c : string) (v : value) : option t :=
  if String.eqb c "shard_id" then
    match v with VInt x => Some (set_ShardID x r) | _ => None end
  else if String.eqb c "domain_id" then
    match v with VBytes x => Some (set_DomainID x r) | _ => None end
  else if String.eqb c "workflow_id" then
    match v with VText x => Some (set_WorkflowID x r) | _ => None end
  else if String.eqb c "run_id" then
    match v with VBytes x => Some (set_RunID x r) | _ => None end
  else if String.eqb c "initiated_id" then
    match v with VInt x => Some (set_InitiatedID x r) | _ => None end
  else if String.eqb c "data" then
    match v with VBytes x => Some (set_Data x r) | _ => None end
  else if String.eqb c "data_encoding" then
    match v with VText x => Some (set_DataEncoding x r) | _ => None end
  else None.

Definition scan : tuple -> option t := scanWith zero field.

End SignalInfoMapsRow.

(** Modelled from the spec: the filter of the signal-info table: the execution
    identity and the keys to delete, if any. *)
Module SignalInfoMapsFilter.

Record t := mk {
  ShardID : Z;
  DomainID : UUID;
  WorkflowID : string;
  RunID : UUID;
  InitiatedIDs : list Z
}.

End SignalInfoMapsFilter.

(** Modelled from the spec: a row of the signals-requested set, which holds signal ids and no payload. *)
Module SignalsRequestedSetsRow.

Record t := mk {
  ShardID : Z;
  DomainID : UUID;
  WorkflowID : string;
  RunID : UUID;
  SignalID : string
}.

Definition zero : t := mk 0%Z [] EmptyString [] EmptyString.

Definition set_ShardID (v : Z) (r : t) : t :=
  mk v (DomainID r) (WorkflowID r) (RunID r) (SignalID r).

Definition set_DomainID (v : UUID) (r : t) : t :=
  mk (ShardID r) v (WorkflowID r) (RunID r) (SignalID r).

Definition set_WorkflowID (v : string) (r : t) : t :=
  mk (ShardID r) (DomainID r) v (RunID r) (SignalID r).

Definition set_RunID (v : UUID) (r : t) : t :=
  mk (ShardID r) (DomainID r) (WorkflowID r) v (SignalID r).

Definition set_SignalID (v : string) (r : t) : t :=
  mk (ShardID r) (DomainID r) (WorkflowID r) (RunID r) v.

Definition bind (r : t) : tuple :=
  [("shard_id", VInt (ShardID r));
   ("domain_id", VBytes (DomainID r));
   ("workflow_id", VText (WorkflowID r));
   ("run_id", VBytes (RunID r));
   ("signal_id", VText (SignalID r))].

Definition field (r : t) (c : string) (v : value) : option t :=
  if String.eqb c "shard_id" then
    match v with VInt x => Some (set_ShardID x r) | _ => None end
  else if String.eqb c "domain_id" then
    match v with VBytes x => Some (set_DomainID x r) | _ => None end
  else if String.eqb c "workflow_id" then
    match v with VText x => Some (set_WorkflowID x r) | _ => None end
  else if String.eqb c "run_id" then
    match v with VBytes x => Some (set_RunID x r) | _ => None end
  else if String.eqb c "signal_id" then
    match v with VText x => Some (set_SignalID x r) | _ => None end
  else None.

Definition scan : tuple -> option t := scanWith zero field.

End SignalsRequestedSetsRow.

(** Modelled from the spec: the filter of the signals-requested set: the execution
    identity and the keys to delete, if any. *)
Module SignalsRequestedSetsFilter.

Record t := mk {
  ShardID : Z;
  DomainID : UUID;
  WorkflowID : string;
  RunID : UUID;
  SignalIDs : list string
}.

End SignalsRequestedSetsFilter.


(** ** Loops over a slice *)

(** [rows[i] = f(rows[i])]; an index past the end changes nothing here, and
    the loops below never produce one. *)
Fixpoint updAt {A : Type} (i : nat) (f : A -> A) (l : list A) : list A :=
  match l, i with
  | [], _ => []
  | a :: l', O => f a :: l'
  | a :: l', S i' => a :: updAt i' f l'
  end.

(** [for i := from; i < from + n; i++ { s = body i s }]. *)
Fixpoint forRange {St : Type} (n from : nat) (body : nat -> St -> St) (s : St) : St :=
  match n with
  | O => s
  | S n' => forRange n' (S from) body (body from s)
  end.

(** ** The operations of the plugin *)

(** The receiver [pdb]: its converter and the configured number of
    physical shards.  The driver's state is passed to every operation and
    returned by it. *)
Record db := mkDb {
  ToPostgresDateTime : Time -> Time;
  FromPostgresDateTime : Time -> Time;
  GetTotalNumDBShards : Z
}.

Import sqldriver.

Section Operations.

(** [sqlplugin.GetDBShardIDFromHistoryShardID], the shard router. *)
Variable GetDBShardIDFromHistoryShardID : Z -> Z -> Z.

(** [sqlx.In], a parameter of the operations: its outcome is all that
    they look at.  [sqlx.In] above is its model. *)
Variable In : string -> list sqlx.inArg -> (string * list value) + error.

(** [ReplaceIntoActivityInfoMaps] replaces one or more rows in the
    [activity_info_maps] table.  The second component of the result is
    the caller's slice after the call. *)
Definition ReplaceIntoActivityInfoMaps (pdb : db) (rows : list ActivityInfoMapsRow.t) (b : Backend)
    : (option Result * option error) * list ActivityInfoMapsRow.t * Backend :=
  match rows with
  | [] => ((None, None), rows, b)
  | r0 :: _ =>
      let dbShardID :=
        GetDBShardIDFromHistoryShardID (ActivityInfoMapsRow.ShardID r0) (GetTotalNumDBShards pdb) in
      let rows :=
        forRange (length rows) 0
          (fun i rows =>
             updAt i (fun r =>
               ActivityInfoMapsRow.set_LastHeartbeatUpdatedTime
                 (ToPostgresDateTime pdb (ActivityInfoMapsRow.LastHeartbeatUpdatedTime r)) r) rows)
          rows in
      let '(res, b') :=
        NamedExecContext b dbShardID setKeyInActivityInfoMapQry
          (map ActivityInfoMapsRow.bind rows) in
      (res, rows, b')
  end.

(** [SelectFromActivityInfoMaps] reads one or more rows from the
    [activity_info_maps] table. *)
Definition SelectFromActivityInfoMaps (pdb : db) (filter : ActivityInfoMapsFilter.t) (b : Backend)
    : (list ActivityInfoMapsRow.t * option error) * Backend :=
  let dbShardID :=
    GetDBShardIDFromHistoryShardID (ActivityInfoMapsFilter.ShardID filter) (GetTotalNumDBShards pdb) in
  let '((rows, err), b') :=
    SelectContext b dbShardID ActivityInfoMapsRow.scan getActivityInfoMapQry
      [VInt (ActivityInfoMapsFilter.ShardID filter); VBytes (ActivityInfoMapsFilter.DomainID filter);
       VText (ActivityInfoMapsFilter.WorkflowID filter); VBytes (ActivityInfoMapsFilter.RunID filter)] in
  let rows :=
    forRange (length rows) 0
      (fun i rows =>
         updAt i (fun r =>
           let r := ActivityInfoMapsRow.set_ShardID (ActivityInfoMapsFilter.ShardID filter) r in
           let r := ActivityInfoMapsRow.set_DomainID (ActivityInfoMapsFilter.DomainID filter) r in
           let r := ActivityInfoMapsRow.set_WorkflowID (ActivityInfoMapsFilter.WorkflowID filter) r in
           let r := ActivityInfoMapsRow.set_RunID (ActivityInfoMapsFilter.RunID filter) r in
           ActivityInfoMapsRow.set_LastHeartbeatUpdatedTime
             (FromPostgresDateTime pdb (ActivityInfoMapsRow.LastHeartbeatUpdatedTime r)) r) rows)
      rows in
  ((rows, err), b').

(** [DeleteFromActivityInfoMaps] deletes one or more rows from the
    [activity_info_maps] table. *)
Definition DeleteFromActivityInfoMaps (pdb : db) (filter : ActivityInfoMapsFilter.t) (b : Backend)
    : (option Result * option error) * Backend :=
  let dbShardID :=
    GetDBShardIDFromHistoryShardID (ActivityInfoMapsFilter.ShardID filter) (GetTotalNumDBShards pdb) in
  if Nat.ltb 0 (length (ActivityInfoMapsFilter.ScheduleIDs filter)) then
    match In deleteKeyInActivityInfoMapQry
            [sqlx.One (VInt (ActivityInfoMapsFilter.ShardID filter));
             sqlx.One (VBytes (ActivityInfoMapsFilter.DomainID filter));
             sqlx.One (VText (ActivityInfoMapsFilter.WorkflowID filter));
             sqlx.One (VBytes (ActivityInfoMapsFilter.RunID filter));
             sqlx.Many (map VInt (ActivityInfoMapsFilter.ScheduleIDs filter))] with
    | inr err => ((None, Some err), b)
    | inl (query, args) =>
        ExecContext b dbShardID (sqlx.Rebind (sqlx.BindType PluginName) query) args
    end
  else
    ExecContext b dbShardID deleteActivityInfoMapQry
      [VInt (ActivityInfoMapsFilter.ShardID filter); VBytes (ActivityInfoMapsFilter.DomainID filter);
       VText (ActivityInfoMapsFilter.WorkflowID filter); VBytes (ActivityInfoMapsFilter.RunID filter)].

(** [ReplaceIntoTimerInfoMaps] replaces one or more rows in the
    [timer_info_maps] table. *)
Definition ReplaceIntoTimerInfoMaps (pdb : db) (rows : list TimerInfoMapsRow.t) (b : Backend)
    : (option Result * option error) * Backend :=
  match rows with
  | [] => ((None, None), b)
  | r0 :: _ =>
      let dbShardID :=
        GetDBShardIDFromHistoryShardID (TimerInfoMapsRow.ShardID r0) (GetTotalNumDBShards pdb) in
      NamedExecContext b dbShardID setKeyInTimerInfoMapSQLQuery
        (map TimerInfoMapsRow.bind rows)
  end.

(** [SelectFromTimerInfoMaps] reads one or more rows from the
    [timer_info_maps] table. *)
Definition SelectFromTimerInfoMaps (pdb : db) (filter : TimerInfoMapsFilter.t) (b : Backend)
    : (list TimerInfoMapsRow.t * option error) * Backend :=
  let dbShardID :=
    GetDBShardIDFromHistoryShardID (TimerInfoMapsFilter.ShardID filter) (GetTotalNumDBShards pdb) in
  let '((rows, err), b') :=
    SelectContext b dbShardID TimerInfoMapsRow.scan getTimerInfoMapSQLQuery
      [VInt (TimerInfoMapsFilter.ShardID filter); VBytes (TimerInfoMapsFilter.DomainID filter);
       VText (TimerInfoMapsFilter.WorkflowID filter); VBytes (TimerInfoMapsFilter.RunID filter)] in
  let rows :=
    forRange (length rows) 0
      (fun i rows =>
         updAt i (fun r =>
           let r := TimerInfoMapsRow.set_ShardID (TimerInfoMapsFilter.ShardID filter) r in
           let r := TimerInfoMapsRow.set_DomainID (TimerInfoMapsFilter.DomainID filter) r in
           let r := TimerInfoMapsRow.set_WorkflowID (TimerInfoMapsFilter.WorkflowID filter) r in
           TimerInfoMapsRow.set_RunID (TimerInfoMapsFilter.RunID filter) r) rows)
      rows in
  ((rows, err), b').

(** [DeleteFromTimerInfoMaps] deletes one or more rows from the
    [timer_info_maps] table. *)
Definition DeleteFromTimerInfoMaps (pdb : db) (filter : TimerInfoMapsFilter.t) (b : Backend)
    : (option Result * option error) * Backend :=
  let dbShardID :=
    GetDBShardIDFromHistoryShardID (TimerInfoMapsFilter.ShardID filter) (GetTotalNumDBShards pdb) in
  if Nat.ltb 0 (length (TimerInfoMapsFilter.TimerIDs filter)) then
    match In deleteKeyInTimerInfoMapSQLQuery
            [sqlx.One (VInt (TimerInfoMapsFilter.ShardID filter));
             sqlx.One (VBytes (TimerInfoMapsFilter.DomainID filter));
             sqlx.One (VText (TimerInfoMapsFilter.WorkflowID filter));
             sqlx.One (VBytes (TimerInfoMapsFilter.RunID filter));
             sqlx.Many (map VText (TimerInfoMapsFilter.TimerIDs filter))] with
    | inr err => ((None, Some err), b)
    | inl (query, args) =>
        ExecContext b dbShardID (sqlx.Rebind (sqlx.BindType PluginName) query) args
    end
  else
    ExecContext b dbShardID deleteTimerInfoMapSQLQuery
      [VInt (TimerInfoMapsFilter.ShardID filter); VBytes (TimerInfoMapsFilter.DomainID filter);
       VText (TimerInfoMapsFilter.WorkflowID filter); VBytes (TimerInfoMapsFilter.RunID filter)].

(** [ReplaceIntoChildExecutionInfoMaps] replaces one or more rows in the
    [child_execution_info_maps] table. *)
Definition ReplaceIntoChildExecutionInfoMaps (pdb : db) (rows : list ChildExecutionInfoMapsRow.t) (b : Backend)
    : (option Result * option error) * Backend :=
  match rows with
  | [] => ((None, None), b)
  | r0 :: _ =>
      let dbShardID :=
        GetDBShardIDFromHistoryShardID (ChildExecutionInfoMapsRow.ShardID r0) (GetTotalNumDBShards pdb) in
      NamedExecContext b dbShardID setKeyInChildExecutionInfoMapQry
        (map ChildExecutionInfoMapsRow.bind rows)
  end.

(** [SelectFromChildExecutionInfoMaps] reads one or more rows from the
    [child_execution_info_maps] table. *)
Definition SelectFromChildExecutionInfoMaps (pdb : db) (filter : ChildExecutionInfoMapsFilter.t) (b : Backend)
    : (list ChildExecutionInfoMapsRow.t * option error) * Backend :=
  let dbShardID :=
    GetDBShardIDFromHistoryShardID (ChildExecutionInfoMapsFilter.ShardID filter) (GetTotalNumDBShards pdb) in
  let '((rows, err), b') :=
    SelectContext b dbShardID ChildExecutionInfoMapsRow.scan getChildExecutionInfoMapQry
      [VInt (ChildExecutionInfoMapsFilter.ShardID filter); VBytes (ChildExecutionInfoMapsFilter.DomainID filter);
       VText (ChildExecutionInfoMapsFilter.WorkflowID filter); VBytes (ChildExecutionInfoMapsFilter.RunID filter)] in
  let rows :=
    forRange (length rows) 0
      (fun i rows =>
         updAt i (fun r =>
           let r := ChildExecutionInfoMapsRow.set_ShardID (ChildExecutionInfoMapsFilter.ShardID filter) r in
           let r := ChildExecutionInfoMapsRow.set_DomainID (ChildExecutionInfoMapsFilter.DomainID filter) r in
           let r := ChildExecutionInfoMapsRow.set_WorkflowID (ChildExecutionInfoMapsFilter.WorkflowID filter) r in
           ChildExecutionInfoMapsRow.set_RunID (ChildExecutionInfoMapsFilter.RunID filter) r) rows)
      rows in
  ((rows, err), b').

(** [DeleteFromChildExecutionInfoMaps] deletes one or more rows from the
    [child_execution_info_maps] table. *)
Definition DeleteFromChildExecutionInfoMaps (pdb : db) (filter : ChildExecutionInfoMapsFilter.t) (b : Backend)
    : (option Result * option error) * Backend :=
  let dbShardID :=
    GetDBShardIDFromHistoryShardID (ChildExecutionInfoMapsFilter.ShardID filter) (GetTotalNumDBShards pdb) in
  if Nat.ltb 0 (length (ChildExecutionInfoMapsFilter.InitiatedIDs filter)) then
    match In deleteKeyInChildExecutionInfoMapQry
            [sqlx.One (VInt (ChildExecutionInfoMapsFilter.ShardID filter));
             sqlx.One (VBytes (ChildExecutionInfoMapsFilter.DomainID filter));
             sqlx.One (VText (ChildExecutionInfoMapsFilter.WorkflowID filter));
             sqlx.One (VBytes (ChildExecutionInfoMapsFilter.RunID filter));
             sqlx.Many (map VInt (ChildExecutionInfoMapsFilter.InitiatedIDs filter))] with
    | inr err => ((None, Some err), b)
    | inl (query, args) =>
        ExecContext b dbShardID (sqlx.Rebind (sqlx.BindType PluginName) query) args
    end
  else
    ExecContext b dbShardID deleteChildExecutionInfoMapQry
      [VInt (ChildExecutionInfoMapsFilter.ShardID filter); VBytes (ChildExecutionInfoMapsFilter.DomainID filter);
       VText (ChildExecutionInfoMapsFilter.WorkflowID filter); VBytes (ChildExecutionInfoMapsFilter.RunID filter)].

(** [ReplaceIntoRequestCancelInfoMaps] replaces one or more rows in the
    [request_cancel_info_maps] table. *)
Definition ReplaceIntoRequestCancelInfoMaps (pdb : db) (rows : list RequestCancelInfoMapsRow.t) (b : Backend)
    : (option Result * option error) * Backend :=
  match rows with
  | [] => ((None, None), b)
  | r0 :: _ =>
      let dbShardID :=
        GetDBShardIDFromHistoryShardID (RequestCancelInfoMapsRow.ShardID r0) (GetTotalNumDBShards pdb) in
      NamedExecContext b dbShardID setKeyInRequestCancelInfoMapQry
        (map RequestCancelInfoMapsRow.bind rows)
  end.

(** [SelectFromRequestCancelInfoMaps] reads one or more rows from the
    [request_cancel_info_maps] table. *)
Definition SelectFromRequestCancelInfoMaps (pdb : db) (filter : RequestCancelInfoMapsFilter.t) (b : Backend)
    : (list RequestCancelInfoMapsRow.t * option error) * Backend :=
  let dbShardID :=
    GetDBShardIDFromHistoryShardID (RequestCancelInfoMapsFilter.ShardID filter) (GetTotalNumDBShards pdb) in
  let '((rows, err), b') :=
    SelectContext b dbShardID RequestCancelInfoMapsRow.scan getRequestCancelInfoMapQry
      [VInt (RequestCancelInfoMapsFilter.ShardID filter); VBytes (RequestCancelInfoMapsFilter.DomainID filter);
       VText (RequestCancelInfoMapsFilter.WorkflowID filter); VBytes (RequestCancelInfoMapsFilter.RunID filter)] in
  let rows :=
    forRange (length rows) 0
      (fun i rows =>
         updAt i (fun r =>
           let r := RequestCancelInfoMapsRow.set_ShardID (RequestCancelInfoMapsFilter.ShardID filter) r in
           let r := RequestCancelInfoMapsRow.set_DomainID (RequestCancelInfoMapsFilter.DomainID filter) r in
           let r := RequestCancelInfoMapsRow.set_WorkflowID (RequestCancelInfoMapsFilter.WorkflowID filter) r in
           RequestCancelInfoMapsRow.set_RunID (RequestCancelInfoMapsFilter.RunID filter) r) rows)
      rows in
  ((rows, err), b').

(** [DeleteFromRequestCancelInfoMaps] deletes one or more rows from the
    [request_cancel_info_maps] table. *)
Definition DeleteFromRequestCancelInfoMaps (pdb : db) (filter : RequestCancelInfoMapsFilter.t) (b : Backend)
    : (option Result * option error) * Backend :=
  let dbShardID :=
    GetDBShardIDFromHistoryShardID (RequestCancelInfoMapsFilter.ShardID filter) (GetTotalNumDBShards pdb) in
  if Nat.ltb 0 (length (RequestCancelInfoMapsFilter.InitiatedIDs filter)) then
    match In deleteKeyInRequestCancelInfoMapQry
            [sqlx.One (VInt (RequestCancelInfoMapsFilter.ShardID filter));
             sqlx.One (VBytes (RequestCancelInfoMapsFilter.DomainID filter));
             sqlx.One (VText (RequestCancelInfoMapsFilter.WorkflowID filter));
             sqlx.One (VBytes (RequestCancelInfoMapsFilter.RunID filter));
             sqlx.Many (map VInt (RequestCancelInfoMapsFilter.InitiatedIDs filter))] with
    | inr err => ((None, Some err), b)
    | inl (query, args) =>
        ExecContext b dbShardID (sqlx.Rebind (sqlx.BindType PluginName) query) args
    end
  else
    ExecContext b dbShardID deleteRequestCancelInfoMapQry
      [VInt (RequestCancelInfoMapsFilter.ShardID filter); VBytes (RequestCancelInfoMapsFilter.DomainID filter);
       VText (RequestCancelInfoMapsFilter.WorkflowID filter); VBytes (RequestCancelInfoMapsFilter.RunID filter)].

(** [ReplaceIntoSignalInfoMaps] replaces one or more rows in the
    [signal_info_maps] table. *)
Definition ReplaceIntoSignalInfoMaps (pdb : db) (rows : list SignalInfoMapsRow.t) (b : Backend)
    : (option Result * option error) * Backend :=
  match rows with
  | [] => ((None, None), b)
  | r0 :: _ =>
      let dbShardID :=
        GetDBShardIDFromHistoryShardID (SignalInfoMapsRow.ShardID r0) (GetTotalNumDBShards pdb) in
      NamedExecContext b dbShardID setKeyInSignalInfoMapQry
        (map SignalInfoMapsRow.bind rows)
  end.

(** [SelectFromSignalInfoMaps] reads one or more rows from the
    [signal_info_maps] table. *)
Definition SelectFromSignalInfoMaps (pdb : db) (filter : SignalInfoMapsFilter.t) (b : Backend)
    : (list SignalInfoMapsRow.t * option error) * Backend :=
  let dbShardID :=
    GetDBShardIDFromHistoryShardID (SignalInfoMapsFilter.ShardID filter) (GetTotalNumDBShards pdb) in
  let '((rows, err), b') :=
    SelectContext b dbShardID SignalInfoMapsRow.scan getSignalInfoMapQry
      [VInt (SignalInfoMapsFilter.ShardID filter); VBytes (SignalInfoMapsFilter.DomainID filter);
       VText (SignalInfoMapsFilter.WorkflowID filter); VBytes (SignalInfoMapsFilter.RunID filter)] in
  let rows :=
    forRange (length rows) 0
      (fun i rows =>
         updAt i (fun r =>
           let r := SignalInfoMapsRow.set_ShardID (SignalInfoMapsFilter.ShardID filter) r in
           let r := SignalInfoMapsRow.set_DomainID (SignalInfoMapsFilter.DomainID filter) r in
           let r := SignalInfoMapsRow.set_WorkflowID (SignalInfoMapsFilter.WorkflowID filter) r in
           SignalInfoMapsRow.set_RunID (SignalInfoMapsFilter.RunID filter) r) rows)
      rows in
  ((rows, err), b').

(** [DeleteFromSignalInfoMaps] deletes one or more rows from the
    [signal_info_maps] table. *)
Definition DeleteFromSignalInfoMaps (pdb : db) (filter : SignalInfoMapsFilter.t) (b : Backend)
    : (option Result * option error) * Backend :=
  let dbShardID :=
    GetDBShardIDFromHistoryShardID (SignalInfoMapsFilter.ShardID filter) (GetTotalNumDBShards pdb) in
  if Nat.ltb 0 (length (SignalInfoMapsFilter.InitiatedIDs filter)) then
    match In deleteKeyInSignalInfoMapQry
            [sqlx.One (VInt (SignalInfoMapsFilter.ShardID filter));
             sqlx.One (VBytes (SignalInfoMapsFilter.DomainID filter));
             sqlx.One (VText (SignalInfoMapsFilter.WorkflowID filter));
             sqlx.One (VBytes (SignalInfoMapsFilter.RunID filter));
             sqlx.Many (map VInt (SignalInfoMapsFilter.InitiatedIDs filter))] with
    | inr err => ((None, Some err), b)
    | inl (query, args) =>
        ExecContext b dbShardID (sqlx.Rebind (sqlx.BindType PluginName) query) args
    end
  else
    ExecContext b dbShardID deleteSignalInfoMapQry
      [VInt (SignalInfoMapsFilter.ShardID filter); VBytes (SignalInfoMapsFilter.DomainID filter);
       VText (SignalInfoMapsFilter.WorkflowID filter); VBytes (SignalInfoMapsFilter.RunID filter)].

(** [InsertIntoSignalsRequestedSets] inserts one or more rows into the
    [signals_requested_sets] table. *)
Definition InsertIntoSignalsRequestedSets (pdb : db) (rows : list SignalsRequestedSetsRow.t) (b : Backend)
    : (option Result * option error) * Backend :=
  match rows with
  | [] => ((None, None), b)
  | r0 :: _ =>
      let dbShardID :=
        GetDBShardIDFromHistoryShardID (SignalsRequestedSetsRow.ShardID r0) (GetTotalNumDBShards pdb) in
      NamedExecContext b dbShardID createSignalsRequestedSetQuery
        (map SignalsRequestedSetsRow.bind rows)
  end.

(** [SelectFromSignalsRequestedSets] reads one or more rows from the
    [signals_requested_sets] table. *)
Definition SelectFromSignalsRequestedSets (pdb : db) (filter : SignalsRequestedSetsFilter.t) (b : Backend)
    : (list SignalsRequestedSetsRow.t * option error) * Backend :=
  let dbShardID :=
    GetDBShardIDFromHistoryShardID (SignalsRequestedSetsFilter.ShardID filter) (GetTotalNumDBShards pdb) in
  let '((rows, err), b') :=
    SelectContext b dbShardID SignalsRequestedSetsRow.scan getSignalsRequestedSetQuery
      [VInt (SignalsRequestedSetsFilter.ShardID filter); VBytes (SignalsRequestedSetsFilter.DomainID filter);
       VText (SignalsRequestedSetsFilter.WorkflowID filter); VBytes (SignalsRequestedSetsFilter.RunID filter)] in
  let rows :=
    forRange (length rows) 0
      (fun i rows =>
         updAt i (fun r =>
           let r := SignalsRequestedSetsRow.set_ShardID (SignalsRequestedSetsFilter.ShardID filter) r in
           let r := SignalsRequestedSetsRow.set_DomainID (SignalsRequestedSetsFilter.DomainID filter) r in
           let r := SignalsRequestedSetsRow.set_WorkflowID (SignalsRequestedSetsFilter.WorkflowID filter) r in
           SignalsRequestedSetsRow.set_RunID (SignalsRequestedSetsFilter.RunID filter) r) rows)
      rows in
  ((rows, err), b').

(** [DeleteFromSignalsRequestedSets] deletes one or more rows from the
    [signals_requested_sets] table. *)
Definition DeleteFromSignalsRequestedSets (pdb : db) (filter : SignalsRequestedSetsFilter.t) (b : Backend)
    : (option Result * option error) * Backend :=
  let dbShardID :=
    GetDBShardIDFromHistoryShardID (SignalsRequestedSetsFilter.ShardID filter) (GetTotalNumDBShards pdb) in
  if Nat.ltb 0 (length (SignalsRequestedSetsFilter.SignalIDs filter)) then
    match In deleteSignalsRequestedSetQuery
            [sqlx.One (VInt (SignalsRequestedSetsFilter.ShardID filter));
             sqlx.One (VBytes (SignalsRequestedSetsFilter.DomainID filter));
             sqlx.One (VText (SignalsRequestedSetsFilter.WorkflowID filter));
             sqlx.One (VBytes (SignalsRequestedSetsFilter.RunID filter));
             sqlx.Many (map VText (SignalsRequestedSetsFilter.SignalIDs filter))] with
    | inr err => ((None, Some err), b)
    | inl (query, args) =>
        ExecContext b dbShardID (sqlx.Rebind (sqlx.BindType PluginName) query) args
    end
  else
    ExecContext b dbShardID deleteAllSignalsRequestedSetQuery
      [VInt (SignalsRequestedSetsFilter.ShardID filter); VBytes (SignalsRequestedSetsFilter.DomainID filter);
       VText (SignalsRequestedSetsFilter.WorkflowID filter); VBytes (SignalsRequestedSetsFilter.RunID filter)].

End Operations.


(** ** Vocabulary of the statements *)

(** The four identity values of a filter, as they are bound to [$1 .. $4]. *)
Definition identityArgs (shardID : Z) (domainID : UUID) (workflowID : string) (runID : UUID)
    : list value :=
  [VInt shardID; VBytes domainID; VText workflowID; VBytes runID].

(** The arguments of [In] for a delete by key set: the four identity
    values and the slice of keys. *)
Definition inArgs (shardID : Z) (domainID : UUID) (workflowID : string) (runID : UUID)
    (keys : list value) : list sqlx.inArg :=
  [sqlx.One (VInt shardID); sqlx.One (VBytes domainID); sqlx.One (VText workflowID);
   sqlx.One (VBytes runID); sqlx.Many keys].

(** What the driver hands back to each Select before the rows are
    re-stamped. *)
Section Fetched.

Variable router : Z -> Z -> Z.
Variable pdb : db.

Definition fetchedActivityInfoMaps (f : ActivityInfoMapsFilter.t) (b : Backend) :=
  fst (fst (SelectContext b
    (router (ActivityInfoMapsFilter.ShardID f) (GetTotalNumDBShards pdb))
    ActivityInfoMapsRow.scan getActivityInfoMapQry
    (identityArgs (ActivityInfoMapsFilter.ShardID f) (ActivityInfoMapsFilter.DomainID f)
                  (ActivityInfoMapsFilter.WorkflowID f) (ActivityInfoMapsFilter.RunID f)))).

Definition fetchedTimerInfoMaps (f : TimerInfoMapsFilter.t) (b : Backend) :=
  fst (fst (SelectContext b
    (router (TimerInfoMapsFilter.ShardID f) (GetTotalNumDBShards pdb))
    TimerInfoMapsRow.scan getTimerInfoMapSQLQuery
    (identityArgs (TimerInfoMapsFilter.ShardID f) (TimerInfoMapsFilter.DomainID f)
                  (TimerInfoMapsFilter.WorkflowID f) (TimerInfoMapsFilter.RunID f)))).

Definition fetchedChildExecutionInfoMaps (f : ChildExecutionInfoMapsFilter.t) (b : Backend) :=
  fst (fst (SelectContext b
    (router (ChildExecutionInfoMapsFilter.ShardID f) (GetTotalNumDBShards pdb))
    ChildExecutionInfoMapsRow.scan getChildExecutionInfoMapQry
    (identityArgs (ChildExecutionInfoMapsFilter.ShardID f)
                  (ChildExecutionInfoMapsFilter.DomainID f)
                  (ChildExecutionInfoMapsFilter.WorkflowID f)
                  (ChildExecutionInfoMapsFilter.RunID f)))).

Definition fetchedRequestCancelInfoMaps (f : RequestCancelInfoMapsFilter.t) (b : Backend) :=
  fst (fst (SelectContext b
    (router (RequestCancelInfoMapsFilter.ShardID f) (GetTotalNumDBShards pdb))
    RequestCancelInfoMapsRow.scan getRequestCancelInfoMapQry
    (identityArgs (RequestCancelInfoMapsFilter.ShardID f)
                  (RequestCancelInfoMapsFilter.DomainID f)
                  (RequestCancelInfoMapsFilter.WorkflowID f)
                  (RequestCancelInfoMapsFilter.RunID f)))).

Definition fetchedSignalInfoMaps (f : SignalInfoMapsFilter.t) (b : Backend) :=
  fst (fst (SelectContext b
    (router (SignalInfoMapsFilter.ShardID f) (GetTotalNumDBShards pdb))
    SignalInfoMapsRow.scan getSignalInfoMapQry
    (identityArgs (SignalInfoMapsFilter.ShardID f) (SignalInfoMapsFilter.DomainID f)
                  (SignalInfoMapsFilter.WorkflowID f) (SignalInfoMapsFilter.RunID f)))).

Definition fetchedSignalsRequestedSets (f : SignalsRequestedSetsFilter.t) (b : Backend) :=
  fst (fst (SelectContext b
    (router (SignalsRequestedSetsFilter.ShardID f) (GetTotalNumDBShards pdb))
    SignalsRequestedSetsRow.scan getSignalsRequestedSetQuery
    (identityArgs (SignalsRequestedSetsFilter.ShardID f)
                  (SignalsRequestedSetsFilter.DomainID f)
                  (SignalsRequestedSetsFilter.WorkflowID f)
                  (SignalsRequestedSetsFilter.RunID f)))).

End Fetched.

(** The conditions on the execution identity that every statement of the
    plugin carries in its [WHERE] clause. *)
Definition identityConds : list pg.cond :=
  [pg.CEq "shard_id" 1; pg.CEq "domain_id" 2; pg.CEq "workflow_id" 3; pg.CEq "run_id" 4].

(** [$from, $from+1, ...]: [n] numbered placeholders. *)
Definition placeholders (from n : nat) : list string :=
  map (fun k => "$" ++ itoa k) (seq from n).

(** The delete-by-key-set statement with its [IN] list expanded to [n]
    placeholders and rebound for PostgreSQL. *)
Definition deleteKeyInMapQryBound (tableName mapKeyName : string) (n : nat) : string :=
  "DELETE FROM " ++ tableName ++ LF ++
  "WHERE" ++ LF ++
  "shard_id = $1 AND" ++ LF ++
  "domain_id = $2 AND" ++ LF ++
  "workflow_id = $3 AND" ++ LF ++
  "run_id = $4 AND" ++ LF ++
  mapKeyName ++ " IN ( " ++ String.concat ", " (placeholders 5 n) ++ " )".

(** [", $j+1, $j+2, ..."]: [m] further placeholders, then [rest]. *)
Fixpoint moreDollar (j m : nat) (rest : string) : string :=
  match m with
  | O => rest
  | S m' => ", $" ++ itoa (S j) ++ moreDollar (S j) m' rest
  end.

(** The lexemes of [moreDollar j m] after its first word. *)
Definition commaTail (j m : nat) : list string :=
  flat_map (fun k => [","; "$" ++ itoa k]) (seq (S j) m).

Definition wordchar (c : ascii) : bool := negb (pg.is_space c) && negb (pg.is_punct c).

Fixpoint allb (f : ascii -> bool) (s : string) : bool :=
  match s with
  | EmptyString => true
  | String c s' => f c && allb f s'
  end.

(** A stored row belongs to the execution. *)
Definition ofExecution (shardID : Z) (domainID : UUID) (workflowID : string) (runID : UUID)
    (r : tuple) : Prop :=
  lookup "shard_id" r = Some (VInt shardID) /\
  lookup "domain_id" r = Some (VBytes domainID) /\
  lookup "workflow_id" r = Some (VText workflowID) /\
  lookup "run_id" r = Some (VBytes runID).

(** The key column of a stored row holds one of the keys. *)
Definition keyedBy (keyColumn : string) (keys : list value) (r : tuple) : Prop :=
  exists v, lookup keyColumn r = Some v /\ In v keys.

(** ** The six collection kinds, side by side

    The operations of one shape are gathered under one name indexed by the
    collection kind, so that a property of every kind is stated once. *)

Inductive kind :=
| ActivityInfo
| TimerInfo
| ChildExecutionInfo
| RequestCancelInfo
| SignalInfo
| SignalsRequested.

Definition tableOf (k : kind) : string :=
  match k with
  | ActivityInfo => activityInfoTableName
  | TimerInfo => timerInfoTableName
  | ChildExecutionInfo => childExecutionInfoTableName
  | RequestCancelInfo => requestCancelInfoTableName
  | SignalInfo => signalInfoTableName
  | SignalsRequested => "signals_requested_sets"
  end.

Definition keyColumnOf (k : kind) : string :=
  match k with
  | ActivityInfo => activityInfoKey
  | TimerInfo => timerInfoKey
  | ChildExecutionInfo => childExecutionInfoKey
  | RequestCancelInfo => requestCancelInfoKey
  | SignalInfo => signalInfoKey
  | SignalsRequested => "signal_id"
  end.

Definition keyOf (k : kind) : Type :=
  match k with
  | TimerInfo | SignalsRequested => string
  | _ => Z
  end.

Definition keyValue (k : kind) : keyOf k -> value :=
  match k with
  | ActivityInfo => VInt
  | TimerInfo => VText
  | ChildExecutionInfo => VInt
  | RequestCancelInfo => VInt
  | SignalInfo => VInt
  | SignalsRequested => VText
  end.

Definition deleteAllQryOf (k : kind) : string :=
  match k with
  | ActivityInfo => deleteActivityInfoMapQry
  | TimerInfo => deleteTimerInfoMapSQLQuery
  | ChildExecutionInfo => deleteChildExecutionInfoMapQry
  | RequestCancelInfo => deleteRequestCancelInfoMapQry
  | SignalInfo => deleteSignalInfoMapQry
  | SignalsRequested => deleteAllSignalsRequestedSetQuery
  end.

Definition deleteKeyInQryOf (k : kind) : string :=
  match k with
  | ActivityInfo => deleteKeyInActivityInfoMapQry
  | TimerInfo => deleteKeyInTimerInfoMapSQLQuery
  | ChildExecutionInfo => deleteKeyInChildExecutionInfoMapQry
  | RequestCancelInfo => deleteKeyInRequestCancelInfoMapQry
  | SignalInfo => deleteKeyInSignalInfoMapQry
  | SignalsRequested => deleteSignalsRequestedSetQuery
  end.

(** [DeleteFrom<Kind>] on the filter made of the identity and the keys. *)
Definition DeleteFrom (k : kind) (router : Z -> Z -> Z)
    (In : string -> list sqlx.inArg -> (string * list value) + error) (pdb : db)
    (shardID : Z) (domainID : UUID) (workflowID : string) (runID : UUID)
    : list (keyOf k) -> Backend -> (option Result * option error) * Backend :=
  match k with
  | ActivityInfo => fun keys =>
      DeleteFromActivityInfoMaps router In pdb
        (ActivityInfoMapsFilter.mk shardID domainID workflowID runID keys)
  | TimerInfo => fun keys =>
      DeleteFromTimerInfoMaps router In pdb
        (TimerInfoMapsFilter.mk shardID domainID workflowID runID keys)
  | ChildExecutionInfo => fun keys =>
      DeleteFromChildExecutionInfoMaps router In pdb
        (ChildExecutionInfoMapsFilter.mk shardID domainID workflowID runID keys)
  | RequestCancelInfo => fun keys =>
      DeleteFromRequestCancelInfoMaps router In pdb
        (RequestCancelInfoMapsFilter.mk shardID domainID workflowID runID keys)
  | SignalInfo => fun keys =>
      DeleteFromSignalInfoMaps router In pdb
        (SignalInfoMapsFilter.mk shardID domainID workflowID runID keys)
  | SignalsRequested => fun keys =>
      DeleteFromSignalsRequestedSets router In pdb
        (SignalsRequestedSetsFilter.mk shardID domainID workflowID runID keys)
  end.

(** The identity conditions with their placeholders bound. *)
Definition identityValues (shardID : Z) (domainID : UUID) (workflowID : string) (runID : UUID)
    : list (string * list value) :=
  [("shard_id", [VInt shardID]); ("domain_id", [VBytes domainID]);
   ("workflow_id", [VText workflowID]); ("run_id", [VBytes runID])].

(** The rows a delete aims at: those of the kind's table on the physical
    shard that belong to the execution and, when keys are given, hold one
    of them. *)
Definition targeted (k : kind) (d : Z) (shardID : Z) (domainID : UUID) (workflowID : string)
    (runID : UUID) (keys : list value) (x : pg.stored) : Prop :=
  pg.at_shard x = d /\ pg.in_table x = tableOf k /\
  ofExecution shardID domainID workflowID runID (pg.cols x) /\
  (keys = [] \/ keyedBy (keyColumnOf k) keys (pg.cols x)).

(** The rows of a kind, their fields and their statements. *)
Definition rowOf (k : kind) : Type :=
  match k with
  | ActivityInfo => ActivityInfoMapsRow.t
  | TimerInfo => TimerInfoMapsRow.t
  | ChildExecutionInfo => ChildExecutionInfoMapsRow.t
  | RequestCancelInfo => RequestCancelInfoMapsRow.t
  | SignalInfo => SignalInfoMapsRow.t
  | SignalsRequested => SignalsRequestedSetsRow.t
  end.

Definition bindOf (k : kind) : rowOf k -> tuple :=
  match k with
  | ActivityInfo => ActivityInfoMapsRow.bind
  | TimerInfo => TimerInfoMapsRow.bind
  | ChildExecutionInfo => ChildExecutionInfoMapsRow.bind
  | RequestCancelInfo => RequestCancelInfoMapsRow.bind
  | SignalInfo => SignalInfoMapsRow.bind
  | SignalsRequested => SignalsRequestedSetsRow.bind
  end.

Definition shardIDOf (k : kind) : rowOf k -> Z :=
  match k with
  | ActivityInfo => ActivityInfoMapsRow.ShardID
  | TimerInfo => TimerInfoMapsRow.ShardID
  | ChildExecutionInfo => ChildExecutionInfoMapsRow.ShardID
  | RequestCancelInfo => RequestCancelInfoMapsRow.ShardID
  | SignalInfo => SignalInfoMapsRow.ShardID
  | SignalsRequested => SignalsRequestedSetsRow.ShardID
  end.




Definition setKeyQryOf (k : kind) : string :=
  match k with
  | ActivityInfo => setKeyInActivityInfoMapQry
  | TimerInfo => setKeyInTimerInfoMapSQLQuery
  | ChildExecutionInfo => setKeyInChildExecutionInfoMapQry
  | RequestCancelInfo => setKeyInRequestCancelInfoMapQry
  | SignalInfo => setKeyInSignalInfoMapQry
  | SignalsRequested => createSignalsRequestedSetQuery
  end.

Definition valueColumnsOf (k : kind) : list string :=
  match k with
  | ActivityInfo => activityInfoColumns
  | TimerInfo => timerInfoColumns
  | ChildExecutionInfo => childExecutionInfoColumns
  | RequestCancelInfo => requestCancelInfoColumns
  | SignalInfo => signalInfoColumns
  | SignalsRequested => []
  end.

Definition primaryKeyOf (k : kind) : list string :=
  ["shard_id"; "domain_id"; "workflow_id"; "run_id"; keyColumnOf k].

Definition columnsOf (k : kind) : list string :=
  (primaryKeyOf k ++ valueColumnsOf k)%list.

(** A row as Replace hands it to the driver: activity infos carry the
    converted last-heartbeat time, the other kinds are bound as they are. *)
Definition written (k : kind) (pdb : db) : rowOf k -> rowOf k :=
  match k with
  | ActivityInfo => fun r =>
      ActivityInfoMapsRow.set_LastHeartbeatUpdatedTime
        (ToPostgresDateTime pdb (ActivityInfoMapsRow.LastHeartbeatUpdatedTime r)) r
  | TimerInfo => fun r => r
  | ChildExecutionInfo => fun r => r
  | RequestCancelInfo => fun r => r
  | SignalInfo => fun r => r
  | SignalsRequested => fun r => r
  end.


(** [ReplaceInto<Kind>] ([InsertInto] for the signals-requested set): its
    result and the driver after it. *)
Definition ReplaceInto (k : kind) (router : Z -> Z -> Z) (pdb : db)
    : list (rowOf k) -> Backend -> (option Result * option error) * Backend :=
  match k with
  | ActivityInfo => fun rows b =>
      let out := ReplaceIntoActivityInfoMaps router pdb rows b in
      (fst (fst out), snd out)
  | TimerInfo => ReplaceIntoTimerInfoMaps router pdb
  | ChildExecutionInfo => ReplaceIntoChildExecutionInfoMaps router pdb
  | RequestCancelInfo => ReplaceIntoRequestCancelInfoMaps router pdb
  | SignalInfo => ReplaceIntoSignalInfoMaps router pdb
  | SignalsRequested => InsertIntoSignalsRequestedSets router pdb
  end.

(** [SelectFrom<Kind>] on the filter made of the identity and the keys. *)
Definition SelectFrom (k : kind) (router : Z -> Z -> Z) (pdb : db)
    (shardID : Z) (domainID : UUID) (workflowID : string) (runID : UUID)
    : list (keyOf k) -> Backend -> (list (rowOf k) * option error) * Backend :=
  match k with
  | ActivityInfo => fun keys =>
      SelectFromActivityInfoMaps router pdb
        (ActivityInfoMapsFilter.mk shardID domainID workflowID runID keys)
  | TimerInfo => fun keys =>
      SelectFromTimerInfoMaps router pdb
        (TimerInfoMapsFilter.mk shardID domainID workflowID runID keys)
  | ChildExecutionInfo => fun keys =>
      SelectFromChildExecutionInfoMaps router pdb
        (ChildExecutionInfoMapsFilter.mk shardID domainID workflowID runID keys)
  | RequestCancelInfo => fun keys =>
      SelectFromRequestCancelInfoMaps router pdb
        (RequestCancelInfoMapsFilter.mk shardID domainID workflowID runID keys)
  | SignalInfo => fun keys =>
      SelectFromSignalInfoMaps router pdb
        (SignalInfoMapsFilter.mk shardID domainID workflowID runID keys)
  | SignalsRequested => fun keys =>
      SelectFromSignalsRequestedSets router pdb
        (SignalsRequestedSetsFilter.mk shardID domainID workflowID runID keys)
  end.

Definition getQryOf (k : kind) : string :=
  match k with
  | ActivityInfo => getActivityInfoMapQry
  | TimerInfo => getTimerInfoMapSQLQuery
  | ChildExecutionInfo => getChildExecutionInfoMapQry
  | RequestCancelInfo => getRequestCancelInfoMapQry
  | SignalInfo => getSignalInfoMapQry
  | SignalsRequested => getSignalsRequestedSetQuery
  end.

Definition scanOf (k : kind) : tuple -> option (rowOf k) :=
  match k with
  | ActivityInfo => ActivityInfoMapsRow.scan
  | TimerInfo => TimerInfoMapsRow.scan
  | ChildExecutionInfo => ChildExecutionInfoMapsRow.scan
  | RequestCancelInfo => RequestCancelInfoMapsRow.scan
  | SignalInfo => SignalInfoMapsRow.scan
  | SignalsRequested => SignalsRequestedSetsRow.scan
  end.

(** The columns a Select asks for: the key and the value columns. *)
Definition selectColumnsOf (k : kind) : list string :=
  keyColumnOf k :: valueColumnsOf k.

(** A fetched row with the identity of the filter put in place, as Select
    returns it. *)
Definition restampOf (k : kind) (pdb : db)
    (shardID : Z) (domainID : UUID) (workflowID : string) (runID : UUID)
    : rowOf k -> rowOf k :=
  match k with
  | ActivityInfo => fun r =>
      ActivityInfoMapsRow.mk shardID domainID workflowID runID
        (ActivityInfoMapsRow.ScheduleID r) (ActivityInfoMapsRow.Data r)
        (ActivityInfoMapsRow.DataEncoding r) (ActivityInfoMapsRow.LastHeartbeatDetails r)
        (FromPostgresDateTime pdb (ActivityInfoMapsRow.LastHeartbeatUpdatedTime r))
  | TimerInfo => fun r =>
      TimerInfoMapsRow.mk shardID domainID workflowID runID
        (TimerInfoMapsRow.TimerID r) (TimerInfoMapsRow.Data r)
        (TimerInfoMapsRow.DataEncoding r)
  | ChildExecutionInfo => fun r =>
      ChildExecutionInfoMapsRow.mk shardID domainID workflowID runID
        (ChildExecutionInfoMapsRow.InitiatedID r) (ChildExecutionInfoMapsRow.Data r)
        (ChildExecutionInfoMapsRow.DataEncoding r)
  | RequestCancelInfo => fun r =>
      RequestCancelInfoMapsRow.mk shardID domainID workflowID runID
        (RequestCancelInfoMapsRow.InitiatedID r) (RequestCancelInfoMapsRow.Data r)
        (RequestCancelInfoMapsRow.DataEncoding r)
  | SignalInfo => fun r =>
      SignalInfoMapsRow.mk shardID domainID workflowID runID
        (SignalInfoMapsRow.InitiatedID r) (SignalInfoMapsRow.Data r)
        (SignalInfoMapsRow.DataEncoding r)
  | SignalsRequested => fun r =>
      SignalsRequestedSetsRow.mk shardID domainID workflowID runID
        (SignalsRequestedSetsRow.SignalID r)
  end.

(** ** Rows compared column by column *)

(** Two rows hold the same value in every column of the conflict target. *)
Definition sameKey (target : list string) (a b : tuple) : Prop :=
  forall c, In c target -> exists v, lookup c a = Some v /\ lookup c b = Some v.

(** Two rows hold the same in every listed column. *)
Definition agree (columns : list string) (a b : tuple) : Prop :=
  forall c, In c columns -> lookup c a = lookup c b.

(** A row has every listed column. *)
Definition full (columns : list string) (n : tuple) : Prop :=
  forall c, In c columns -> lookup c n <> None.

(** What holds of the store and of the rows one upsert statement has
    touched so far: each touched row has every column, has a stored row
    under its key, and every stored row under its key agrees with it on
    every column. *)
Definition upsertInv (d : Z) (t : string) (target columns : list string)
    (store : list pg.stored) (touched : list tuple) : Prop :=
  forall m, In m touched ->
    full columns m /\
    (exists x, In x store /\ pg.hit d t target m x = true) /\
    (forall x, In x store -> pg.hit d t target m x = true -> agree columns (pg.cols x) m).

(** ** Sample inputs *)

(** Modelled from the spec: the Shard Router (section 4.1), a pure function
    of the logical shard id and the number of physical shards; here the
    remainder of their division. *)
Definition shardRouter (historyShardID totalNumDBShards : Z) : Z :=
  Z.rem historyShardID totalNumDBShards.

(** Modelled from the spec: the Row Codec (section 2), which normalizes
    timestamps into the backend representation on write and back on read;
    here a converter that writes the time in UTC cut to whole microseconds
    and reads it back as it is stored, over four physical shards. *)
Definition sampleDb : db :=
  mkDb (fun t => mkTime ((instant t - zoneOffset t * 1000000000) / 1000 * 1000) 0)
       (fun t => t)
       4.

Definition sampleActivity (scheduleID : Z) (encoding : string) : ActivityInfoMapsRow.t :=
  ActivityInfoMapsRow.mk 5 [x01] "wf" [x02] scheduleID [x0a; x0b] encoding [x0c]
                         (mkTime 1234567 0).

Definition sampleSignal (signalID : string) : SignalsRequestedSetsRow.t :=
  SignalsRequestedSetsRow.mk 5 [x01] "wf" [x02] signalID.

Definition emptyBackend : Backend := mkBackend [] [].

(** A driver that holds the activity infos 1 and 2 of one execution. *)
Definition sampleBackend : Backend :=
  snd (ReplaceIntoActivityInfoMaps shardRouter sampleDb
         [sampleActivity 1 "thriftrw"; sampleActivity 2 "thriftrw"] emptyBackend).

(** An expansion that fails. *)
Definition failingIn (query : string) (args : list sqlx.inArg)
    : (string * list value) + error :=
  inr "empty slice passed to 'in' query".

(** ** What the statements aim at *)

(** Whether a stored row lies on shard [d] in table [t] and belongs to the
    execution: what the identity conditions of a statement select. *)
Definition selects (d : Z) (t : string) (shardID : Z) (domainID : UUID) (workflowID : string)
    (runID : UUID) (x : pg.stored) : bool :=
  pg.on d t x && pg.matches (identityValues shardID domainID workflowID runID) (pg.cols x).

(** Whether a delete with these keys aims at a stored row: the row is
    selected by the identity conditions and, when keys are given, its key
    column holds one of them. *)
Definition aimedAt (k : kind) (d : Z) (shardID : Z) (domainID : UUID) (workflowID : string)
    (runID : UUID) (keys : list value) (x : pg.stored) : bool :=
  selects d (tableOf k) shardID domainID workflowID runID x &&
  match keys with
  | [] => true
  | _ :: _ => pg.satisfies (pg.cols x) (keyColumnOf k, keys)
  end.

(** The key field of a row. *)
Definition keyFieldOf (k : kind) : rowOf k -> keyOf k :=
  match k with
  | ActivityInfo => ActivityInfoMapsRow.ScheduleID
  | TimerInfo => TimerInfoMapsRow.TimerID
  | ChildExecutionInfo => ChildExecutionInfoMapsRow.InitiatedID
  | RequestCancelInfo => RequestCancelInfoMapsRow.InitiatedID
  | SignalInfo => SignalInfoMapsRow.InitiatedID
  | SignalsRequested => SignalsRequestedSetsRow.SignalID
  end.

(** Whether the key of a row is one of the keys. *)
Definition keyAmong (k : kind) (keys : list (keyOf k)) (r : rowOf k) : bool :=
  existsb (value_eqb (keyValue k (keyFieldOf k r))) (map (keyValue k) keys).





(** ** Identifiers *)

(** A name the generators can be given: not empty, and made of characters
    that are neither blank nor one of [( ) , =]. *)
Definition identb (s : string) : bool :=
  match s with
  | EmptyString => false
  | String _ _ => allb wordchar s
  end.

(** The identity columns followed by the key column. *)
Definition keyColumns (mapKeyName : string) : list string :=
  ["shard_id"; "domain_id"; "workflow_id"; "run_id"; mapKeyName].

(** The lexemes of a comma-separated list. *)
Fixpoint commaSep (l : list string) : list string :=
  match l with
  | [] => []
  | [x] => [x]
  | x :: l' => x :: "," :: commaSep l'
  end.

(** Whether a name is free of the [?] that [sqlx] reads as a placeholder. *)
Definition plainb (s : string) : bool := allb (fun c => negb (Ascii.eqb c "?")) s.



(** ** Slices and stores a Replace and a Select go through on *)





(** * The Meta service handler

    The generated server side of the Meta service: the wire and the
    no-wire handler of its one procedure, [Health].  Decoding, the
    response helper and the implementation behind the handler are
    collaborators; the implementation runs on a state of its own, which
    the handlers pass along. *)
Module metaserver.

Section Handlers.

(** [context.Context], [wire.Value], [health.HealthStatus],
    [health.Meta_Health_Result], [yarpcerrors.Code], [thrift.NoWireCall],
    [stream.ResponseWriter], the errors of the collaborators, and the
    state the implementation works on. *)
Variables Ctx WireValue HealthStatus Meta_Health_Result Code NoWireCall ResponseWriter E St
  : Type.

(** [err.Error()]. *)
Variable Error : E -> string.

(** [appErr.(yarpcErrorNamer)] followed by [YARPCErrorName()]: [None]
    when the error does not have the method. *)
Variable yarpcErrorNamer : E -> option string.

(** [appErr.(yarpcErrorCoder)] followed by [YARPCErrorCode()], which may
    return [nil]. *)
Variable yarpcErrorCoder : E -> option (option Code).

(** [args.FromWire(body)]: the arguments of [Health] are empty, only the
    error is looked at. *)
Variable FromWire : WireValue -> option E.

(** [nwc.RequestReader.ReadRequest(ctx, nwc.EnvelopeType, nwc.Reader, &args)]. *)
Variable ReadRequest : Ctx -> NoWireCall -> ResponseWriter * option E.

(** [health.Meta_Health_Helper.WrapResponse]. *)
Variable WrapResponse : option HealthStatus -> option E -> option Meta_Health_Result * option E.

(** [Interface] is the server-side interface for the Meta service. *)
Record Interface := mkInterface {
  impl_Health : Ctx -> St -> (option HealthStatus * option E) * St
}.

(** The errors a handler returns: the one [yarpcerrors.InvalidArgumentErrorf]
    makes of a format and the error it wraps, or an error handed on. *)
Inductive error :=
| InvalidArgumentErrorf (format : string) (err : E)
| Raised (err : E).

(** [thrift.Response]. *)
Record Response := mkResponse {
  Body : option Meta_Health_Result;
  IsApplicationError : bool;
  ApplicationErrorDetails : string;
  ApplicationErrorName : string;
  ApplicationErrorCode : option Code
}.

(** [thrift.NoWireResponse]. *)
Record NoWireResponse := mkNoWireResponse {
  nw_Body : option Meta_Health_Result;
  nw_ResponseWriter : option ResponseWriter;
  nw_IsApplicationError : bool;
  nw_ApplicationErrorDetails : string;
  nw_ApplicationErrorName : string;
  nw_ApplicationErrorCode : option Code
}.

(** [thrift.Response{}] and [thrift.NoWireResponse{}]. *)
Definition zeroResponse : Response := mkResponse None false "" "" None.
Definition zeroNoWireResponse : NoWireResponse := mkNoWireResponse None None false "" "" None.

Definition isSome {A : Type} (o : option A) : bool :=
  match o with Some _ => true | None => false end.

(** What the handlers take from the application error: its name when it
    has one, its code when it has one, and its message. *)
Definition errorName (appErr : option E) (name : string) : string :=
  match appErr with
  | Some e => match yarpcErrorNamer e with Some n => n | None => name end
  | None => name
  end.

Definition errorCode (appErr : option E) (code : option Code) : option Code :=
  match appErr with
  | Some e => match yarpcErrorCoder e with Some c => c | None => code end
  | None => code
  end.

Definition errorDetails (appErr : option E) (details : string) : string :=
  match appErr with
  | Some e => Error e
  | None => details
  end.

(** [handler.Health]. *)
Definition Health (impl : Interface) (ctx : Ctx) (body : WireValue) (s : St)
    : (Response * option error) * St :=
  match FromWire body with
  | Some err =>
      ((zeroResponse,
        Some (InvalidArgumentErrorf
                "could not decode Thrift request for service 'Meta' procedure 'Health': %w" err)),
       s)
  | None =>
      let '((success, appErr), s') := impl_Health impl ctx s in
      let hadError := isSome appErr in
      let '(result, err) := WrapResponse success appErr in
      let response := zeroResponse in
      let response :=
        match err with
        | None =>
            mkResponse result hadError
              (errorDetails appErr (ApplicationErrorDetails response))
              (errorName appErr (ApplicationErrorName response))
              (errorCode appErr (ApplicationErrorCode response))
        | Some _ => response
        end in
      ((response, option_map Raised err), s')
  end.

(** [health_NoWireHandler.HandleNoWire]. *)
Definition HandleNoWire (impl : Interface) (ctx : Ctx) (nwc : NoWireCall) (s : St)
    : (NoWireResponse * option error) * St :=
  let '(rw, err) := ReadRequest ctx nwc in
  match err with
  | Some err =>
      ((zeroNoWireResponse,
        Some (InvalidArgumentErrorf
                "could not decode (via no wire) Thrift request for service 'Meta' procedure 'Health': %w"
                err)),
       s)
  | None =>
      let '((success, appErr), s') := impl_Health impl ctx s in
      let hadError := isSome appErr in
      let '(result, err) := WrapResponse success appErr in
      let response := mkNoWireResponse None (Some rw) false "" "" None in
      let response :=
        match err with
        | None =>
            mkNoWireResponse result (nw_ResponseWriter response) hadError
              (errorDetails appErr (nw_ApplicationErrorDetails response))
              (errorName appErr (nw_ApplicationErrorName response))
              (errorCode appErr (nw_ApplicationErrorCode response))
        | Some _ => response
        end in
      ((response, option_map Raised err), s')
  end.

(** A no-wire response without its response writer. *)
Definition overTheWire (r : NoWireResponse) : Response :=
  mkResponse (nw_Body r) (nw_IsApplicationError r) (nw_ApplicationErrorDetails r)
             (nw_ApplicationErrorName r) (nw_ApplicationErrorCode r).

End Handlers.

End metaserver.

(** Sample collaborators of the handlers: requests are texts and the empty
    text is the one that decodes; errors are texts, named after
    themselves and without a code; the implementation counts its calls
    and fails on the first; the helper wraps a status and hands an error
    of the implementation back. *)
Definition sampleError (e : string) : string := e.
Definition sampleNamer (e : string) : option string := Some e.
Definition sampleCoder (e : string) : option (option nat) := None.
Definition sampleFromWire (body : string) : option string :=
  if String.eqb body "" then None else Some "unexpected field".
Definition sampleReadRequest (ctx : unit) (nwc : string) : unit * option string :=
  (tt, sampleFromWire nwc).
Definition sampleWrapResponse (success : option bool) (err : option string)
    : option bool * option string :=
  match err with
  | None => (success, None)
  | Some e => (None, Some e)
  end.
Definition sampleImpl : metaserver.Interface unit bool string nat :=
  metaserver.mkInterface
    (fun _ calls => ((if Nat.eqb calls 0 then None else Some true,
                      if Nat.eqb calls 0 then Some "starting" else None), S calls)).

(** * The task-list scavenger activity

    The activity of the scanner that runs the task-list scavenger and
    heartbeats while it is alive.  The activity context, the scavenger,
    the logger and the clock are collaborators: they are the world the
    activity acts on, and every call of the activity is a step of that
    world.  The loop of the activity need not end, so the activity is
    given the number of rounds it may make and returns nothing when they
    are used up. *)
Module scanner.

(** [10 * time.Second], in nanoseconds. *)
Definition tlScavengerHBInterval : Z := 10 * 1000000000.

Section Activity.

(** The world and the errors of the collaborators. *)
Variables W E : Type.

(** [getScannerContext(activityCtx)]: only its error is looked at here,
    the context it returns goes into the scavenger. *)
Variable getScannerContext : W -> option E.

(** [tasklist.NewScavenger] on the parts of the scanner context. *)
Variable NewScavenger : W -> W.

(** [res.GetLogger().Info], with the error it is tagged with, if any. *)
Variable Info : string -> option E -> W -> W.

(** [scavenger.Start()], [scavenger.Stop()] and [scavenger.Alive()]. *)
Variables Start Stop : W -> W.
Variable Alive : W -> bool.

(** [activity.RecordHeartbeat(activityCtx)] and [activityCtx.Err()]. *)
Variable RecordHeartbeat : W -> W.
Variable Err : W -> option E.

(** [time.Sleep]. *)
Variable Sleep : Z -> W -> W.

(** The [for scavenger.Alive()] loop and the [return nil] after it. *)
Fixpoint heartbeats (rounds : nat) (w : W) : option (option E * W) :=
  match rounds with
  | O => None
  | S rounds' =>
      if Alive w then
        let w := RecordHeartbeat w in
        match Err w with
        | Some _ =>
            let w := Info "activity context error, stopping scavenger" (Err w) w in
            let w := Stop w in
            Some (Err w, w)
        | None =>
            let w := Sleep tlScavengerHBInterval w in
            heartbeats rounds' w
        end
      else Some (None, w)
  end.

(** [TaskListScavengerActivity] is the activity that runs task list
    scavenger. *)
Definition TaskListScavengerActivity (rounds : nat) (w : W) : option (option E * W) :=
  match getScannerContext w with
  | Some err => Some (Some err, w)
  | None =>
      let w := NewScavenger w in
      let w := Info "Starting task list scavenger" None w in
      let w := Start w in
      heartbeats rounds w
  end.

(** One full round of the loop: a heartbeat and a sleep. *)
Definition round (w : W) : W := Sleep tlScavengerHBInterval (RecordHeartbeat w).

(** The world after [n] full rounds. *)
Fixpoint after (n : nat) (w : W) : W :=
  match n with
  | O => w
  | S n' => after n' (round w)
  end.

(** The world in which the loop is entered. *)
Definition started (w : W) : W :=
  Start (Info "Starting task list scavenger" None (NewScavenger w)).

End Activity.

End scanner.

(** A sample world: a clock that counts the sleeps, a scavenger that is
    alive until the clock reaches [work], an activity context that is
    cancelled once the clock reaches [deadline], and the calls made so
    far. *)
Inductive call := CStart | CStop | CHeartbeat | CSleep | CInfo (msg : string).

Record sampleWorld := mkWorld {
  clock : nat; work : nat; deadline : nat; calls : list call
}.

Definition did (c : call) (w : sampleWorld) : sampleWorld :=
  mkWorld (clock w) (work w) (deadline w) (calls w ++ [c])%list.

Definition sampleSleep (d : Z) (w : sampleWorld) : sampleWorld :=
  mkWorld (S (clock w)) (work w) (deadline w) (calls w ++ [CSleep])%list.

Definition sampleAlive (w : sampleWorld) : bool := Nat.ltb (clock w) (work w).

Definition sampleErr (w : sampleWorld) : option string :=
  if Nat.leb (deadline w) (clock w) then Some "context canceled" else None.

Definition sampleScavengerRun (rounds : nat) (w : sampleWorld) : option (option string * sampleWorld) :=
  scanner.TaskListScavengerActivity (fun _ => None) (fun w => w)
    (fun msg _ => did (CInfo msg)) (did CStart) (did CStop) sampleAlive
    (did CHeartbeat) sampleErr sampleSleep rounds w.

(** * Properties *)

Open Scope list_scope.
Unset Implicit Arguments.

(** ** Loops and lookups *)

Lemma forRange_updAt_from {A : Type} (f : A -> A) (done todo : list A) :
  forRange (length todo) (length done) (fun i rows => updAt i f rows) (done ++ todo)
  = (done ++ map f todo)%list.
Proof.
  revert done; induction todo as [|a todo IH]; intros done; simpl.
  - reflexivity.
  - assert (Hupd : updAt (length done) f (done ++ a :: todo) = (done ++ f a :: todo)%list).
    { clear IH. induction done as [|d done IHd]; simpl; [reflexivity | now rewrite IHd]. }
    rewrite Hupd.
    replace (done ++ f a :: todo)%list with ((done ++ [f a]) ++ todo)%list
      by (rewrite <- app_assoc; reflexivity).
    replace (S (length done)) with (length (done ++ [f a])%list)
      by (rewrite length_app; simpl; lia).
    rewrite IH, <- app_assoc. reflexivity.
Qed.

(** A loop that updates every index in turn is a [map]. *)
Lemma forRange_updAt_map {A : Type} (f : A -> A) (l : list A) :
  forRange (length l) 0 (fun i rows => updAt i f rows) l = map f l.
Proof. exact (forRange_updAt_from f [] l). Qed.

Lemma bytes_eqb_eq (a b : bytes) : bytes_eqb a b = true <-> a = b.
Proof.
  revert b; induction a as [|x a IH]; intros [|y b]; simpl; split; intro H;
    try reflexivity; try discriminate.
  - apply andb_true_iff in H as [Hx Hr]. apply byte_dec_bl in Hx. apply IH in Hr.
    now subst.
  - injection H as -> ->. apply andb_true_iff; split; [now apply byte_dec_lb | now apply IH].
Qed.

Lemma value_eqb_eq (a b : value) : value_eqb a b = true <-> a = b.
Proof.
  destruct a, b; simpl; split; intro H; try discriminate; try (injection H as H).
  - apply Z.eqb_eq in H. now subst.
  - subst. apply Z.eqb_refl.
  - apply String.eqb_eq in H. now subst.
  - subst. apply String.eqb_refl.
  - apply bytes_eqb_eq in H. now subst.
  - subst. now apply bytes_eqb_eq.
  - unfold Time_eqb in H. apply andb_true_iff in H as [H1 H2].
    apply Z.eqb_eq in H1, H2. destruct t, t0; simpl in *. now subst.
  - subst. unfold Time_eqb. now rewrite !Z.eqb_refl.
Qed.

Lemma value_eqb_refl (a : value) : value_eqb a a = true.
Proof. now apply value_eqb_eq. Qed.

Lemma lookup_set_col_same c v r : lookup c (set_col c v r) = Some v.
Proof.
  induction r as [|[c' v'] r IH]; simpl.
  - now rewrite String.eqb_refl.
  - destruct (String.eqb c' c) eqn:E; simpl.
    + now rewrite String.eqb_refl.
    + now rewrite E.
Qed.

Lemma lookup_set_col_other c c' v r :
  c' <> c -> lookup c' (set_col c v r) = lookup c' r.
Proof.
  intros Hne. induction r as [|[c0 v0] r IH]; simpl.
  - destruct (String.eqb c c') eqn:E; [apply String.eqb_eq in E; congruence | reflexivity].
  - destruct (String.eqb c0 c) eqn:E; simpl.
    + apply String.eqb_eq in E; subst c0.
      destruct (String.eqb c c') eqn:E'; [apply String.eqb_eq in E'; congruence | reflexivity].
    + destruct (String.eqb c0 c'); [reflexivity | exact IH].
Qed.

Lemma mapM_In {A B : Type} (f : A -> option B) (l : list A) (bs : list B) (a : A) :
  mapM f l = Some bs -> In a l -> exists b, f a = Some b /\ In b bs.
Proof.
  revert bs; induction l as [|x l IH]; intros bs H Hin; [destruct Hin|].
  simpl in H. destruct (f x) as [y|] eqn:Ex; [|discriminate].
  destruct (mapM f l) as [ys|] eqn:El; [|discriminate].
  injection H as <-. destruct Hin as [->|Hin].
  - exists y; split; [assumption | now left].
  - destruct (IH ys eq_refl Hin) as (b' & Hb & Hin'). exists b'; split; [assumption | now right].
Qed.

Lemma mapM_all {A B : Type} (f : A -> option B) (g : A -> B) (l : list A) :
  (forall a, In a l -> f a = Some (g a)) -> mapM f l = Some (map g l).
Proof.
  induction l as [|x l IH]; intros H; simpl; [reflexivity|].
  rewrite (H x (or_introl eq_refl)), IH; [reflexivity|].
  intros a Ha; apply H; now right.
Qed.

(** ** The statements on sample inputs *)

Example activity_upsert_text :
  setKeyInActivityInfoMapQry =
  ("INSERT INTO activity_info_maps" ++ LF ++
   "(shard_id, domain_id, workflow_id, run_id, schedule_id, " ++
   "data,data_encoding,last_heartbeat_details,last_heartbeat_updated_time)" ++ LF ++
   "VALUES" ++ LF ++
   "(:shard_id, :domain_id, :workflow_id, :run_id, :schedule_id, " ++
   ":data,:data_encoding,:last_heartbeat_details,:last_heartbeat_updated_time)" ++ LF ++
   "ON CONFLICT (shard_id, domain_id, workflow_id, run_id, schedule_id) DO UPDATE" ++ LF ++
   TAB ++ "SET (shard_id, domain_id, workflow_id, run_id, schedule_id, " ++
   "data,data_encoding,last_heartbeat_details,last_heartbeat_updated_time)" ++ LF ++
   "  " ++ TAB ++ "  = (excluded.shard_id, excluded.domain_id, excluded.workflow_id, " ++
   "excluded.run_id, excluded.schedule_id, " ++
   "excluded.data,excluded.data_encoding,excluded.last_heartbeat_details," ++
   "excluded.last_heartbeat_updated_time)")%string.
Proof. reflexivity. Qed.

Example timer_select_parsed :
  pg.parse getTimerInfoMapSQLQuery
  = Some (pg.Select ["timer_id"; "data"; "data_encoding"]%string "timer_info_maps"
            identityConds).
Proof. reflexivity. Qed.

Example In_expands_three_keys :
  sqlx.In deleteKeyInActivityInfoMapQry
    (inArgs 5 [x01] "wf" [x02] [VInt 7; VInt 8; VInt 9])
  = inl (("DELETE FROM activity_info_maps" ++ LF ++
          "WHERE" ++ LF ++
          "shard_id = ? AND" ++ LF ++
          "domain_id = ? AND" ++ LF ++
          "workflow_id = ? AND" ++ LF ++
          "run_id = ? AND" ++ LF ++
          "schedule_id IN ( ?, ?, ? )")%string,
         [VInt 5; VBytes [x01]; VText "wf"; VBytes [x02]; VInt 7; VInt 8; VInt 9]).
Proof. reflexivity. Qed.

Example bound_delete_text :
  deleteKeyInMapQryBound "activity_info_maps" "schedule_id" 3
  = ("DELETE FROM activity_info_maps" ++ LF ++
     "WHERE" ++ LF ++
     "shard_id = $1 AND" ++ LF ++
     "domain_id = $2 AND" ++ LF ++
     "workflow_id = $3 AND" ++ LF ++
     "run_id = $4 AND" ++ LF ++
     "schedule_id IN ( $5, $6, $7 )")%string.
Proof. reflexivity. Qed.

Example unbound_delete_is_refused :
  pg.parse deleteKeyInActivityInfoMapQry = None.
Proof. reflexivity. Qed.

Example sample_store :
  map pg.cols (rows sampleBackend)
  = [ActivityInfoMapsRow.bind
       (ActivityInfoMapsRow.mk 5 [x01] "wf" [x02] 1 [x0a; x0b] "thriftrw" [x0c]
                               (mkTime 1234000 0));
     ActivityInfoMapsRow.bind
       (ActivityInfoMapsRow.mk 5 [x01] "wf" [x02] 2 [x0a; x0b] "thriftrw" [x0c]
                               (mkTime 1234000 0))]
  /\ map pg.at_shard (rows sampleBackend) = [1%Z; 1%Z].
Proof. split; reflexivity. Qed.

Example delete_one_key :
  map (fun x => lookup "schedule_id" (pg.cols x))
      (rows (snd (DeleteFromActivityInfoMaps shardRouter sqlx.In sampleDb
                    (ActivityInfoMapsFilter.mk 5 [x01] "wf" [x02] [1%Z]) sampleBackend)))
  = [Some (VInt 2)].
Proof. reflexivity. Qed.

Example duplicate_key_in_one_slice_is_refused :
  fst (fst (ReplaceIntoActivityInfoMaps shardRouter sampleDb
              [sampleActivity 3 "json"; sampleActivity 3 "thriftrw"] emptyBackend))
  = (None, Some "ON CONFLICT DO UPDATE command cannot affect row a second time"%string).
Proof. reflexivity. Qed.

(** ** What the driver records *)

Lemma exec_records b d q a :
  statements (snd (ExecContext b d q a)) = statements b ++ [mkIssued d q (Positional a)].
Proof.
  unfold ExecContext.
  destruct (pg.parse q) as [[t c v tg act|out t w|t w]|]; cbn [snd statements record];
    try reflexivity.
  - destruct (pg.exec_select _ _ _ _ _ _); reflexivity.
  - destruct (pg.exec_delete _ _ _ _ _) as [[st n]|]; reflexivity.
Qed.

Lemma named_exec_records b d q a :
  statements (snd (NamedExecContext b d q a)) = statements b ++ [mkIssued d q (ByName a)].
Proof.
  unfold NamedExecContext.
  destruct (pg.parse q) as [[t c v tg act|out t w|t w]|]; cbn [snd statements record];
    try reflexivity.
  destruct (pg.exec_insert _ _ _ _ _ _ _ _) as [[st n]|]; reflexivity.
Qed.

(** ** Empty input *)

(** C4: for every collection kind, Replace (Insert for the signals-requested
    set) called with an empty sequence of rows returns no result and no
    error, and hands the driver back as it was: no statement is recorded
    and no stored row changes. *)
Theorem replace_empty_is_noop (router : Z -> Z -> Z) (pdb : db) (b : Backend) :
  ReplaceIntoActivityInfoMaps router pdb [] b = ((None, None), [], b) /\
  ReplaceIntoTimerInfoMaps router pdb [] b = ((None, None), b) /\
  ReplaceIntoChildExecutionInfoMaps router pdb [] b = ((None, None), b) /\
  ReplaceIntoRequestCancelInfoMaps router pdb [] b = ((None, None), b) /\
  ReplaceIntoSignalInfoMaps router pdb [] b = ((None, None), b) /\
  InsertIntoSignalsRequestedSets router pdb [] b = ((None, None), b).
Proof. repeat split. Qed.

(** ** Identity reattachment on Select *)

(** C5: for every collection kind and every filter, the rows that Select
    returns are the rows handed back by the driver with shard id, domain
    id, workflow id and run id replaced by the filter's values, whatever
    the driver put there; for activity infos the last-heartbeat time is
    moreover passed through [FromPostgresDateTime]. *)
Theorem select_overwrites_identity (router : Z -> Z -> Z) (pdb : db) (b : Backend) :
  (forall f,
     fst (fst (SelectFromActivityInfoMaps router pdb f b)) =
     map (fun r => ActivityInfoMapsRow.mk
                     (ActivityInfoMapsFilter.ShardID f) (ActivityInfoMapsFilter.DomainID f)
                     (ActivityInfoMapsFilter.WorkflowID f) (ActivityInfoMapsFilter.RunID f)
                     (ActivityInfoMapsRow.ScheduleID r) (ActivityInfoMapsRow.Data r)
                     (ActivityInfoMapsRow.DataEncoding r)
                     (ActivityInfoMapsRow.LastHeartbeatDetails r)
                     (FromPostgresDateTime pdb (ActivityInfoMapsRow.LastHeartbeatUpdatedTime r)))
         (fetchedActivityInfoMaps router pdb f b)) /\
  (forall f,
     fst (fst (SelectFromTimerInfoMaps router pdb f b)) =
     map (fun r => TimerInfoMapsRow.mk
                     (TimerInfoMapsFilter.ShardID f) (TimerInfoMapsFilter.DomainID f)
                     (TimerInfoMapsFilter.WorkflowID f) (TimerInfoMapsFilter.RunID f)
                     (TimerInfoMapsRow.TimerID r) (TimerInfoMapsRow.Data r)
                     (TimerInfoMapsRow.DataEncoding r))
         (fetchedTimerInfoMaps router pdb f b)) /\
  (forall f,
     fst (fst (SelectFromChildExecutionInfoMaps router pdb f b)) =
     map (fun r => ChildExecutionInfoMapsRow.mk
                     (ChildExecutionInfoMapsFilter.ShardID f)
                     (ChildExecutionInfoMapsFilter.DomainID f)
                     (ChildExecutionInfoMapsFilter.WorkflowID f)
                     (ChildExecutionInfoMapsFilter.RunID f)
                     (ChildExecutionInfoMapsRow.InitiatedID r)
                     (ChildExecutionInfoMapsRow.Data r)
                     (ChildExecutionInfoMapsRow.DataEncoding r))
         (fetchedChildExecutionInfoMaps router pdb f b)) /\
  (forall f,
     fst (fst (SelectFromRequestCancelInfoMaps router pdb f b)) =
     map (fun r => RequestCancelInfoMapsRow.mk
                     (RequestCancelInfoMapsFilter.ShardID f)
                     (RequestCancelInfoMapsFilter.DomainID f)
                     (RequestCancelInfoMapsFilter.WorkflowID f)
                     (RequestCancelInfoMapsFilter.RunID f)
                     (RequestCancelInfoMapsRow.InitiatedID r)
                     (RequestCancelInfoMapsRow.Data r)
                     (RequestCancelInfoMapsRow.DataEncoding r))
         (fetchedRequestCancelInfoMaps router pdb f b)) /\
  (forall f,
     fst (fst (SelectFromSignalInfoMaps router pdb f b)) =
     map (fun r => SignalInfoMapsRow.mk
                     (SignalInfoMapsFilter.ShardID f) (SignalInfoMapsFilter.DomainID f)
                     (SignalInfoMapsFilter.WorkflowID f) (SignalInfoMapsFilter.RunID f)
                     (SignalInfoMapsRow.InitiatedID r) (SignalInfoMapsRow.Data r)
                     (SignalInfoMapsRow.DataEncoding r))
         (fetchedSignalInfoMaps router pdb f b)) /\
  (forall f,
     fst (fst (SelectFromSignalsRequestedSets router pdb f b)) =
     map (fun r => SignalsRequestedSetsRow.mk
                     (SignalsRequestedSetsFilter.ShardID f)
                     (SignalsRequestedSetsFilter.DomainID f)
                     (SignalsRequestedSetsFilter.WorkflowID f)
                     (SignalsRequestedSetsFilter.RunID f)
                     (SignalsRequestedSetsRow.SignalID r))
         (fetchedSignalsRequestedSets router pdb f b)).
Proof.
  repeat split; intros f;
    [ unfold SelectFromActivityInfoMaps, fetchedActivityInfoMaps
    | unfold SelectFromTimerInfoMaps, fetchedTimerInfoMaps
    | unfold SelectFromChildExecutionInfoMaps, fetchedChildExecutionInfoMaps
    | unfold SelectFromRequestCancelInfoMaps, fetchedRequestCancelInfoMaps
    | unfold SelectFromSignalInfoMaps, fetchedSignalInfoMaps
    | unfold SelectFromSignalsRequestedSets, fetchedSignalsRequestedSets ];
    unfold identityArgs;
    match goal with
    | |- context [SelectContext ?b ?d ?sc ?q ?a] =>
        destruct (SelectContext b d sc q a) as [[raw err] b']
    end;
    cbn [fst snd]; rewrite forRange_updAt_map; reflexivity.
Qed.

(** ** Replace of activity infos and the caller's slice *)

(** C10: called with a non-empty slice, [ReplaceIntoActivityInfoMaps]
    leaves in the caller's slice every row with its last-heartbeat time
    replaced by the [ToPostgresDateTime] of it and every other field as it
    was, and the statement it hands to the driver is bound to these
    converted rows. *)
Theorem replace_activity_converts_in_place (router : Z -> Z -> Z) (pdb : db)
    (r0 : ActivityInfoMapsRow.t) (rest : list ActivityInfoMapsRow.t) (b : Backend) :
  let rows := r0 :: rest in
  let out := ReplaceIntoActivityInfoMaps router pdb rows b in
  let rows' := snd (fst out) in
  rows' = map (fun r => ActivityInfoMapsRow.mk
                          (ActivityInfoMapsRow.ShardID r) (ActivityInfoMapsRow.DomainID r)
                          (ActivityInfoMapsRow.WorkflowID r) (ActivityInfoMapsRow.RunID r)
                          (ActivityInfoMapsRow.ScheduleID r) (ActivityInfoMapsRow.Data r)
                          (ActivityInfoMapsRow.DataEncoding r)
                          (ActivityInfoMapsRow.LastHeartbeatDetails r)
                          (ToPostgresDateTime pdb (ActivityInfoMapsRow.LastHeartbeatUpdatedTime r)))
              rows /\
  statements (snd out) =
    statements b ++
    [mkIssued (router (ActivityInfoMapsRow.ShardID r0) (GetTotalNumDBShards pdb))
              setKeyInActivityInfoMapQry
              (ByName (map ActivityInfoMapsRow.bind rows'))].
Proof.
  intros rows out rows'. subst rows' out rows.
  unfold ReplaceIntoActivityInfoMaps.
  rewrite forRange_updAt_map.
  match goal with
  | |- context [NamedExecContext ?b ?d ?q ?a] =>
      pose proof (named_exec_records b d q a) as Hrec;
      destruct (NamedExecContext b d q a) as [res b']
  end.
  cbn [fst snd] in *. split; [reflexivity | exact Hrec].
Qed.

(** ** Failure of the key-set expansion *)

Ltac delete_unfold :=
  unfold DeleteFromActivityInfoMaps, DeleteFromTimerInfoMaps,
    DeleteFromChildExecutionInfoMaps, DeleteFromRequestCancelInfoMaps,
    DeleteFromSignalInfoMaps, DeleteFromSignalsRequestedSets, inArgs, identityArgs.

Ltac filter_proj :=
  cbn [
    ActivityInfoMapsFilter.ShardID ActivityInfoMapsFilter.DomainID
    ActivityInfoMapsFilter.WorkflowID ActivityInfoMapsFilter.RunID
    ActivityInfoMapsFilter.ScheduleIDs TimerInfoMapsFilter.ShardID
    TimerInfoMapsFilter.DomainID TimerInfoMapsFilter.WorkflowID TimerInfoMapsFilter.RunID
    TimerInfoMapsFilter.TimerIDs ChildExecutionInfoMapsFilter.ShardID
    ChildExecutionInfoMapsFilter.DomainID ChildExecutionInfoMapsFilter.WorkflowID
    ChildExecutionInfoMapsFilter.RunID ChildExecutionInfoMapsFilter.InitiatedIDs
    RequestCancelInfoMapsFilter.ShardID RequestCancelInfoMapsFilter.DomainID
    RequestCancelInfoMapsFilter.WorkflowID RequestCancelInfoMapsFilter.RunID
    RequestCancelInfoMapsFilter.InitiatedIDs SignalInfoMapsFilter.ShardID
    SignalInfoMapsFilter.DomainID SignalInfoMapsFilter.WorkflowID
    SignalInfoMapsFilter.RunID SignalInfoMapsFilter.InitiatedIDs
    SignalsRequestedSetsFilter.ShardID SignalsRequestedSetsFilter.DomainID
    SignalsRequestedSetsFilter.WorkflowID SignalsRequestedSetsFilter.RunID
    SignalsRequestedSetsFilter.SignalIDs ] in *.

Ltac nonempty_keys f :=
  destruct f as [sh dom wf run [|k ks]]; filter_proj; [ congruence | ].

(** C6: for every collection kind, when the key list is not empty and
    [In] fails to expand it, Delete returns that error with no result and
    hands the driver back as it was: no statement is recorded and no
    stored row changes. *)
Theorem delete_expansion_error_aborts (router : Z -> Z -> Z)
    (In : string -> list sqlx.inArg -> (string * list value) + error)
    (pdb : db) (b : Backend) (e : error) :
  (forall f,
     ActivityInfoMapsFilter.ScheduleIDs f <> [] ->
     In deleteKeyInActivityInfoMapQry
        (inArgs (ActivityInfoMapsFilter.ShardID f) (ActivityInfoMapsFilter.DomainID f)
                (ActivityInfoMapsFilter.WorkflowID f) (ActivityInfoMapsFilter.RunID f)
                (map VInt (ActivityInfoMapsFilter.ScheduleIDs f))) = inr e ->
     DeleteFromActivityInfoMaps router In pdb f b = ((None, Some e), b)) /\
  (forall f,
     TimerInfoMapsFilter.TimerIDs f <> [] ->
     In deleteKeyInTimerInfoMapSQLQuery
        (inArgs (TimerInfoMapsFilter.ShardID f) (TimerInfoMapsFilter.DomainID f)
                (TimerInfoMapsFilter.WorkflowID f) (TimerInfoMapsFilter.RunID f)
                (map VText (TimerInfoMapsFilter.TimerIDs f))) = inr e ->
     DeleteFromTimerInfoMaps router In pdb f b = ((None, Some e), b)) /\
  (forall f,
     ChildExecutionInfoMapsFilter.InitiatedIDs f <> [] ->
     In deleteKeyInChildExecutionInfoMapQry
        (inArgs (ChildExecutionInfoMapsFilter.ShardID f)
                (ChildExecutionInfoMapsFilter.DomainID f)
                (ChildExecutionInfoMapsFilter.WorkflowID f)
                (ChildExecutionInfoMapsFilter.RunID f)
                (map VInt (ChildExecutionInfoMapsFilter.InitiatedIDs f))) = inr e ->
     DeleteFromChildExecutionInfoMaps router In pdb f b = ((None, Some e), b)) /\
  (forall f,
     RequestCancelInfoMapsFilter.InitiatedIDs f <> [] ->
     In deleteKeyInRequestCancelInfoMapQry
        (inArgs (RequestCancelInfoMapsFilter.ShardID f)
                (RequestCancelInfoMapsFilter.DomainID f)
                (RequestCancelInfoMapsFilter.WorkflowID f)
                (RequestCancelInfoMapsFilter.RunID f)
                (map VInt (RequestCancelInfoMapsFilter.InitiatedIDs f))) = inr e ->
     DeleteFromRequestCancelInfoMaps router In pdb f b = ((None, Some e), b)) /\
  (forall f,
     SignalInfoMapsFilter.InitiatedIDs f <> [] ->
     In deleteKeyInSignalInfoMapQry
        (inArgs (SignalInfoMapsFilter.ShardID f) (SignalInfoMapsFilter.DomainID f)
                (SignalInfoMapsFilter.WorkflowID f) (SignalInfoMapsFilter.RunID f)
                (map VInt (SignalInfoMapsFilter.InitiatedIDs f))) = inr e ->
     DeleteFromSignalInfoMaps router In pdb f b = ((None, Some e), b)) /\
  (forall f,
     SignalsRequestedSetsFilter.SignalIDs f <> [] ->
     In deleteSignalsRequestedSetQuery
        (inArgs (SignalsRequestedSetsFilter.ShardID f)
                (SignalsRequestedSetsFilter.DomainID f)
                (SignalsRequestedSetsFilter.WorkflowID f)
                (SignalsRequestedSetsFilter.RunID f)
                (map VText (SignalsRequestedSetsFilter.SignalIDs f))) = inr e ->
     DeleteFromSignalsRequestedSets router In pdb f b = ((None, Some e), b)).
Proof.
  repeat split; intros f Hne Hin; delete_unfold; unfold inArgs in Hin;
    nonempty_keys f; cbn [length Nat.ltb Nat.leb]; rewrite Hin; reflexivity.
Qed.

Lemma delete_expansion_error_aborts_witness :
  let e := "empty slice passed to 'in' query"%string in
  DeleteFromActivityInfoMaps shardRouter failingIn sampleDb
    (ActivityInfoMapsFilter.mk 5 [x01] "wf" [x02] [1%Z]) sampleBackend
    = ((None, Some e), sampleBackend) /\
  DeleteFromTimerInfoMaps shardRouter failingIn sampleDb
    (TimerInfoMapsFilter.mk 5 [x01] "wf" [x02] ["t1"%string]) sampleBackend
    = ((None, Some e), sampleBackend) /\
  DeleteFromChildExecutionInfoMaps shardRouter failingIn sampleDb
    (ChildExecutionInfoMapsFilter.mk 5 [x01] "wf" [x02] [1%Z]) sampleBackend
    = ((None, Some e), sampleBackend) /\
  DeleteFromRequestCancelInfoMaps shardRouter failingIn sampleDb
    (RequestCancelInfoMapsFilter.mk 5 [x01] "wf" [x02] [1%Z]) sampleBackend
    = ((None, Some e), sampleBackend) /\
  DeleteFromSignalInfoMaps shardRouter failingIn sampleDb
    (SignalInfoMapsFilter.mk 5 [x01] "wf" [x02] [1%Z]) sampleBackend
    = ((None, Some e), sampleBackend) /\
  DeleteFromSignalsRequestedSets shardRouter failingIn sampleDb
    (SignalsRequestedSetsFilter.mk 5 [x01] "wf" [x02] ["s1"%string]) sampleBackend
    = ((None, Some e), sampleBackend).
Proof.
  intros e.
  destruct (delete_expansion_error_aborts shardRouter failingIn sampleDb sampleBackend e)
    as (H1 & H2 & H3 & H4 & H5 & H6).
  split; [apply H1; [discriminate | reflexivity] |].
  split; [apply H2; [discriminate | reflexivity] |].
  split; [apply H3; [discriminate | reflexivity] |].
  split; [apply H4; [discriminate | reflexivity] |].
  split; [apply H5; [discriminate | reflexivity] |].
  apply H6; [discriminate | reflexivity].
Defined.

(** ** Expansion and rebinding of the key set *)

Lemma append_assoc (a b c : string) : ((a ++ b) ++ c = a ++ (b ++ c))%string.
Proof. induction a; simpl; [reflexivity | now rewrite IHa]. Qed.

Lemma append_empty_r (a : string) : (a ++ "")%string = a.
Proof. induction a; simpl; [reflexivity | now rewrite IHa]. Qed.

Lemma rebind_more m : forall j rest,
  sqlx.rebindDollar j (sqlx.more m rest) = moreDollar j m (sqlx.rebindDollar (j + m) rest).
Proof.
  induction m as [|m IH]; intros j rest.
  - simpl. now rewrite Nat.add_0_r.
  - cbn [sqlx.more moreDollar]. cbn [append sqlx.rebindDollar Ascii.eqb Bool.eqb].
    rewrite IH. replace (S j + m) with (j + S m) by lia.
    reflexivity.
Qed.

Lemma concat_placeholders m : forall j rest,
  (String.concat ", " (placeholders j (S m)) ++ rest
   = "$" ++ itoa j ++ moreDollar j m rest)%string.
Proof.
  induction m as [|m IH]; intros j rest.
  - cbn. reflexivity.
  - change (placeholders j (S (S m)))
      with (("$" ++ itoa j)%string :: placeholders (S j) (S m)).
    change (String.concat ", " (("$" ++ itoa j)%string :: placeholders (S j) (S m)))
      with (("$" ++ itoa j) ++ ", " ++ String.concat ", " (placeholders (S j) (S m)))%string.
    rewrite !append_assoc, IH. reflexivity.
Qed.

(** On the delete-by-key-set template of any kind, [sqlx.In] followed by
    [sqlx.Rebind] yields the statement with one numbered placeholder per
    key, and the identity values followed by the keys as arguments. *)
Lemma In_Rebind_keys (k : kind) (a b c d key0 : value) (keys : list value) :
  exists q,
    sqlx.In (deleteKeyInQryOf k)
      [sqlx.One a; sqlx.One b; sqlx.One c; sqlx.One d; sqlx.Many (key0 :: keys)]
    = inl (q, [a; b; c; d] ++ key0 :: keys) /\
    sqlx.Rebind (sqlx.BindType PluginName) q
    = deleteKeyInMapQryBound (tableOf k) (keyColumnOf k) (S (length keys)).
Proof.
  unfold deleteKeyInMapQryBound. rewrite concat_placeholders.
  destruct k; cbn; rewrite app_nil_r; eexists; (split; [reflexivity|]);
    cbn; rewrite rebind_more; reflexivity.
Qed.

(** ** Reading the expanded statement back *)

Lemma itoa_nonempty k : exists c s, itoa k = String c s.
Proof.
  destruct (itoa k) as [|c s] eqn:E; [|now exists c, s].
  exfalso. pose proof (NilEmpty.usu (Nat.to_uint k)) as H.
  unfold itoa in E. rewrite E in H. cbn in H. injection H as H.
  pose proof (Unsigned.of_to k) as H'. rewrite <- H in H'.
  destruct k; [discriminate E|]. discriminate H'.
Qed.

Lemma dollar_itoa k : pg.dollar ("$" ++ itoa k) = Some k.
Proof.
  destruct (itoa_nonempty k) as (c & s & E).
  change ("$" ++ itoa k)%string with (String "$" (itoa k)). unfold pg.dollar.
  rewrite E. change (Ascii.eqb "$" "$") with true. cbv iota. rewrite <- E.
  unfold itoa. rewrite NilEmpty.usu. now rewrite Unsigned.of_to.
Qed.

Lemma lexemes_word u : forall w s,
  allb wordchar u = true -> pg.lexemes w (u ++ s) = pg.lexemes (w ++ u) s.
Proof.
  induction u as [|c u IH]; intros w s H; simpl.
  - now rewrite append_empty_r.
  - simpl in H. apply andb_true_iff in H as [Hc Hu].
    unfold wordchar in Hc. apply andb_true_iff in Hc as [H1 H2].
    apply negb_true_iff in H1, H2. rewrite H1, H2.
    rewrite IH by assumption. f_equal.
    clear. induction w; simpl; [reflexivity | now rewrite IHw].
Qed.

Lemma uint_digits d : allb wordchar (NilEmpty.string_of_uint d) = true.
Proof. induction d; simpl; try reflexivity; assumption. Qed.

Lemma lexemes_comma c w s :
  pg.lexemes (String c w) (", " ++ s) = String c w :: ","%string :: pg.lexemes "" s.
Proof. reflexivity. Qed.

Lemma lexemes_dollar k s :
  pg.lexemes "" ("$" ++ itoa k ++ s) = pg.lexemes ("$" ++ itoa k) s.
Proof.
  change (pg.lexemes "" ("$" ++ itoa k ++ s)) with (pg.lexemes "$" (itoa k ++ s)).
  now rewrite lexemes_word by apply uint_digits.
Qed.

Lemma lexemes_moreDollar m : forall j w c,
  pg.lexemes (String c w) (moreDollar j m " )")
  = String c w :: commaTail j m ++ [")"%string].
Proof.
  induction m as [|m IH]; intros j w c.
  - reflexivity.
  - change (moreDollar j (S m) " )")
      with (", " ++ "$" ++ itoa (S j) ++ moreDollar (S j) m " )")%string.
    rewrite lexemes_comma, lexemes_dollar.
    change ("$" ++ itoa (S j))%string with (String "$" (itoa (S j))).
    rewrite IH. reflexivity.
Qed.

Lemma items_comma x rest :
  pg.is_word x = true ->
  pg.items (x :: ","%string :: rest)
  = match pg.items rest with Some (xs, r) => Some (x :: xs, r) | None => None end.
Proof. intros Hx. cbn [pg.items]. rewrite Hx. reflexivity. Qed.

Lemma items_commaTail m : forall j x,
  pg.is_word x = true ->
  pg.items (x :: commaTail j m ++ [")"%string])
  = Some (x :: placeholders (S j) m, [")"%string]).
Proof.
  induction m as [|m IH]; intros j x Hx.
  - cbn. rewrite Hx. reflexivity.
  - change (x :: commaTail j (S m) ++ [")"%string])
      with (x :: ","%string :: ("$" ++ itoa (S j))%string
              :: commaTail (S j) m ++ [")"%string]).
    rewrite items_comma by assumption. rewrite IH by reflexivity.
    reflexivity.
Qed.

Lemma mapM_dollar_placeholders m : forall j,
  mapM pg.dollar (placeholders j m) = Some (seq j m).
Proof.
  induction m as [|m IH]; intros j; [reflexivity|].
  unfold placeholders. cbn [seq map mapM]. rewrite dollar_itoa.
  fold (placeholders (S j) m). now rewrite IH.
Qed.

(** The backend reads the expanded statement as a delete on the kind's
    table, restricted to the execution and to the [n+1] keys bound to
    [$5 .. $(5+n)]. *)
Lemma parse_delete_keys (k : kind) (n : nat) :
  pg.parse (deleteKeyInMapQryBound (tableOf k) (keyColumnOf k) (S n))
  = Some (pg.Delete (tableOf k)
            (identityConds ++ [pg.CIn (keyColumnOf k) (seq 5 (S n))])).
Proof.
  unfold deleteKeyInMapQryBound. rewrite concat_placeholders.
  unfold pg.parse.
  destruct k; cbn -[pg.parse_delete];
    rewrite lexemes_moreDollar;
    cbn -[pg.items];
    rewrite items_commaTail by reflexivity;
    cbn -[mapM];
    change (String "$" "5" :: placeholders 6 n) with (placeholders 5 (S n));
    rewrite mapM_dollar_placeholders; reflexivity.
Qed.

Lemma parse_delete_all (k : kind) :
  pg.parse (deleteAllQryOf k) = Some (pg.Delete (tableOf k) identityConds).
Proof. destruct k; reflexivity. Qed.

(** ** What a delete removes *)

Lemma on_iff d t x : pg.on d t x = true <-> pg.at_shard x = d /\ pg.in_table x = t.
Proof.
  unfold pg.on. rewrite andb_true_iff, Z.eqb_eq, String.eqb_eq. reflexivity.
Qed.

Lemma satisfies_iff r c vs :
  pg.satisfies r (c, vs) = true <-> keyedBy c vs r.
Proof.
  unfold pg.satisfies, keyedBy; cbn [fst snd].
  destruct (lookup c r) as [x|].
  - rewrite existsb_exists. split.
    + intros (v & Hin & Heq). apply value_eqb_eq in Heq; subst v. now exists x.
    + intros (v & Hv & Hin). injection Hv as ->. exists v; split; [assumption|].
      apply value_eqb_refl.
  - split; [discriminate | intros (v & Hv & _); discriminate].
Qed.

Lemma satisfies_one r c v :
  pg.satisfies r (c, [v]) = true <-> lookup c r = Some v.
Proof.
  rewrite satisfies_iff. unfold keyedBy. split.
  - intros (x & Hx & [->|[]]). exact Hx.
  - intros H. exists v; split; [assumption | now left].
Qed.

Lemma matches_identity sh dom wf run r :
  pg.matches (identityValues sh dom wf run) r = true <-> ofExecution sh dom wf run r.
Proof.
  unfold pg.matches, identityValues, ofExecution. cbn [forallb].
  rewrite !andb_true_iff, !satisfies_one. tauto.
Qed.

Lemma matches_identity_keys sh dom wf run c keys r :
  pg.matches (identityValues sh dom wf run ++ [(c, keys)]) r = true
  <-> ofExecution sh dom wf run r /\ keyedBy c keys r.
Proof.
  unfold pg.matches. rewrite forallb_app, andb_true_iff.
  fold (pg.matches (identityValues sh dom wf run) r). rewrite matches_identity.
  cbn [forallb]. rewrite andb_true_r, satisfies_iff. reflexivity.
Qed.

Lemma mapM_arg_seq (keys : list value) : forall pre,
  mapM (fun k => pg.arg k (pre ++ keys)) (seq (S (length pre)) (length keys)) = Some keys.
Proof.
  induction keys as [|v keys IH]; intros pre; [reflexivity|].
  cbn [length seq mapM pg.arg].
  rewrite nth_error_app2, Nat.sub_diag by lia. cbn [nth_error].
  replace (pre ++ v :: keys) with ((pre ++ [v]) ++ keys) by now rewrite <- app_assoc.
  replace (S (S (length pre))) with (S (length (pre ++ [v])))
    by (rewrite length_app; simpl; lia).
  now rewrite IH.
Qed.

Lemma resolve_identity sh dom wf run :
  pg.bind_where (identityArgs sh dom wf run) identityConds
  = inl (identityValues sh dom wf run).
Proof. reflexivity. Qed.

Lemma list_max_seq n : forall a, list_max (seq a (S n)) = a + n.
Proof.
  induction n as [|n IH]; intros a.
  - cbn. lia.
  - change (seq a (S (S n))) with (a :: seq (S a) (S n)).
    cbn [list_max fold_right]. fold (list_max (seq (S a) (S n))). rewrite IH. lia.
Qed.

Lemma arity_identity_keys c n :
  pg.arity (identityConds ++ [pg.CIn c (seq 5 n)]) = 4 + n.
Proof.
  unfold pg.arity. rewrite map_app, list_max_app.
  destruct n as [|n]; [reflexivity|].
  cbn [map pg.highest]. rewrite (list_max_seq n 5).
  change (list_max (map pg.highest identityConds)) with 4.
  cbn [list_max fold_right]. lia.
Qed.

Lemma resolve_identity_keys sh dom wf run c (keys : list value) :
  pg.bind_where (identityArgs sh dom wf run ++ keys)
                (identityConds ++ [pg.CIn c (seq 5 (length keys))])
  = inl (identityValues sh dom wf run ++ [(c, keys)]).
Proof.
  unfold pg.bind_where. rewrite arity_identity_keys, length_app.
  change (length (identityArgs sh dom wf run)) with 4. rewrite Nat.eqb_refl.
  pose proof (mapM_arg_seq keys (identityArgs sh dom wf run)) as H.
  cbn [identityArgs app length] in H.
  cbn [identityConds app mapM pg.resolve pg.arg nth_error identityArgs].
  rewrite H. reflexivity.
Qed.

(** The delete-all statement, executed. *)
Lemma exec_delete_all b d q t sh dom wf run :
  pg.parse q = Some (pg.Delete t identityConds) ->
  let keep := filter (fun x => negb (pg.on d t x
                                     && pg.matches (identityValues sh dom wf run) (pg.cols x)))
                     (rows b) in
  ExecContext b d q (identityArgs sh dom wf run)
  = ((Some (mkResult (length (rows b) - length keep)), None),
     mkBackend keep (statements b ++ [mkIssued d q (Positional (identityArgs sh dom wf run))])).
Proof.
  intros Hp keep. unfold ExecContext. rewrite Hp. unfold pg.exec_delete.
  cbn [rows record]. rewrite resolve_identity. reflexivity.
Qed.

(** The delete-by-key-set statement, executed. *)
Lemma exec_delete_keys b d q t c sh dom wf run (keys : list value) :
  pg.parse q = Some (pg.Delete t (identityConds ++ [pg.CIn c (seq 5 (length keys))])) ->
  let keep := filter (fun x => negb (pg.on d t x
                                     && pg.matches (identityValues sh dom wf run ++ [(c, keys)])
                                                   (pg.cols x)))
                     (rows b) in
  ExecContext b d q (identityArgs sh dom wf run ++ keys)
  = ((Some (mkResult (length (rows b) - length keep)), None),
     mkBackend keep
       (statements b ++ [mkIssued d q (Positional (identityArgs sh dom wf run ++ keys))])).
Proof.
  intros Hp keep. unfold ExecContext. rewrite Hp. unfold pg.exec_delete.
  cbn [rows record]. rewrite resolve_identity_keys. reflexivity.
Qed.

(** Every Delete is one call of the driver: with keys, on the expanded
    statement; without, on the delete-all statement. *)
Lemma DeleteFrom_keys (k : kind) router pdb sh dom wf run key0 (keys : list (keyOf k)) b :
  DeleteFrom k router sqlx.In pdb sh dom wf run (key0 :: keys) b
  = ExecContext b (router sh (GetTotalNumDBShards pdb))
      (deleteKeyInMapQryBound (tableOf k) (keyColumnOf k) (S (length keys)))
      (identityArgs sh dom wf run ++ map (keyValue k) (key0 :: keys)).
Proof.
  destruct (In_Rebind_keys k (VInt sh) (VBytes dom) (VText wf) (VBytes run)
              (keyValue k key0) (map (keyValue k) keys)) as (q & Hin & Hre).
  rewrite length_map in Hre. rewrite <- Hre.
  destruct k; unfold DeleteFrom; delete_unfold; filter_proj;
    cbn [length Nat.ltb Nat.leb map]; cbn [deleteKeyInQryOf] in Hin;
    cbv [keyOf keyValue] in *; rewrite Hin; reflexivity.
Qed.

Lemma DeleteFrom_nil (k : kind) router In pdb sh dom wf run b :
  DeleteFrom k router In pdb sh dom wf run [] b
  = ExecContext b (router sh (GetTotalNumDBShards pdb)) (deleteAllQryOf k)
      (identityArgs sh dom wf run).
Proof. destruct k; reflexivity. Qed.

(** The rows a Delete keeps are the stored rows it does not aim at, in
    their order. *)
Lemma DeleteFrom_keeps (k : kind) router pdb sh dom wf run (keys : list (keyOf k)) b :
  let d := router sh (GetTotalNumDBShards pdb) in
  let out := DeleteFrom k router sqlx.In pdb sh dom wf run keys b in
  snd (fst out) = None /\
  exists keep : pg.stored -> bool,
    rows (snd out) = filter keep (rows b) /\
    forall x, keep x = false <-> targeted k d sh dom wf run (map (keyValue k) keys) x.
Proof.
  cbv zeta. set (d := router sh (GetTotalNumDBShards pdb)).
  destruct keys as [|key0 keys].
  - rewrite DeleteFrom_nil. fold d.
    rewrite (@exec_delete_all b d _ (tableOf k) sh dom wf run (parse_delete_all k)).
    cbn [fst snd rows]. split; [reflexivity|]. eexists; split; [reflexivity|].
    intros x. cbn beta. rewrite negb_false_iff, andb_true_iff, on_iff, matches_identity.
    unfold targeted. cbn [map]. intuition.
  - rewrite DeleteFrom_keys. fold d.
    assert (Hp := parse_delete_keys k (length keys)).
    replace (S (length keys)) with (length (map (keyValue k) (key0 :: keys))) in Hp |- *
      by (rewrite length_map; reflexivity).
    rewrite (@exec_delete_keys b d _ (tableOf k) (keyColumnOf k) sh dom wf run _ Hp).
    cbn [fst snd rows]. split; [reflexivity|]. eexists; split; [reflexivity|].
    intros x. cbn beta.
    rewrite negb_false_iff, andb_true_iff, on_iff, matches_identity_keys.
    unfold targeted. split.
    + intros ((H1 & H2) & H3 & H4).
      split; [exact H1 | split; [exact H2 | split; [exact H3 | now right]]].
    + intros (H1 & H2 & H3 & [H4|H4]); [discriminate H4|].
      split; split; assumption.
Qed.

(** ** The statement a Delete issues *)


(** ** Delete with no keys *)

(** C3, as stated, fails: on a driver holding two activity infos of an
    execution, Delete with a zero-length key list issues a statement and
    removes both rows. *)
Lemma delete_empty_keys_not_noop :
  let out := DeleteFromActivityInfoMaps shardRouter sqlx.In sampleDb
               (ActivityInfoMapsFilter.mk 5 [x01] "wf" [x02] []) sampleBackend in
  length (rows sampleBackend) = 2 /\
  rows (snd out) = [] /\
  rows (snd out) <> rows sampleBackend /\
  statements (snd out) <> statements sampleBackend.
Proof.
  vm_compute. repeat split; discriminate.
Qed.

(** C3, amended: for every collection kind, Delete with a zero-length key
    list issues exactly one statement, the delete-all statement of the
    execution identity, and returns the result and the error the driver
    gives for it, as they are.  When the driver gives no error, the call
    has removed the rows of the kind's table on the routed shard that
    belong to the execution and no other row. *)
Theorem delete_empty_keys_deletes_all (k : kind) (router : Z -> Z -> Z) (pdb : db)
    (sh : Z) (dom : UUID) (wf : string) (run : UUID) (b : Backend) :
  let d := router sh (GetTotalNumDBShards pdb) in
  let out := DeleteFrom k router sqlx.In pdb sh dom wf run [] b in
  fst out = fst (ExecContext b d (deleteAllQryOf k) (identityArgs sh dom wf run)) /\
  statements (snd out) =
    statements b ++
    [mkIssued d (deleteAllQryOf k) (Positional (identityArgs sh dom wf run))] /\
  (snd (fst out) = None ->
   exists keep : pg.stored -> bool,
     rows (snd out) = filter keep (rows b) /\
     forall x, keep x = false <->
               pg.at_shard x = d /\ pg.in_table x = tableOf k /\
               ofExecution sh dom wf run (pg.cols x)).
Proof.
  cbv zeta. split; [now rewrite DeleteFrom_nil|]. split.
  - rewrite DeleteFrom_nil, exec_records. reflexivity.
  - intros _.
    destruct (DeleteFrom_keeps k router pdb sh dom wf run [] b) as (_ & keep & Hrows & Hkeep).
    exists keep. split; [exact Hrows|]. intros x. rewrite Hkeep. unfold targeted.
    cbn [map]. intuition.
Qed.

(** ** The frame of a Delete *)

(** C7: for every collection kind, the rows a Delete leaves are the stored
    rows in their order, less those that lie on the routed shard in the
    kind's table, carry the filter's shard id, domain id, workflow id and
    run id and, when keys are given, hold one of the keys.  Rows under
    another key, of another execution, of another table or on another
    shard stay as they are. *)
Theorem delete_touches_only_its_execution (k : kind) (router : Z -> Z -> Z) (pdb : db)
    (sh : Z) (dom : UUID) (wf : string) (run : UUID) (keys : list (keyOf k)) (b : Backend) :
  let d := router sh (GetTotalNumDBShards pdb) in
  let b' := snd (DeleteFrom k router sqlx.In pdb sh dom wf run keys b) in
  exists keep : pg.stored -> bool,
    rows b' = filter keep (rows b) /\
    forall x, keep x = false <->
              pg.at_shard x = d /\ pg.in_table x = tableOf k /\
              ofExecution sh dom wf run (pg.cols x) /\
              (keys = [] \/ keyedBy (keyColumnOf k) (map (keyValue k) keys) (pg.cols x)).
Proof.
  cbv zeta.
  destruct (DeleteFrom_keeps k router pdb sh dom wf run keys b) as (_ & keep & Hrows & Hkeep).
  exists keep. split; [exact Hrows|]. intros x. rewrite Hkeep. unfold targeted.
  destruct keys; cbn [map]; [tauto|].
  split; intros (H1 & H2 & H3 & [H4|H4]); try discriminate H4;
    (split; [exact H1 | split; [exact H2 | split; [exact H3 | now right]]]).
Qed.

(** ** Insert into the signals-requested set *)

Lemma upsert_all_do_nothing d t target ns : forall st,
  (forall n, In n ns -> existsb (pg.hit d t target n) (fst (fst st)) = true) ->
  pg.upsert_all d t target pg.DoNothing st ns = inl st.
Proof.
  induction ns as [|n ns IH]; intros st H; [reflexivity|].
  cbn [pg.upsert_all]. destruct st as [[store touched] cnt].
  unfold pg.upsert_one. cbn [fst] in H. rewrite (H n (or_introl eq_refl)).
  apply IH. intros m Hm. apply H. now right.
Qed.

Lemma parse_create_signals :
  pg.parse createSignalsRequestedSetQuery
  = Some (pg.Insert "signals_requested_sets"
            ["shard_id"; "domain_id"; "workflow_id"; "run_id"; "signal_id"]%string
            ["shard_id"; "domain_id"; "workflow_id"; "run_id"; "signal_id"]%string
            ["shard_id"; "domain_id"; "workflow_id"; "run_id"; "signal_id"]%string
            pg.DoNothing).
Proof. reflexivity. Qed.

(** C9: when every row handed to [InsertIntoSignalsRequestedSets] already
    has a stored row with its shard id, domain id, workflow id, run id and
    signal id in the signals-requested table of the routed shard, the
    insert affects no row, returns no error and leaves every stored row as
    it was: the statement's [ON CONFLICT ... DO NOTHING] skips the row
    instead of overwriting it. *)
Theorem insert_signals_requested_is_idempotent (router : Z -> Z -> Z) (pdb : db)
    (r0 : SignalsRequestedSetsRow.t) (rest : list SignalsRequestedSetsRow.t) (b : Backend) :
  let d := router (SignalsRequestedSetsRow.ShardID r0) (GetTotalNumDBShards pdb) in
  (forall r, In r (r0 :: rest) ->
     exists x, In x (rows b) /\
               pg.at_shard x = d /\ pg.in_table x = "signals_requested_sets"%string /\
               ofExecution (SignalsRequestedSetsRow.ShardID r)
                           (SignalsRequestedSetsRow.DomainID r)
                           (SignalsRequestedSetsRow.WorkflowID r)
                           (SignalsRequestedSetsRow.RunID r) (pg.cols x) /\
               lookup "signal_id" (pg.cols x)
               = Some (VText (SignalsRequestedSetsRow.SignalID r))) ->
  let out := InsertIntoSignalsRequestedSets router pdb (r0 :: rest) b in
  fst out = (Some (mkResult 0), None) /\
  rows (snd out) = rows b /\
  pg.parse createSignalsRequestedSetQuery
  = Some (pg.Insert "signals_requested_sets"
            ["shard_id"; "domain_id"; "workflow_id"; "run_id"; "signal_id"]%string
            ["shard_id"; "domain_id"; "workflow_id"; "run_id"; "signal_id"]%string
            ["shard_id"; "domain_id"; "workflow_id"; "run_id"; "signal_id"]%string
            pg.DoNothing).
Proof.
  intros d Hpresent out. subst out.
  unfold InsertIntoSignalsRequestedSets, NamedExecContext. fold d.
  rewrite parse_create_signals. unfold pg.exec_insert.
  change (pg.valid_insert _ _ _ _) with true. cbv iota.
  rewrite (mapM_all _ (fun n => n)), map_id.
  2:{ intros n Hn. apply in_map_iff in Hn as (r & <- & _). reflexivity. }
  cbn [rows record].
  rewrite upsert_all_do_nothing.
  - cbn [fst snd rows]. repeat split.
  - intros n Hn. apply in_map_iff in Hn as (r & <- & Hr). cbn [fst].
    destruct (Hpresent r Hr) as (x & Hx & Hd & Ht & (H1 & H2 & H3 & H4) & H5).
    apply existsb_exists. exists x. split; [exact Hx|].
    unfold pg.hit. apply andb_true_iff. split; [now apply on_iff|].
    unfold pg.same_key. cbn [forallb].
    rewrite H1, H2, H3, H4, H5. cbn [SignalsRequestedSetsRow.bind lookup String.eqb Ascii.eqb Bool.eqb].
    now rewrite !value_eqb_refl.
Qed.

Lemma insert_signals_requested_is_idempotent_witness :
  let b := snd (InsertIntoSignalsRequestedSets shardRouter sampleDb
                  [sampleSignal "s1"; sampleSignal "s2"] emptyBackend) in
  let out := InsertIntoSignalsRequestedSets shardRouter sampleDb
               [sampleSignal "s2"; sampleSignal "s1"] b in
  length (rows b) = 2 /\
  fst out = (Some (mkResult 0), None) /\ rows (snd out) = rows b.
Proof.
  intros b out. split; [reflexivity|].
  destruct (insert_signals_requested_is_idempotent shardRouter sampleDb
              (sampleSignal "s2") [sampleSignal "s1"] b) as (H1 & H2 & _).
  - intros r [<-|[<-|[]]].
    + exists (pg.mkStored 1 "signals_requested_sets"
                (SignalsRequestedSetsRow.bind (sampleSignal "s2"))).
      vm_compute. intuition.
    + exists (pg.mkStored 1 "signals_requested_sets"
                (SignalsRequestedSetsRow.bind (sampleSignal "s1"))).
      vm_compute. intuition.
  - split; assumption.
Defined.

(** ** What an upsert stores *)

Lemma same_key_iff target a b : pg.same_key target a b = true <-> sameKey target a b.
Proof.
  unfold pg.same_key, sameKey. rewrite forallb_forall. split; intros H c Hc.
  - specialize (H c Hc). destruct (lookup c a) as [x|], (lookup c b) as [y|]; try discriminate.
    apply value_eqb_eq in H; subst y. now exists x.
  - destruct (H c Hc) as (v & -> & ->). apply value_eqb_refl.
Qed.

Lemma sameKey_sym target a b : sameKey target a b -> sameKey target b a.
Proof. intros H c Hc. destruct (H c Hc) as (v & Ha & Hb). now exists v. Qed.

Lemma sameKey_trans target a b c : sameKey target a b -> sameKey target b c -> sameKey target a c.
Proof.
  intros H1 H2 x Hx. destruct (H1 x Hx) as (v & Ha & Hb), (H2 x Hx) as (w & Hb' & Hc).
  rewrite Hb in Hb'. injection Hb' as <-. now exists v.
Qed.

Lemma sameKey_refl target cols_ a : incl target cols_ -> full cols_ a -> sameKey target a a.
Proof.
  intros Hi Hf c Hc. specialize (Hf c (Hi c Hc)).
  destruct (lookup c a) as [v|]; [now exists v | congruence].
Qed.

Lemma sameKey_agree target cols_ a b b' :
  incl target cols_ -> agree cols_ b b' -> sameKey target a b -> sameKey target a b'.
Proof.
  intros Hi Hag H c Hc. destruct (H c Hc) as (v & Ha & Hb).
  exists v. split; [assumption|]. now rewrite <- (Hag c (Hi c Hc)).
Qed.

Lemma agree_sym cols_ a b : agree cols_ a b -> agree cols_ b a.
Proof. intros H c Hc. symmetry. now apply H. Qed.

Lemma agree_trans cols_ a b c : agree cols_ a b -> agree cols_ b c -> agree cols_ a c.
Proof. intros H1 H2 x Hx. now rewrite (H1 x Hx), (H2 x Hx). Qed.

Lemma full_agree cols_ a b : agree cols_ a b -> full cols_ b -> full cols_ a.
Proof. intros Hag Hf c Hc. rewrite (Hag c Hc). now apply Hf. Qed.

Lemma hit_iff d t target n x :
  pg.hit d t target n x = true <-> pg.on d t x = true /\ sameKey target (pg.cols x) n.
Proof. unfold pg.hit. now rewrite andb_true_iff, same_key_iff. Qed.

Lemma assign_other cols_ n c : forall e,
  ~ In c cols_ -> lookup c (pg.assign cols_ cols_ n e) = lookup c e.
Proof.
  unfold pg.assign. induction cols_ as [|c0 l IH]; intros e Hc; [reflexivity|].
  cbn [combine fold_left fst snd].
  rewrite IH by (intros Hin; apply Hc; now right).
  destruct (lookup c0 n) as [v|]; [|reflexivity].
  apply lookup_set_col_other. intros ->. apply Hc. now left.
Qed.

Lemma assign_agree cols_ n : forall e, full cols_ n -> agree cols_ (pg.assign cols_ cols_ n e) n.
Proof.
  unfold agree, pg.assign. induction cols_ as [|c0 l IH]; intros e Hf c Hc; [destruct Hc|].
  cbn [combine fold_left fst snd].
  destruct (in_dec string_dec c l) as [Hin|Hnin].
  - apply IH; [|assumption]. intros c' Hc'. apply Hf. now right.
  - destruct Hc as [<-|Hc]; [|contradiction].
    pose proof (assign_other l n c0) as Ho. unfold pg.assign in Ho. rewrite Ho by assumption.
    destruct (lookup c0 n) as [v|] eqn:E.
    + apply lookup_set_col_same.
    + exfalso. apply (Hf c0); [now left | assumption].
Qed.

Section Upsert.

Variables (d : Z) (t : string) (target cols_ : list string).
Hypothesis Htarget : incl target cols_.

Lemma upsert_one_update store touched cnt n store' touched' cnt' :
  full cols_ n ->
  upsertInv d t target cols_ store touched ->
  pg.upsert_one d t target (pg.DoUpdate cols_ cols_) (store, touched, cnt) n
  = inl (store', touched', cnt') ->
  upsertInv d t target cols_ store' touched' /\
  (exists m, In m touched' /\ agree cols_ m n) /\
  (forall m, In m touched -> In m touched').
Proof.
  intros Hfull HInv. unfold pg.upsert_one.
  destruct (existsb (pg.hit d t target n) store) eqn:Ehit.
  - destruct (existsb (fun m => pg.same_key target m n) touched) eqn:Etouched; [discriminate|].
    intros H; injection H as <- <- <-.
    assert (Hnot : forall m, In m touched -> ~ sameKey target m n).
    { intros m Hm Hk. apply same_key_iff in Hk.
      assert (existsb (fun m => pg.same_key target m n) touched = true)
        by (apply existsb_exists; now exists m).
      congruence. }
    set (a := fun e => pg.assign cols_ cols_ n e).
    assert (Ha : forall e, agree cols_ (a e) n) by (intros e; now apply assign_agree).
    set (upd := fun x => if pg.hit d t target n x
                         then pg.mkStored (pg.at_shard x) (pg.in_table x) (a (pg.cols x))
                         else x).
    assert (Hon : forall x, pg.on d t (upd x) = pg.on d t x).
    { intros x. unfold upd. destruct (pg.hit d t target n x); reflexivity. }
    assert (Hupd_hit : forall x, pg.hit d t target n x = true -> agree cols_ (pg.cols (upd x)) n).
    { intros x Hx. unfold upd. rewrite Hx. apply Ha. }
    assert (Hupd_miss : forall x, pg.hit d t target n x = false -> upd x = x).
    { intros x Hx. unfold upd. now rewrite Hx. }
    split; [|split].
    + intros m Hm. apply in_app_or in Hm as [Hm|Hm].
      * (* a row updated by this proposal *)
        apply in_map_iff in Hm as (e & <- & He).
        apply in_map_iff in He as (x0 & <- & Hx0).
        apply filter_In in Hx0 as (Hx0 & Hhit0).
        fold (a (pg.cols x0)).
        assert (Hfm : full cols_ (a (pg.cols x0))) by (eapply full_agree; [apply Ha | assumption]).
        split; [assumption|]. split.
        -- exists (upd x0). split; [now apply in_map|].
           apply hit_iff. split.
           ++ rewrite Hon. now apply hit_iff in Hhit0.
           ++ unfold upd. rewrite Hhit0. cbn [pg.cols].
              eapply sameKey_refl; eassumption.
        -- intros x' Hx' Hhit'. apply in_map_iff in Hx' as (x & <- & Hx).
           destruct (pg.hit d t target n x) eqn:Ex.
           ++ eapply agree_trans; [now apply Hupd_hit | apply agree_sym, Ha].
           ++ rewrite (Hupd_miss x Ex) in Hhit' |- *. exfalso.
              apply hit_iff in Hhit' as (Hon' & Hk').
              assert (pg.hit d t target n x = true); [|congruence].
              apply hit_iff. split; [assumption|].
              eapply sameKey_agree; [exact Htarget | apply Ha | exact Hk'].
      * (* a row touched earlier *)
        destruct (HInv m Hm) as (Hfm & (xm & Hxm & Hhitm) & Hall).
        split; [assumption|]. split.
        -- exists xm. split.
           ++ replace xm with (upd xm); [now apply in_map|].
              apply Hupd_miss. destruct (pg.hit d t target n xm) eqn:Ex; [|reflexivity].
              exfalso. apply hit_iff in Ex as (_ & Hk1). apply hit_iff in Hhitm as (_ & Hk2).
              apply (Hnot m Hm). eapply sameKey_trans; [apply sameKey_sym; exact Hk2 | exact Hk1].
           ++ assumption.
        -- intros x' Hx' Hhit'. apply in_map_iff in Hx' as (x & <- & Hx).
           destruct (pg.hit d t target n x) eqn:Ex.
           ++ exfalso. apply (Hnot m Hm).
              apply hit_iff in Hhit' as (_ & Hk').
              eapply sameKey_agree;
                [exact Htarget | apply (Hupd_hit x Ex) | apply sameKey_sym; exact Hk'].
           ++ rewrite (Hupd_miss x Ex) in Hhit' |- *. now apply Hall.
    + apply existsb_exists in Ehit as (x0 & Hx0 & Hhit0).
      exists (a (pg.cols x0)). split; [|apply Ha].
      apply in_or_app. left. apply in_map, in_map. apply filter_In. now split.
    + intros m Hm. apply in_or_app. now right.
  - intros H; injection H as <- <- <-.
    assert (Hmiss : forall x, In x store -> pg.hit d t target n x = false).
    { intros x Hx. destruct (pg.hit d t target n x) eqn:E; [|reflexivity].
      assert (existsb (pg.hit d t target n) store = true)
        by (apply existsb_exists; now exists x).
      congruence. }
    assert (Hnew : pg.hit d t target n (pg.mkStored d t n) = true).
    { apply hit_iff. split.
      - unfold pg.on. cbn [pg.at_shard pg.in_table]. now rewrite Z.eqb_refl, String.eqb_refl.
      - cbn [pg.cols]. eapply sameKey_refl; eassumption. }
    split; [|split].
    + intros m [<-|Hm].
      * split; [assumption|]. split.
        -- exists (pg.mkStored d t n). split; [apply in_or_app; right; now left | assumption].
        -- intros x Hx Hhit. apply in_app_or in Hx as [Hx|[<-|[]]].
           ++ rewrite (Hmiss x Hx) in Hhit. discriminate.
           ++ intros c _. reflexivity.
      * destruct (HInv m Hm) as (Hfm & (xm & Hxm & Hhitm) & Hall).
        split; [assumption|]. split.
        -- exists xm. split; [apply in_or_app; now left | assumption].
        -- intros x Hx Hhit. apply in_app_or in Hx as [Hx|[<-|[]]]; [now apply Hall|].
           exfalso. apply hit_iff in Hhit as (_ & Hk). cbn [pg.cols] in Hk.
           apply hit_iff in Hhitm as (Hon & Hkm).
           assert (pg.hit d t target n xm = true) by
             (apply hit_iff; split; [assumption|];
              eapply sameKey_trans; [exact Hkm | apply sameKey_sym; exact Hk]).
           rewrite (Hmiss xm Hxm) in H. discriminate.
    + exists n. split; [now left | intros c _; reflexivity].
    + intros m Hm. now right.
Qed.

Lemma upsert_all_update ns : forall store touched cnt store' touched' cnt',
  (forall n, In n ns -> full cols_ n) ->
  upsertInv d t target cols_ store touched ->
  pg.upsert_all d t target (pg.DoUpdate cols_ cols_) (store, touched, cnt) ns
  = inl (store', touched', cnt') ->
  upsertInv d t target cols_ store' touched' /\
  (forall n, In n ns -> exists m, In m touched' /\ agree cols_ m n) /\
  (forall m, In m touched -> In m touched').
Proof.
  induction ns as [|n ns IH]; intros store touched cnt store' touched' cnt' Hfull HInv H.
  - injection H as <- <- <-. split; [assumption|]. split; [intros n []|auto].
  - cbn [pg.upsert_all] in H.
    destruct (pg.upsert_one d t target (pg.DoUpdate cols_ cols_) (store, touched, cnt) n)
      as [[[store1 touched1] cnt1]|e] eqn:E1; [|discriminate].
    destruct (upsert_one_update _ _ _ _ _ _ _ (Hfull n (or_introl eq_refl)) HInv E1)
      as (HInv1 & (m & Hm & Hag) & Hmono1).
    destruct (IH _ _ _ _ _ _ (fun n' Hn' => Hfull n' (or_intror Hn')) HInv1 H)
      as (HInv' & Htrack & Hmono).
    split; [assumption|]. split.
    + intros n' [<-|Hn']; [|now apply Htrack].
      exists m. split; [now apply Hmono | assumption].
    + intros m' Hm'. apply Hmono, Hmono1, Hm'.
Qed.

(** After an upsert that overwrites every column, each proposed row has a
    stored row under its key, and every stored row under its key agrees
    with it on every column. *)
Lemma exec_upsert_stores batch store store' cnt :
  (forall n, In n batch -> pg.proposed cols_ cols_ n = Some n) ->
  (forall n, In n batch -> full cols_ n) ->
  pg.exec_insert d t cols_ cols_ target (pg.DoUpdate cols_ cols_) batch store
  = inl (store', cnt) ->
  forall n, In n batch ->
    (exists x, In x store' /\ pg.on d t x = true /\ sameKey target (pg.cols x) n) /\
    (forall x, In x store' -> pg.on d t x = true -> sameKey target (pg.cols x) n ->
               agree cols_ (pg.cols x) n).
Proof.
  intros Hprop Hfull. unfold pg.exec_insert.
  destruct (pg.valid_insert cols_ cols_ target (pg.DoUpdate cols_ cols_)); [|discriminate].
  rewrite (mapM_all _ (fun n => n) batch Hprop), map_id.
  destruct (pg.upsert_all d t target (pg.DoUpdate cols_ cols_) (store, [], 0) batch)
    as [[[store1 touched1] cnt1]|e] eqn:E; [|discriminate].
  intros H; injection H as <- <-. intros n Hn.
  destruct (upsert_all_update batch _ _ _ _ _ _ Hfull (fun m (Hm : In m []) => match Hm with end) E)
    as (HInv & Htrack & _).
  destruct (Htrack n Hn) as (m & Hm & Hag).
  destruct (HInv m Hm) as (Hfm & (x & Hx & Hhit) & Hall).
  split.
  - exists x. split; [assumption|]. apply hit_iff in Hhit as (Hon & Hk).
    split; [assumption|]. eapply sameKey_agree; eassumption.
  - intros x' Hx' Hon' Hk'. eapply agree_trans; [|exact Hag].
    apply Hall; [assumption|]. apply hit_iff. split; [assumption|].
    eapply sameKey_agree; [exact Htarget | apply agree_sym; exact Hag | exact Hk'].
Qed.

End Upsert.

(** ** Where an upsert's rows come from and go *)

Lemma upsert_one_keeps d t target act store touched cnt n store' touched' cnt' x :
  pg.upsert_one d t target act (store, touched, cnt) n = inl (store', touched', cnt') ->
  In x store -> pg.hit d t target n x = false -> In x store'.
Proof.
  unfold pg.upsert_one. intros H Hx Hmiss.
  destruct (existsb (pg.hit d t target n) store).
  - destruct act as [|set src].
    + now injection H as <- _ _.
    + destruct (existsb _ touched); [discriminate|]. injection H as <- _ _.
      apply in_map_iff. exists x. now rewrite Hmiss.
  - injection H as <- _ _. apply in_or_app. now left.
Qed.

Lemma upsert_all_keeps d t target act ns : forall store touched cnt store' touched' cnt' x,
  pg.upsert_all d t target act (store, touched, cnt) ns = inl (store', touched', cnt') ->
  In x store -> (forall n, In n ns -> pg.hit d t target n x = false) -> In x store'.
Proof.
  induction ns as [|n ns IH]; intros store touched cnt store' touched' cnt' x H Hx Hmiss.
  - now injection H as <- _ _.
  - cbn [pg.upsert_all] in H.
    destruct (pg.upsert_one d t target act (store, touched, cnt) n)
      as [[[store1 touched1] cnt1]|e] eqn:E1; [|discriminate].
    eapply IH; [exact H | | intros n' Hn'; apply Hmiss; now right].
    eapply upsert_one_keeps; [exact E1 | exact Hx | apply Hmiss; now left].
Qed.

Lemma upsert_one_origin d t target cols_ store touched cnt n store' touched' cnt' x' :
  full cols_ n ->
  pg.upsert_one d t target (pg.DoUpdate cols_ cols_) (store, touched, cnt) n
  = inl (store', touched', cnt') ->
  In x' store' ->
  In x' store \/ (pg.on d t x' = true /\ agree cols_ (pg.cols x') n).
Proof.
  unfold pg.upsert_one. intros Hfull H Hx'.
  destruct (existsb (pg.hit d t target n) store).
  - destruct (existsb _ touched); [discriminate|]. injection H as <- _ _.
    apply in_map_iff in Hx' as (x & <- & Hx).
    destruct (pg.hit d t target n x) eqn:E; [right | now left].
    apply hit_iff in E as (Hon & _). split; [exact Hon | now apply assign_agree].
  - injection H as <- _ _. apply in_app_or in Hx' as [Hx'|[<-|[]]]; [now left | right].
    split; [|intros c _; reflexivity].
    unfold pg.on. cbn [pg.at_shard pg.in_table]. now rewrite Z.eqb_refl, String.eqb_refl.
Qed.

Lemma upsert_all_origin d t target cols_ ns : forall store touched cnt store' touched' cnt' x',
  (forall n, In n ns -> full cols_ n) ->
  pg.upsert_all d t target (pg.DoUpdate cols_ cols_) (store, touched, cnt) ns
  = inl (store', touched', cnt') ->
  In x' store' ->
  In x' store \/ exists n, In n ns /\ pg.on d t x' = true /\ agree cols_ (pg.cols x') n.
Proof.
  induction ns as [|n ns IH]; intros store touched cnt store' touched' cnt' x' Hfull H Hx'.
  - injection H as <- _ _. now left.
  - cbn [pg.upsert_all] in H.
    destruct (pg.upsert_one d t target (pg.DoUpdate cols_ cols_) (store, touched, cnt) n)
      as [[[store1 touched1] cnt1]|e] eqn:E1; [|discriminate].
    destruct (IH _ _ _ _ _ _ x' (fun n' Hn' => Hfull n' (or_intror Hn')) H Hx')
      as [Hx1|(n' & Hn' & Hon & Hag)].
    + destruct (upsert_one_origin _ _ _ _ _ _ _ _ _ _ _ x' (Hfull n (or_introl eq_refl)) E1 Hx1)
        as [Hx|(Hon & Hag)]; [now left | right].
      exists n. split; [now left | now split].
    + right. exists n'. split; [now right | now split].
Qed.

(** ** Replace, kind by kind *)

(** Every Replace of a non-empty slice is one call of the driver, on the
    kind's upsert statement, bound to the rows as they are written. *)
Lemma ReplaceInto_exec (k : kind) router pdb (r0 : rowOf k) (rest : list (rowOf k)) b :
  ReplaceInto k router pdb (r0 :: rest) b
  = NamedExecContext b (router (shardIDOf k r0) (GetTotalNumDBShards pdb)) (setKeyQryOf k)
      (map (bindOf k) (map (written k pdb) (r0 :: rest))).
Proof.
  destruct k; cbn [ReplaceInto written bindOf setKeyQryOf shardIDOf rowOf] in *;
    try (rewrite map_id; reflexivity).
  unfold ReplaceIntoActivityInfoMaps. rewrite forRange_updAt_map.
  match goal with
  | |- context [NamedExecContext ?b ?d ?q ?a] => destruct (NamedExecContext b d q a) as [res b']
  end.
  reflexivity.
Qed.

Lemma parse_set_key (k : kind) :
  k <> SignalsRequested ->
  pg.parse (setKeyQryOf k)
  = Some (pg.Insert (tableOf k) (columnsOf k) (columnsOf k) (primaryKeyOf k)
            (pg.DoUpdate (columnsOf k) (columnsOf k))).
Proof. destruct k; intros H; try reflexivity. congruence. Qed.

Lemma proposed_bind (k : kind) (r : rowOf k) :
  pg.proposed (columnsOf k) (columnsOf k) (bindOf k r) = Some (bindOf k r).
Proof. destruct k; reflexivity. Qed.

Lemma full_bind (k : kind) (r : rowOf k) : full (columnsOf k) (bindOf k r).
Proof.
  destruct k; intros c Hc; cbn in Hc;
    repeat (destruct Hc as [<-|Hc]; [discriminate|]); destruct Hc.
Qed.

Lemma primaryKey_incl (k : kind) : incl (primaryKeyOf k) (columnsOf k).
Proof. unfold columnsOf. apply incl_appl, incl_refl. Qed.


(** ** When a Replace goes through *)


Section UpsertSucceeds.

Variables (d : Z) (t : string) (target cols_ : list string).
Hypothesis Htarget : incl target cols_.


End UpsertSucceeds.





(** ** What a Replace leaves in the store *)




(** ** Select after Replace *)

Lemma project_agree out a b : agree out a b -> pg.project out a = pg.project out b.
Proof.
  unfold pg.project. induction out as [|c out IH]; intros H; [reflexivity|].
  cbn [mapM]. rewrite (H c (or_introl eq_refl)), IH; [reflexivity|].
  intros c' Hc'. apply H. now right.
Qed.

(** A stored row of the execution on the routed shard is among the rows a
    successful select scans. *)
Lemma select_context_finds {R : Type} b d (scan : tuple -> option R) q out t
    sh dom wf run raw b' x :
  pg.parse q = Some (pg.Select out t identityConds) ->
  SelectContext b d scan q (identityArgs sh dom wf run) = ((raw, None), b') ->
  In x (rows b) -> pg.on d t x = true -> ofExecution sh dom wf run (pg.cols x) ->
  exists tx rx, pg.project out (pg.cols x) = Some tx /\ scan tx = Some rx /\ In rx raw.
Proof.
  intros Hp. unfold SelectContext. rewrite Hp. unfold pg.exec_select.
  cbn [rows record]. rewrite resolve_identity.
  destruct (mapM (pg.project out) _) as [ts|] eqn:Ets; [|discriminate].
  destruct (mapM scan ts) as [rs|] eqn:Ers; [|discriminate].
  intros H Hx Hon Hex. injection H as <- _.
  assert (Hin : In (pg.cols x)
                  (map pg.cols
                     (filter (fun x0 => pg.on d t x0
                                        && pg.matches (identityValues sh dom wf run) (pg.cols x0))
                             (rows b)))).
  { apply in_map, filter_In. split; [assumption|].
    apply andb_true_iff; split; [assumption | now apply matches_identity]. }
  destruct (mapM_In _ _ _ _ Ets Hin) as (tx & Htx & Hintx).
  destruct (mapM_In _ _ _ _ Ers Hintx) as (rx & Hrx & Hinrx).
  now exists tx, rx.
Qed.

Lemma parse_get (k : kind) :
  pg.parse (getQryOf k) = Some (pg.Select (selectColumnsOf k) (tableOf k) identityConds).
Proof. destruct k; reflexivity. Qed.

(** Every Select is one call of the driver followed by the re-stamping of
    the fetched rows. *)
Lemma SelectFrom_exec (k : kind) router pdb sh dom wf run (keys : list (keyOf k)) b :
  SelectFrom k router pdb sh dom wf run keys b
  = (let out := SelectContext b (router sh (GetTotalNumDBShards pdb)) (scanOf k) (getQryOf k)
                  (identityArgs sh dom wf run) in
     ((map (restampOf k pdb sh dom wf run) (fst (fst out)), snd (fst out)), snd out)).
Proof.
  destruct k; cbn [SelectFrom scanOf getQryOf restampOf rowOf keyOf] in *;
    [ unfold SelectFromActivityInfoMaps | unfold SelectFromTimerInfoMaps
    | unfold SelectFromChildExecutionInfoMaps | unfold SelectFromRequestCancelInfoMaps
    | unfold SelectFromSignalInfoMaps | unfold SelectFromSignalsRequestedSets ];
    filter_proj; unfold identityArgs;
    match goal with
    | |- context [SelectContext ?b ?d ?sc ?q ?a] =>
        destruct (SelectContext b d sc q a) as [[raw err] b']
    end;
    cbn [fst snd]; rewrite forRange_updAt_map; reflexivity.
Qed.





(** ** When a Select goes through *)






(** ** The round trip *)




(** * Further properties of the operations *)

(** ** What a Select returns *)

Lemma selects_iff d t sh dom wf run x :
  selects d t sh dom wf run x = true
  <-> pg.at_shard x = d /\ pg.in_table x = t /\ ofExecution sh dom wf run (pg.cols x).
Proof.
  unfold selects. rewrite andb_true_iff, on_iff, matches_identity. tauto.
Qed.

Lemma mapM_Forall2 {A B : Type} (f : A -> option B) (l : list A) (bs : list B) :
  mapM f l = Some bs -> Forall2 (fun a b => f a = Some b) l bs.
Proof.
  revert bs; induction l as [|a l IH]; intros bs H; cbn [mapM] in H.
  - injection H as <-. constructor.
  - destruct (f a) as [b|] eqn:Ea; [|discriminate].
    destruct (mapM f l) as [bs'|] eqn:El; [|discriminate].
    injection H as <-. constructor; [assumption | now apply IH].
Qed.

Lemma Forall2_map_l {A B C : Type} (P : B -> C -> Prop) (g : A -> B) (l : list A) (cs : list C) :
  Forall2 P (map g l) cs <-> Forall2 (fun a c => P (g a) c) l cs.
Proof.
  revert cs; induction l as [|a l IH]; intros cs; split; intros H; inversion H; subst;
    cbn [map]; constructor; try assumption; now apply IH.
Qed.

Lemma Forall2_compose {A B C : Type} (P : A -> B -> Prop) (Q : B -> C -> Prop)
    (l : list A) (m : list B) (n : list C) :
  Forall2 P l m -> Forall2 Q m n -> Forall2 (fun a c => exists b, P a b /\ Q b c) l n.
Proof.
  intros H; revert n; induction H; intros n Hn; inversion Hn; subst; constructor.
  - eexists; split; eassumption.
  - now apply IHForall2.
Qed.

(** A query on the identity conditions changes no stored row, is recorded
    once, and when it succeeds hands back one scanned row per selected
    stored row, in stored order. *)
Lemma select_context_exact {R : Type} b d (scan : tuple -> option R) q out t
    sh dom wf run raw err b' :
  pg.parse q = Some (pg.Select out t identityConds) ->
  SelectContext b d scan q (identityArgs sh dom wf run) = ((raw, err), b') ->
  rows b' = rows b /\
  statements b' = statements b ++ [mkIssued d q (Positional (identityArgs sh dom wf run))] /\
  (err = None ->
   Forall2 (fun x r => exists tx, pg.project out (pg.cols x) = Some tx /\ scan tx = Some r)
           (filter (selects d t sh dom wf run) (rows b)) raw).
Proof.
  intros Hp. unfold SelectContext. rewrite Hp. unfold pg.exec_select.
  cbn [rows record]. rewrite resolve_identity.
  fold (selects d t sh dom wf run).
  change (fun x : pg.stored =>
            pg.on d t x && pg.matches (identityValues sh dom wf run) (pg.cols x))
    with (selects d t sh dom wf run).
  destruct (mapM (pg.project out) _) as [ts|] eqn:Ets.
  - destruct (mapM scan ts) as [rs|] eqn:Ers; intros H; injection H as <- <- <-;
      cbn [rows statements]; (split; [reflexivity|]); (split; [reflexivity|]);
      intros He; try discriminate.
    apply mapM_Forall2 in Ets, Ers. apply Forall2_map_l in Ets.
    exact (Forall2_compose _ _ _ _ _ Ets Ers).
  - intros H; injection H as <- <- <-. cbn [rows statements].
    split; [reflexivity|]. split; [reflexivity|]. discriminate.
Qed.

(** What scanning keeps: a row scanned from the selected columns of a
    stored row binds to those columns' values. *)
Lemma scan_agrees (k : kind) (c tx : tuple) (rx : rowOf k) :
  pg.project (selectColumnsOf k) c = Some tx ->
  scanOf k tx = Some rx ->
  agree (selectColumnsOf k) c (bindOf k rx).
Proof.
  unfold pg.project.
  destruct k; cbn [selectColumnsOf keyColumnOf valueColumnsOf mapM
                   activityInfoKey activityInfoColumns timerInfoKey timerInfoColumns
                   childExecutionInfoKey childExecutionInfoColumns
                   requestCancelInfoKey requestCancelInfoColumns
                   signalInfoKey signalInfoColumns scanOf rowOf bindOf];
    repeat match goal with
           | |- context [lookup ?col c] =>
               let E := fresh "E" in
               destruct (lookup col c) as [?v|] eqn:E; [|discriminate]
           end;
    intros H; injection H as <-;
    cbn;
    repeat match goal with
           | |- context [match ?v with VInt _ => _ | _ => _ end] =>
               destruct v; try discriminate; cbn
           end;
    intros H; injection H as <-;
    intros col Hcol; cbn in Hcol;
    repeat (destruct Hcol as [<-|Hcol]; [cbn; congruence|]); destruct Hcol.
Qed.

(** X1: for every collection kind, a Select changes no stored row, whether
    it succeeds or fails, and hands the driver exactly one statement: the
    kind's select-all statement, bound to the filter's identity, on the
    shard the router gives for the filter's shard id. *)
Theorem select_is_read_only (k : kind) (router : Z -> Z -> Z) (pdb : db)
    (sh : Z) (dom : UUID) (wf : string) (run : UUID) (keys : list (keyOf k)) (b : Backend) :
  let b' := snd (SelectFrom k router pdb sh dom wf run keys b) in
  rows b' = rows b /\
  statements b' =
    statements b ++
    [mkIssued (router sh (GetTotalNumDBShards pdb)) (getQryOf k)
              (Positional (identityArgs sh dom wf run))].
Proof.
  cbv zeta. rewrite SelectFrom_exec. cbv zeta. cbn [snd].
  destruct (SelectContext b (router sh (GetTotalNumDBShards pdb)) (scanOf k) (getQryOf k)
              (identityArgs sh dom wf run)) as [[raw err] b'] eqn:ES.
  destruct (select_context_exact _ _ _ _ _ _ _ _ _ _ _ _ _ (parse_get k) ES) as (H1 & H2 & _).
  cbn [snd]. now split.
Qed.

(** In the stored order of the backend, a Select that returns no error
    scans one row from each stored row of the filter's execution in the
    kind's table on the routed shard. *)
Lemma select_scans_the_execution (k : kind) (router : Z -> Z -> Z) (pdb : db)
    (sh : Z) (dom : UUID) (wf : string) (run : UUID) (keys : list (keyOf k)) (b : Backend)
    (sel : list (rowOf k)) (b' : Backend) :
  SelectFrom k router pdb sh dom wf run keys b = ((sel, None), b') ->
  exists raw,
    sel = map (restampOf k pdb sh dom wf run) raw /\
    Forall2 (fun x r => agree (selectColumnsOf k) (pg.cols x) (bindOf k r))
            (filter (selects (router sh (GetTotalNumDBShards pdb)) (tableOf k) sh dom wf run)
                    (rows b))
            raw /\
    forall x, selects (router sh (GetTotalNumDBShards pdb)) (tableOf k) sh dom wf run x = true
              <-> pg.at_shard x = router sh (GetTotalNumDBShards pdb) /\
                  pg.in_table x = tableOf k /\ ofExecution sh dom wf run (pg.cols x).
Proof.
  rewrite SelectFrom_exec. cbv zeta.
  destruct (SelectContext b (router sh (GetTotalNumDBShards pdb)) (scanOf k) (getQryOf k)
              (identityArgs sh dom wf run)) as [[raw err] b1] eqn:ES.
  cbn [fst snd]. intros H; injection H as <- -> <-.
  destruct (select_context_exact _ _ _ _ _ _ _ _ _ _ _ _ _ (parse_get k) ES) as (_ & _ & H).
  exists raw. split; [reflexivity|]. split; [|intros x; apply selects_iff].
  specialize (H eq_refl).
  eapply Forall2_impl; [|exact H].
  intros x r (tx & Htx & Hr). eapply scan_agrees; eassumption.
Qed.

(** X2: for every collection kind, a Select that returns no error returns
    one row for each stored row of the filter's execution in the kind's
    table on the routed shard and no other row, in an order that is not
    stated: each returned row carries the key and value columns of its
    stored row (the last-heartbeat time of an activity info passed
    through [FromPostgresDateTime]) and the identity of the filter. *)
Theorem select_returns_the_execution (k : kind) (router : Z -> Z -> Z) (pdb : db)
    (sh : Z) (dom : UUID) (wf : string) (run : UUID) (keys : list (keyOf k)) (b : Backend)
    (sel : list (rowOf k)) (b' : Backend) :
  SelectFrom k router pdb sh dom wf run keys b = ((sel, None), b') ->
  exists raw stored,
    sel = map (restampOf k pdb sh dom wf run) raw /\
    Permutation stored
      (filter (selects (router sh (GetTotalNumDBShards pdb)) (tableOf k) sh dom wf run)
              (rows b)) /\
    Forall2 (fun x r => agree (selectColumnsOf k) (pg.cols x) (bindOf k r)) stored raw /\
    forall x, selects (router sh (GetTotalNumDBShards pdb)) (tableOf k) sh dom wf run x = true
              <-> pg.at_shard x = router sh (GetTotalNumDBShards pdb) /\
                  pg.in_table x = tableOf k /\ ofExecution sh dom wf run (pg.cols x).
Proof.
  intros H.
  destruct (select_scans_the_execution k router pdb sh dom wf run keys b sel b' H)
    as (raw & Hsel & Hall & Hiff).
  exists raw. eexists. split; [exact Hsel|]. split; [apply Permutation_refl|].
  split; [exact Hall | exact Hiff].
Qed.

Lemma select_returns_the_execution_witness :
  let out := SelectFrom ActivityInfo shardRouter sampleDb 5 [x01] "wf" [x02] [] sampleBackend in
  exists raw,
    fst (fst out) = map (restampOf ActivityInfo sampleDb 5 [x01] "wf" [x02]) raw /\
    length raw = 2.
Proof.
  intros out.
  destruct (select_returns_the_execution ActivityInfo shardRouter sampleDb 5 [x01] "wf" [x02] []
              sampleBackend (fst (fst out)) (snd out) eq_refl)
    as (raw & stored & Hsel & Hperm & Hall & _).
  exists raw. split; [exact Hsel|].
  apply Forall2_length in Hall. apply Permutation_length in Hperm.
  rewrite <- Hall, Hperm. reflexivity.
Defined.


(** ** Delete and what follows it *)

(** The result and the stored rows of a Delete: it keeps the rows it does
    not aim at and reports how many it removed. *)
Lemma DeleteFrom_result (k : kind) router pdb sh dom wf run (keys : list (keyOf k)) b :
  let d := router sh (GetTotalNumDBShards pdb) in
  let out := DeleteFrom k router sqlx.In pdb sh dom wf run keys b in
  let keep := filter (fun x => negb (aimedAt k d sh dom wf run (map (keyValue k) keys) x))
                     (rows b) in
  fst out = (Some (mkResult (length (rows b) - length keep)), None) /\
  rows (snd out) = keep.
Proof.
  cbv zeta. set (d := router sh (GetTotalNumDBShards pdb)).
  destruct keys as [|key0 keys].
  - rewrite DeleteFrom_nil. fold d.
    rewrite (exec_delete_all b d _ (tableOf k) sh dom wf run (parse_delete_all k)).
    cbn [fst snd rows map].
    rewrite (filter_ext _ (fun x => negb (aimedAt k d sh dom wf run [] x)));
      [now split|].
    intros x. unfold aimedAt, selects. now rewrite andb_true_r.
  - rewrite DeleteFrom_keys. fold d.
    assert (Hp := parse_delete_keys k (length keys)).
    replace (S (length keys)) with (length (map (keyValue k) (key0 :: keys))) in Hp |- *
      by (rewrite length_map; reflexivity).
    rewrite (exec_delete_keys b d _ (tableOf k) (keyColumnOf k) sh dom wf run _ Hp).
    cbn [fst snd rows].
    assert (Hext : forall x,
              negb (pg.on d (tableOf k) x &&
                    pg.matches (identityValues sh dom wf run
                                ++ [(keyColumnOf k, map (keyValue k) (key0 :: keys))])
                               (pg.cols x))
              = negb (aimedAt k d sh dom wf run (map (keyValue k) (key0 :: keys)) x)).
    { intros x. unfold aimedAt, selects, pg.matches. rewrite forallb_app.
      cbn [forallb map]. now rewrite andb_true_r, andb_assoc. }
    rewrite (filter_ext _ _ Hext). now split.
Qed.

Lemma filter_idem {A : Type} (p : A -> bool) (l : list A) :
  filter p (filter p l) = filter p l.
Proof.
  induction l as [|a l IH]; [reflexivity|]. cbn [filter].
  destruct (p a) eqn:E; [cbn [filter]; rewrite E; now f_equal | assumption].
Qed.

Lemma filter_comm {A : Type} (p q : A -> bool) (l : list A) :
  filter p (filter q l) = filter q (filter p l).
Proof.
  induction l as [|a l IH]; [reflexivity|]. cbn [filter].
  destruct (q a) eqn:Eq, (p a) eqn:Ep; cbn [filter]; rewrite ?Eq, ?Ep, IH; reflexivity.
Qed.

(** X3: for every collection kind, when a Delete and the same Delete
    repeated on the driver it left both return no error, the second
    removes nothing more: it reports zero affected rows and leaves the
    stored rows as the first call left them. *)
Theorem delete_twice_is_delete_once (k : kind) (router : Z -> Z -> Z) (pdb : db)
    (sh : Z) (dom : UUID) (wf : string) (run : UUID) (keys : list (keyOf k)) (b : Backend)
    (res1 res2 : option Result) (b1 b2 : Backend) :
  DeleteFrom k router sqlx.In pdb sh dom wf run keys b = ((res1, None), b1) ->
  DeleteFrom k router sqlx.In pdb sh dom wf run keys b1 = ((res2, None), b2) ->
  res2 = Some (mkResult 0) /\ rows b2 = rows b1.
Proof.
  intros H1 H2.
  destruct (DeleteFrom_result k router pdb sh dom wf run keys b) as (_ & Hrows).
  destruct (DeleteFrom_result k router pdb sh dom wf run keys b1) as (Hres & Hrows').
  cbv zeta in *. rewrite H1 in Hrows. rewrite H2 in Hres, Hrows'. cbn [fst snd] in *.
  rewrite Hrows' , Hrows, filter_idem. rewrite Hrows, filter_idem, Nat.sub_diag in Hres.
  split; [congruence | reflexivity].
Qed.

Lemma delete_twice_is_delete_once_witness :
  let first := DeleteFrom ActivityInfo shardRouter sqlx.In sampleDb 5 [x01] "wf" [x02]
                 [1%Z] sampleBackend in
  let second := DeleteFrom ActivityInfo shardRouter sqlx.In sampleDb 5 [x01] "wf" [x02]
                  [1%Z] (snd first) in
  fst first = (Some (mkResult 1), None) /\
  fst (fst second) = Some (mkResult 0) /\ rows (snd second) = rows (snd first).
Proof.
  intros first second. split; [reflexivity|].
  apply (delete_twice_is_delete_once ActivityInfo shardRouter sampleDb 5 [x01] "wf" [x02]
           [1%Z] sampleBackend (fst (fst first)) (fst (fst second)) (snd first) (snd second));
    reflexivity.
Defined.

(** X4: two Deletes, of any two kinds, executions and key lists, leave the
    same stored rows in either order. *)
Theorem deletes_commute (k1 k2 : kind) (router : Z -> Z -> Z) (pdb : db)
    (sh1 : Z) (dom1 : UUID) (wf1 : string) (run1 : UUID) (keys1 : list (keyOf k1))
    (sh2 : Z) (dom2 : UUID) (wf2 : string) (run2 : UUID) (keys2 : list (keyOf k2))
    (b : Backend) :
  rows (snd (DeleteFrom k2 router sqlx.In pdb sh2 dom2 wf2 run2 keys2
               (snd (DeleteFrom k1 router sqlx.In pdb sh1 dom1 wf1 run1 keys1 b))))
  = rows (snd (DeleteFrom k1 router sqlx.In pdb sh1 dom1 wf1 run1 keys1
                 (snd (DeleteFrom k2 router sqlx.In pdb sh2 dom2 wf2 run2 keys2 b)))).
Proof.
  repeat match goal with
         | |- context [rows (snd (DeleteFrom ?k router sqlx.In pdb ?a ?b ?c ?d ?e ?f))] =>
             rewrite (proj2 (DeleteFrom_result k router pdb a b c d e f))
         end.
  apply filter_comm.
Qed.

(** ** Select after Delete *)

Lemma Forall2_filter {A B : Type} (R : A -> B -> Prop) (p : A -> bool) (q : B -> bool)
    (l : list A) (m : list B) :
  Forall2 R l m ->
  (forall a b, In a l -> R a b -> p a = q b) ->
  Forall2 R (filter p l) (filter q m).
Proof.
  intros H; induction H as [|a b l m Hab H IH]; intros Hpq; [constructor|].
  cbn [filter]. rewrite <- (Hpq a b (or_introl eq_refl) Hab).
  assert (IH' : Forall2 R (filter p l) (filter q m))
    by (apply IH; intros a' b' Ha'; apply Hpq; now right).
  destruct (p a); [now constructor | assumption].
Qed.

Lemma Forall2_mapM2 {A B C : Type} (g : A -> option B) (h : B -> option C)
    (l : list A) (rs : list C) :
  Forall2 (fun x r => exists tx, g x = Some tx /\ h tx = Some r) l rs ->
  exists ts, mapM g l = Some ts /\ mapM h ts = Some rs.
Proof.
  intros H; induction H as [|a r l rs (tx & Ha & Hr) H (ts & Hg & Hh)].
  - now exists [].
  - exists (tx :: ts). cbn [mapM]. now rewrite Ha, Hg, Hr, Hh.
Qed.

Lemma mapM_map {A B C : Type} (f : B -> option C) (g : A -> B) (l : list A) :
  mapM f (map g l) = mapM (fun a => f (g a)) l.
Proof.
  induction l as [|a l IH]; [reflexivity|]. cbn [map mapM]. now rewrite IH.
Qed.

(** A query run on a store of which some rows were filtered out returns
    what it returned before, filtered alike. *)
Lemma select_context_filtered {R : Type} b b1 d (scan : tuple -> option R) q out t
    sh dom wf run raw b' (p : pg.stored -> bool) (qf : R -> bool) :
  pg.parse q = Some (pg.Select out t identityConds) ->
  SelectContext b d scan q (identityArgs sh dom wf run) = ((raw, None), b') ->
  rows b1 = filter p (rows b) ->
  (forall x r tx, In x (rows b) -> selects d t sh dom wf run x = true ->
                  pg.project out (pg.cols x) = Some tx -> scan tx = Some r -> p x = qf r) ->
  fst (SelectContext b1 d scan q (identityArgs sh dom wf run)) = (filter qf raw, None).
Proof.
  intros Hp ES Hrows Hpq.
  destruct (select_context_exact _ _ _ _ _ _ _ _ _ _ _ _ _ Hp ES) as (_ & _ & H).
  specialize (H eq_refl).
  assert (H1 : Forall2 (fun x r => exists tx, pg.project out (pg.cols x) = Some tx
                                              /\ scan tx = Some r)
                 (filter (selects d t sh dom wf run) (rows b1)) (filter qf raw)).
  { rewrite Hrows, filter_comm. apply Forall2_filter; [exact H|].
    intros x r Hx (tx & Htx & Hr). apply filter_In in Hx as (Hx & Hsel).
    eapply Hpq; eassumption. }
  apply Forall2_mapM2 in H1 as (ts & Hts & Hrs).
  unfold SelectContext. rewrite Hp. unfold pg.exec_select. cbn [rows record].
  rewrite resolve_identity.
  change (fun x : pg.stored =>
            pg.on d t x && pg.matches (identityValues sh dom wf run) (pg.cols x))
    with (selects d t sh dom wf run).
  rewrite mapM_map, Hts, Hrs. reflexivity.
Qed.

Lemma key_bound (k : kind) (r : rowOf k) :
  lookup (keyColumnOf k) (bindOf k r) = Some (keyValue k (keyFieldOf k r)).
Proof. destruct k; reflexivity. Qed.

Lemma key_restamped (k : kind) pdb sh dom wf run (r : rowOf k) :
  keyFieldOf k (restampOf k pdb sh dom wf run r) = keyFieldOf k r.
Proof. destruct k; reflexivity. Qed.

Lemma filter_map_swap {A B : Type} (q : B -> bool) (g : A -> B) (l : list A) :
  filter q (map g l) = map g (filter (fun a => q (g a)) l).
Proof.
  induction l as [|a l IH]; [reflexivity|]. cbn [map filter].
  destruct (q (g a)); cbn [map]; now rewrite IH.
Qed.

(** In the stored order of the backend, the rows a Select scans after a
    Delete with a non-empty key list are those it scanned before, less
    the rows whose key is in the list. *)
Lemma select_after_delete_keeps_the_rest (k : kind) (router : Z -> Z -> Z) (pdb : db)
    (sh : Z) (dom : UUID) (wf : string) (run : UUID)
    (key0 : keyOf k) (keys : list (keyOf k)) (anyKeys : list (keyOf k))
    (b : Backend) (sel : list (rowOf k)) (b' : Backend) :
  SelectFrom k router pdb sh dom wf run anyKeys b = ((sel, None), b') ->
  let b1 := snd (DeleteFrom k router sqlx.In pdb sh dom wf run (key0 :: keys) b) in
  fst (SelectFrom k router pdb sh dom wf run anyKeys b1)
  = (filter (fun r => negb (keyAmong k (key0 :: keys) r)) sel, None).
Proof.
  intros Hsel b1. rewrite SelectFrom_exec in Hsel |- *. cbv zeta in Hsel |- *.
  set (d := router sh (GetTotalNumDBShards pdb)) in *.
  destruct (SelectContext b d (scanOf k) (getQryOf k) (identityArgs sh dom wf run))
    as [[raw err] b0] eqn:ES.
  cbn [fst snd] in Hsel. injection Hsel as <- -> <-.
  pose proof (proj2 (DeleteFrom_result k router pdb sh dom wf run (key0 :: keys) b)) as Hrows.
  cbv zeta in Hrows. fold d b1 in Hrows.
  pose proof (select_context_filtered b b1 d (scanOf k) (getQryOf k) (selectColumnsOf k)
                (tableOf k) sh dom wf run raw b0 _
                (fun r => negb (keyAmong k (key0 :: keys) r)) (parse_get k) ES Hrows) as H.
  assert (Hpq : forall x r tx,
            In x (rows b) -> selects d (tableOf k) sh dom wf run x = true ->
            pg.project (selectColumnsOf k) (pg.cols x) = Some tx -> scanOf k tx = Some r ->
            negb (aimedAt k d sh dom wf run (map (keyValue k) (key0 :: keys)) x)
            = negb (keyAmong k (key0 :: keys) r)).
  { intros x r tx Hx Hs Htx Hr. unfold aimedAt. rewrite Hs. cbn [andb map].
    f_equal. unfold pg.satisfies, keyAmong. cbn [fst snd map].
    pose proof (scan_agrees k (pg.cols x) tx r Htx Hr (keyColumnOf k) (or_introl eq_refl)) as Hk.
    rewrite Hk, key_bound. reflexivity. }
  specialize (H Hpq).
  destruct (SelectContext b1 d (scanOf k) (getQryOf k) (identityArgs sh dom wf run))
    as [[raw1 err1] b2].
  cbn [fst snd] in H |- *. injection H as -> ->.
  rewrite filter_map_swap. f_equal. f_equal. apply filter_ext. intros r.
  unfold keyAmong. now rewrite key_restamped.
Qed.

(** X5: for every collection kind, when a Select of an execution, a
    Delete of that execution with a non-empty key list and the same
    Select again all return no error, the second Select returns the rows
    of the first less those whose key is in the list, in an order that is
    not stated. *)
Theorem select_after_delete_by_keys (k : kind) (router : Z -> Z -> Z) (pdb : db)
    (sh : Z) (dom : UUID) (wf : string) (run : UUID)
    (key0 : keyOf k) (keys : list (keyOf k)) (anyKeys : list (keyOf k))
    (b : Backend) (sel : list (rowOf k)) (b' : Backend)
    (res : option Result) (b1 : Backend) (sel1 : list (rowOf k)) (b2 : Backend) :
  SelectFrom k router pdb sh dom wf run anyKeys b = ((sel, None), b') ->
  DeleteFrom k router sqlx.In pdb sh dom wf run (key0 :: keys) b = ((res, None), b1) ->
  SelectFrom k router pdb sh dom wf run anyKeys b1 = ((sel1, None), b2) ->
  Permutation sel1 (filter (fun r => negb (keyAmong k (key0 :: keys) r)) sel).
Proof.
  intros Hsel Hdel Hsel1.
  pose proof (select_after_delete_keeps_the_rest k router pdb sh dom wf run key0 keys anyKeys
                b sel b' Hsel) as H.
  cbv zeta in H. rewrite Hdel in H. cbn [snd] in H. rewrite Hsel1 in H. cbn [fst] in H.
  injection H as ->. apply Permutation_refl.
Qed.

Lemma select_after_delete_by_keys_witness :
  let sel := fst (fst (SelectFrom ActivityInfo shardRouter sampleDb 5 [x01] "wf" [x02] []
                         sampleBackend)) in
  let b1 := snd (DeleteFrom ActivityInfo shardRouter sqlx.In sampleDb 5 [x01] "wf" [x02]
                   [1%Z] sampleBackend) in
  let sel1 := fst (fst (SelectFrom ActivityInfo shardRouter sampleDb 5 [x01] "wf" [x02] []
                          b1)) in
  map (keyFieldOf ActivityInfo) sel = [1%Z; 2%Z] /\
  Permutation sel1 (filter (fun r => negb (keyAmong ActivityInfo [1%Z] r)) sel).
Proof.
  intros sel b1 sel1. split; [reflexivity|].
  apply (select_after_delete_by_keys ActivityInfo shardRouter sampleDb 5 [x01] "wf" [x02]
           1%Z [] [] sampleBackend sel
           (snd (SelectFrom ActivityInfo shardRouter sampleDb 5 [x01] "wf" [x02] []
                   sampleBackend))
           (Some (mkResult 1)) b1 sel1
           (snd (SelectFrom ActivityInfo shardRouter sampleDb 5 [x01] "wf" [x02] [] b1)));
    reflexivity.
Defined.

Lemma filter_neg_empty {A : Type} (p q : A -> bool) (l : list A) :
  (forall a, q a = negb (p a)) -> filter p (filter q l) = [].
Proof.
  intros H. induction l as [|a l IH]; [reflexivity|]. cbn [filter]. rewrite H.
  destruct (p a) eqn:E; cbn [negb filter]; [assumption | now rewrite E].
Qed.

(** On the modelled driver, a Select that follows a Delete of the
    execution with no keys scans no row. *)
Lemma select_after_delete_all_scans_nothing (k : kind) (router : Z -> Z -> Z) (pdb : db)
    (sh : Z) (dom : UUID) (wf : string) (run : UUID) (anyKeys : list (keyOf k))
    (b : Backend) :
  let b1 := snd (DeleteFrom k router sqlx.In pdb sh dom wf run [] b) in
  fst (SelectFrom k router pdb sh dom wf run anyKeys b1) = ([], None).
Proof.
  intros b1. rewrite SelectFrom_exec. cbv zeta.
  set (d := router sh (GetTotalNumDBShards pdb)).
  pose proof (proj2 (DeleteFrom_result k router pdb sh dom wf run [] b)) as Hrows.
  cbv zeta in Hrows. fold d b1 in Hrows.
  assert (Hnone : filter (selects d (tableOf k) sh dom wf run) (rows b1) = []).
  { rewrite Hrows. apply filter_neg_empty. intros x. unfold aimedAt. cbn [map].
    now rewrite andb_true_r. }
  unfold SelectContext. rewrite (parse_get k). unfold pg.exec_select. cbn [rows record].
  rewrite resolve_identity.
  change (fun x : pg.stored =>
            pg.on d (tableOf k) x && pg.matches (identityValues sh dom wf run) (pg.cols x))
    with (selects d (tableOf k) sh dom wf run).
  rewrite Hnone. reflexivity.
Qed.

(** X6: for every collection kind, when a Delete of an execution with no
    keys and the Select of that execution that follows both return no
    error, the Select returns no row, whatever was stored. *)
Theorem select_after_delete_all_is_empty (k : kind) (router : Z -> Z -> Z) (pdb : db)
    (sh : Z) (dom : UUID) (wf : string) (run : UUID) (anyKeys : list (keyOf k))
    (b : Backend) (res : option Result) (b1 : Backend) (sel : list (rowOf k)) (b2 : Backend) :
  DeleteFrom k router sqlx.In pdb sh dom wf run [] b = ((res, None), b1) ->
  SelectFrom k router pdb sh dom wf run anyKeys b1 = ((sel, None), b2) ->
  sel = [].
Proof.
  intros Hdel Hsel.
  pose proof (select_after_delete_all_scans_nothing k router pdb sh dom wf run anyKeys b)
    as H.
  cbv zeta in H. rewrite Hdel in H. cbn [snd] in H. rewrite Hsel in H. cbn [fst] in H.
  now injection H.
Qed.

Lemma select_after_delete_all_is_empty_witness :
  let b1 := snd (DeleteFrom ActivityInfo shardRouter sqlx.In sampleDb 5 [x01] "wf" [x02]
                   [] sampleBackend) in
  length (fst (fst (SelectFrom ActivityInfo shardRouter sampleDb 5 [x01] "wf" [x02] []
                      sampleBackend))) = 2 /\
  fst (fst (SelectFrom ActivityInfo shardRouter sampleDb 5 [x01] "wf" [x02] [] b1)) = [].
Proof.
  intros b1. split; [reflexivity|].
  apply (select_after_delete_all_is_empty ActivityInfo shardRouter sampleDb 5 [x01] "wf" [x02]
           [] sampleBackend (Some (mkResult 2)) b1
           (fst (fst (SelectFrom ActivityInfo shardRouter sampleDb 5 [x01] "wf" [x02] [] b1)))
           (snd (SelectFrom ActivityInfo shardRouter sampleDb 5 [x01] "wf" [x02] [] b1)));
    reflexivity.
Defined.

(** ** What a Replace leaves alone *)

(** X7: for each of the five map kinds, a Replace that returned no error
    leaves in place every stored row that does not lie on the routed
    shard, in the kind's table, under the primary key of one of the rows
    written; and every row stored afterwards was stored before or lies on
    the routed shard (that of the first row of the slice), in the kind's
    table, and holds in every column the value of one of the rows
    written. *)
Theorem replace_touches_only_written_keys (k : kind) (router : Z -> Z -> Z) (pdb : db)
    (r0 : rowOf k) (rest : list (rowOf k)) (b : Backend) :
  k <> SignalsRequested ->
  let d := router (shardIDOf k r0) (GetTotalNumDBShards pdb) in
  let out := ReplaceInto k router pdb (r0 :: rest) b in
  snd (fst out) = None ->
  (forall x, In x (rows b) ->
     (forall r, In r (r0 :: rest) ->
        ~ (pg.at_shard x = d /\ pg.in_table x = tableOf k /\
           sameKey (primaryKeyOf k) (pg.cols x) (bindOf k (written k pdb r)))) ->
     In x (rows (snd out))) /\
  (forall x, In x (rows (snd out)) ->
     In x (rows b) \/
     exists r, In r (r0 :: rest) /\ pg.at_shard x = d /\ pg.in_table x = tableOf k /\
               agree (columnsOf k) (pg.cols x) (bindOf k (written k pdb r))).
Proof.
  intros Hk d out. subst out. rewrite ReplaceInto_exec. fold d.
  unfold NamedExecContext. rewrite (parse_set_key k Hk). cbn [rows record].
  unfold pg.exec_insert.
  destruct (pg.valid_insert _ _ _ _); [|cbn [fst snd]; discriminate].
  rewrite (mapM_all _ (fun n => n)), map_id
    by (intros m Hm; apply in_map_iff in Hm as (r' & <- & _); apply proposed_bind).
  destruct (pg.upsert_all d (tableOf k) (primaryKeyOf k) (pg.DoUpdate (columnsOf k) (columnsOf k))
              (rows b, [], 0) (map (bindOf k) (map (written k pdb) (r0 :: rest))))
    as [[[store' touched'] cnt']|e] eqn:E; cbn [fst snd rows]; [|discriminate].
  intros _. split.
  - intros x Hx Hnot. eapply upsert_all_keeps; [exact E | exact Hx |].
    intros n Hn. apply in_map_iff in Hn as (r' & <- & Hr').
    apply in_map_iff in Hr' as (r & <- & Hr).
    destruct (pg.hit d (tableOf k) (primaryKeyOf k) (bindOf k (written k pdb r)) x) eqn:Eh;
      [|reflexivity].
    exfalso. apply hit_iff in Eh as (Hon & Hkey). apply on_iff in Hon as (H1 & H2).
    apply (Hnot r Hr). repeat split; assumption.
  - intros x Hx.
    destruct (upsert_all_origin _ _ _ _ _ _ _ _ _ _ _ x
                (fun m Hm => match in_map_iff _ _ _ with
                             | conj f _ => match f Hm with
                                           | ex_intro _ r' (conj Heq _) =>
                                               eq_ind _ (full (columnsOf k)) (full_bind k r') _ Heq
                                           end
                             end) E Hx)
      as [Hold|(n & Hn & Hon & Hag)]; [now left | right].
    apply in_map_iff in Hn as (r' & <- & Hr').
    apply in_map_iff in Hr' as (r & <- & Hr).
    apply on_iff in Hon as (H1 & H2). exists r. repeat split; assumption.
Qed.

Lemma replace_touches_only_written_keys_witness :
  let out := ReplaceInto ActivityInfo shardRouter sampleDb
               [sampleActivity 1 "json"] sampleBackend in
  In (nth 1 (rows sampleBackend) (pg.mkStored 0 "" [])) (rows (snd out)) /\
  length (rows (snd out)) = 2.
Proof.
  intros out. split; [|reflexivity].
  assert (Hk : ActivityInfo <> SignalsRequested) by discriminate.
  assert (Herr : snd (fst out) = None) by reflexivity.
  destruct (replace_touches_only_written_keys ActivityInfo shardRouter sampleDb
              (sampleActivity 1 "json") [] sampleBackend Hk Herr) as (Hkeep & _).
  apply Hkeep.
  - right; left; reflexivity.
  - intros r [<-|[]] (_ & _ & Hkey).
    destruct (Hkey "schedule_id"%string) as (v & Hv1 & Hv2); [cbn; tauto|].
    cbn in Hv1, Hv2. congruence.
Defined.

(** ** Replace, twice *)

Lemma set_col_same c v : forall e, lookup c e = Some v -> set_col c v e = e.
Proof.
  induction e as [|[c' v'] e IH]; cbn [lookup set_col]; [discriminate|].
  destruct (String.eqb c' c) eqn:E.
  - intros H; injection H as ->. apply String.eqb_eq in E as ->. reflexivity.
  - intros H. now rewrite IH.
Qed.

Lemma assign_fixed cols_ n e : agree cols_ e n -> full cols_ n -> pg.assign cols_ cols_ n e = e.
Proof.
  intros Hag Hf. unfold pg.assign.
  assert (H : forall l, incl l cols_ ->
            fold_left (fun e' cs => match lookup (snd cs) n with
                                    | Some v => set_col (fst cs) v e'
                                    | None => e'
                                    end) (combine l l) e = e).
  { induction l as [|c l IH]; intros Hl; [reflexivity|].
    cbn [combine fold_left fst snd].
    assert (Hc : In c cols_) by (apply Hl; now left).
    destruct (lookup c n) as [v|] eqn:E; [|now apply Hf in E].
    rewrite set_col_same by (now rewrite (Hag c Hc)).
    apply IH. intros c' Hc'. apply Hl. now right. }
  apply H, incl_refl.
Qed.

Lemma upsert_all_counts d t target set src ns : forall store touched cnt store' touched' cnt',
  pg.upsert_all d t target (pg.DoUpdate set src) (store, touched, cnt) ns
  = inl (store', touched', cnt') ->
  cnt' = cnt + length ns.
Proof.
  induction ns as [|n ns IH]; intros store touched cnt store' touched' cnt' H.
  - injection H as _ _ <-. cbn. lia.
  - cbn [pg.upsert_all] in H.
    destruct (pg.upsert_one d t target (pg.DoUpdate set src) (store, touched, cnt) n)
      as [[[store1 touched1] cnt1]|e] eqn:E1; [|discriminate].
    apply IH in H. unfold pg.upsert_one in E1.
    destruct (existsb _ store); [destruct (existsb _ touched); [discriminate|]|];
      injection E1 as _ _ <-; cbn [length]; lia.
Qed.

Section UpsertTwice.

Variables (d : Z) (t : string) (target cols_ : list string).
Hypothesis Htarget : incl target cols_.

(** A statement that went through proposed no two rows under one key, and
    no row under the key of a row it had already touched. *)
Lemma upsert_all_distinct ns : forall store touched cnt st',
  (forall n, In n ns -> full cols_ n) ->
  upsertInv d t target cols_ store touched ->
  pg.upsert_all d t target (pg.DoUpdate cols_ cols_) (store, touched, cnt) ns = inl st' ->
  ForallOrdPairs (fun a b => ~ sameKey target a b) ns /\
  (forall m n, In m touched -> In n ns -> ~ sameKey target m n).
Proof.
  induction ns as [|n ns IH]; intros store touched cnt st' Hfull HInv H.
  - split; [constructor | intros m n _ []].
  - cbn [pg.upsert_all] in H.
    destruct (pg.upsert_one d t target (pg.DoUpdate cols_ cols_) (store, touched, cnt) n)
      as [[[store1 touched1] cnt1]|e] eqn:E1; [|discriminate].
    destruct (upsert_one_update d t target cols_ Htarget _ _ _ _ _ _ _
                (Hfull n (or_introl eq_refl)) HInv E1) as (HInv1 & (m0 & Hm0 & Hag0) & Hmono).
    destruct (IH _ _ _ _ (fun n' Hn' => Hfull n' (or_intror Hn')) HInv1 H) as (Hfop & Hnot).
    split.
    + constructor; [|exact Hfop]. apply Forall_forall. intros n2 Hn2 Hk.
      apply (Hnot m0 n2 Hm0 Hn2).
      eapply sameKey_trans; [|exact Hk].
      apply sameKey_sym. eapply sameKey_agree; [exact Htarget | apply agree_sym, Hag0 |].
      eapply sameKey_refl; [exact Htarget | apply Hfull; now left].
    + intros m n' Hm [<-|Hn']; [|apply Hnot; [now apply Hmono | assumption]].
      intros Hk. unfold pg.upsert_one in E1.
      destruct (existsb (pg.hit d t target n) store) eqn:Ehit.
      * destruct (existsb (fun m' => pg.same_key target m' n) touched) eqn:Et; [discriminate|].
        assert (existsb (fun m' => pg.same_key target m' n) touched = true); [|congruence].
        apply existsb_exists. exists m. split; [assumption | now apply same_key_iff].
      * destruct (HInv m Hm) as (_ & (x & Hx & Hhit) & _).
        assert (existsb (pg.hit d t target n) store = true); [|congruence].
        apply existsb_exists. exists x. split; [assumption|].
        apply hit_iff in Hhit as (Hon & Hkx). apply hit_iff. split; [assumption|].
        eapply sameKey_trans; eassumption.
Qed.

(** Proposing again rows that are all stored, each under a key of its
    own, changes nothing. *)
Lemma upsert_all_again store ns : forall touched cnt,
  (forall n, In n ns -> full cols_ n) ->
  (forall n, In n ns -> exists x, In x store /\ pg.hit d t target n x = true) ->
  (forall n x, In n ns -> In x store -> pg.hit d t target n x = true ->
               agree cols_ (pg.cols x) n) ->
  ForallOrdPairs (fun a b => ~ sameKey target a b) ns ->
  (forall m n, In m touched -> In n ns -> ~ sameKey target m n) ->
  exists touched',
    pg.upsert_all d t target (pg.DoUpdate cols_ cols_) (store, touched, cnt) ns
    = inl (store, touched', cnt + length ns).
Proof.
  induction ns as [|n ns IH]; intros touched cnt Hfull Hex Hag Hfop Hnot.
  - exists touched. cbn. now rewrite Nat.add_0_r.
  - cbn [pg.upsert_all]. unfold pg.upsert_one.
    destruct (Hex n (or_introl eq_refl)) as (x0 & Hx0 & Hhit0).
    assert (E1 : existsb (pg.hit d t target n) store = true)
      by (apply existsb_exists; now exists x0).
    assert (E2 : existsb (fun m => pg.same_key target m n) touched = false).
    { destruct (existsb _ touched) eqn:E; [|reflexivity]. exfalso.
      apply existsb_exists in E as (m & Hm & Hk). apply same_key_iff in Hk.
      apply (Hnot m n Hm (or_introl eq_refl) Hk). }
    rewrite E1, E2.
    assert (Hfix : forall x, In x store -> pg.hit d t target n x = true ->
                     pg.assign cols_ cols_ n (pg.cols x) = pg.cols x).
    { intros x Hx Hhit. apply assign_fixed; [|apply Hfull; now left].
      apply (Hag n x); [now left | assumption | assumption]. }
    assert (Hstore : map (fun x => if pg.hit d t target n x
                                   then pg.mkStored (pg.at_shard x) (pg.in_table x)
                                          (pg.assign cols_ cols_ n (pg.cols x))
                                   else x) store = store).
    { rewrite <- (map_id store) at 2. apply map_ext_in. intros x Hx.
      destruct (pg.hit d t target n x) eqn:E; [|reflexivity].
      rewrite (Hfix x Hx E). now destruct x. }
    rewrite Hstore. inversion Hfop as [|? ? Hhead Htail]; subst.
    assert (Hrec : exists touched',
              pg.upsert_all d t target (pg.DoUpdate cols_ cols_)
                (store,
                 map (pg.assign cols_ cols_ n) (map pg.cols (filter (pg.hit d t target n) store))
                 ++ touched, S cnt) ns
              = inl (store, touched', S cnt + length ns)); [apply IH|].
    6:{ destruct Hrec as (touched' & ->). exists touched'. f_equal. f_equal. cbn [length]. lia. }
    + intros n' Hn'. apply Hfull. now right.
    + intros n' Hn'. apply Hex. now right.
    + intros n' x Hn'. apply Hag. now right.
    + exact Htail.
    + intros m n2 Hm Hn2 Hk. apply in_app_or in Hm as [Hm|Hm].
      * apply in_map_iff in Hm as (e & <- & He). apply in_map_iff in He as (x & <- & Hx).
        apply filter_In in Hx as (Hx & Hhit). rewrite (Hfix x Hx Hhit) in Hk.
        apply hit_iff in Hhit as (_ & Hkx).
        rewrite Forall_forall in Hhead. apply (Hhead n2 Hn2).
        eapply sameKey_trans; [apply sameKey_sym; exact Hkx | exact Hk].
      * apply (Hnot m n2 Hm (or_intror Hn2) Hk).
Qed.

End UpsertTwice.

Lemma written_twice (k : kind) (pdb : db) (r : rowOf k) :
  (forall t, ToPostgresDateTime pdb (ToPostgresDateTime pdb t) = ToPostgresDateTime pdb t) ->
  written k pdb (written k pdb r) = written k pdb r.
Proof.
  intros H. destruct k; cbn [written]; try reflexivity.
  destruct r. cbn. now rewrite H.
Qed.

Lemma shardID_written (k : kind) (pdb : db) (r : rowOf k) :
  shardIDOf k (written k pdb r) = shardIDOf k r.
Proof. destruct k; reflexivity. Qed.

(** X8: for each of the five map kinds, when the time conversion of the
    backend gives back a converted time as it is, a Replace that returned
    no error can be made again on the caller's slice as the first call
    left it: the second call returns no error, reports one affected row
    for each row of the slice and leaves every stored row as it was. *)
Theorem replace_twice_is_replace_once (k : kind) (router : Z -> Z -> Z) (pdb : db)
    (r0 : rowOf k) (rest : list (rowOf k)) (b : Backend) :
  k <> SignalsRequested ->
  (forall t, ToPostgresDateTime pdb (ToPostgresDateTime pdb t) = ToPostgresDateTime pdb t) ->
  let first := ReplaceInto k router pdb (r0 :: rest) b in
  snd (fst first) = None ->
  let second := ReplaceInto k router pdb (map (written k pdb) (r0 :: rest)) (snd first) in
  fst second = (Some (mkResult (length (r0 :: rest))), None) /\
  rows (snd second) = rows (snd first).
Proof.
  intros Hk Hconv first. subst first. cbn [map].
  rewrite !ReplaceInto_exec. rewrite shardID_written.
  set (d := router (shardIDOf k r0) (GetTotalNumDBShards pdb)).
  change (written k pdb (written k pdb r0) :: map (written k pdb) (map (written k pdb) rest))
    with (map (written k pdb) (map (written k pdb) (r0 :: rest))).
  change (written k pdb r0 :: map (written k pdb) rest) with (map (written k pdb) (r0 :: rest)).
  rewrite (map_map (written k pdb) (written k pdb)).
  rewrite (map_ext _ (written k pdb) (fun r => written_twice k pdb r Hconv)).
  set (batch := map (bindOf k) (map (written k pdb) (r0 :: rest))).
  assert (Hfull : forall n, In n batch -> full (columnsOf k) n).
  { intros n Hn. apply in_map_iff in Hn as (r' & <- & _). apply full_bind. }
  assert (Hprop : forall n, In n batch -> pg.proposed (columnsOf k) (columnsOf k) n = Some n).
  { intros n Hn. apply in_map_iff in Hn as (r' & <- & _). apply proposed_bind. }
  assert (Hlen : length batch = length (r0 :: rest)) by (unfold batch; now rewrite !length_map).
  unfold NamedExecContext. rewrite (parse_set_key k Hk). cbn [rows record].
  destruct (pg.exec_insert d (tableOf k) (columnsOf k) (columnsOf k) (primaryKeyOf k)
              (pg.DoUpdate (columnsOf k) (columnsOf k)) batch (rows b))
    as [[store1 cnt1]|e] eqn:E; cbn [fst snd rows]; [|discriminate].
  intros _.
  pose proof (exec_upsert_stores d (tableOf k) (primaryKeyOf k) (columnsOf k) (primaryKey_incl k)
                batch (rows b) store1 cnt1 Hprop Hfull E) as Hstored.
  unfold pg.exec_insert in E |- *.
  destruct (pg.valid_insert _ _ _ _); [|discriminate].
  rewrite (mapM_all _ (fun n => n) batch Hprop), map_id in E |- *.
  destruct (pg.upsert_all d (tableOf k) (primaryKeyOf k) (pg.DoUpdate (columnsOf k) (columnsOf k))
              (rows b, [], 0) batch) as [[[s1 t1] c1]|e] eqn:E1; [|discriminate].
  injection E as -> ->.
  destruct (upsert_all_distinct d (tableOf k) (primaryKeyOf k) (columnsOf k) (primaryKey_incl k)
              batch _ _ _ _ Hfull (fun m (Hm : In m []) => match Hm with end) E1) as (Hfop & _).
  assert (Hrec : exists touched',
            pg.upsert_all d (tableOf k) (primaryKeyOf k)
              (pg.DoUpdate (columnsOf k) (columnsOf k)) (store1, [], 0) batch
            = inl (store1, touched', 0 + length batch));
    [apply (upsert_all_again d (tableOf k) (primaryKeyOf k) (columnsOf k)
              store1 batch [] 0 Hfull)|].
  5:{ destruct Hrec as (touched' & ->). cbn [fst snd rows Nat.add]. rewrite Hlen.
      split; reflexivity. }
  - intros n Hn. destruct (Hstored n Hn) as ((x & Hx & Hon & Hkey) & _).
    exists x. split; [assumption|]. apply hit_iff. now split.
  - intros n x Hn Hx Hhit. apply hit_iff in Hhit as (Hon & Hkey).
    now apply (proj2 (Hstored n Hn)).
  - exact Hfop.
  - intros m n [].
Qed.

Lemma replace_twice_is_replace_once_witness :
  let first := ReplaceInto ActivityInfo shardRouter sampleDb
                 [sampleActivity 1 "json"; sampleActivity 3 "json"] sampleBackend in
  let second := ReplaceInto ActivityInfo shardRouter sampleDb
                  (map (written ActivityInfo sampleDb)
                       [sampleActivity 1 "json"; sampleActivity 3 "json"]) (snd first) in
  length (rows (snd first)) = 3 /\
  fst second = (Some (mkResult 2), None) /\ rows (snd second) = rows (snd first).
Proof.
  intros first second. split; [reflexivity|].
  apply (replace_twice_is_replace_once ActivityInfo shardRouter sampleDb
           (sampleActivity 1 "json") [sampleActivity 3 "json"] sampleBackend).
  - discriminate.
  - intros t. cbn [sampleDb ToPostgresDateTime instant zoneOffset].
    f_equal. rewrite Z.mul_0_l, Z.sub_0_r. now rewrite Z.div_mul by lia.
  - reflexivity.
Defined.

(** ** Insert into the signals-requested set, in general *)

(** A statement that does nothing on conflict only appends: one stored
    row for each proposed row whose key was not stored yet. *)
Lemma upsert_all_do_nothing_adds d t target ns : forall store touched cnt,
  (forall n, In n ns -> sameKey target n n) ->
  exists added touched',
    pg.upsert_all d t target pg.DoNothing (store, touched, cnt) ns
    = inl (store ++ added, touched', cnt + length added) /\
    (forall x, In x added ->
       exists n, In n ns /\ x = pg.mkStored d t n /\
                 forall y, In y store -> pg.hit d t target n y = false) /\
    (forall n, In n ns -> exists x, In x (store ++ added) /\ pg.hit d t target n x = true).
Proof.
  induction ns as [|n ns IH]; intros store touched cnt Hrefl.
  - exists [], touched. cbn. rewrite app_nil_r, Nat.add_0_r.
    split; [reflexivity|]. split; intros ? [].
  - cbn [pg.upsert_all]. unfold pg.upsert_one.
    assert (Hrefl' : forall n', In n' ns -> sameKey target n' n')
      by (intros n' Hn'; apply Hrefl; now right).
    destruct (existsb (pg.hit d t target n) store) eqn:E.
    + destruct (IH store touched cnt Hrefl') as (added & touched' & Hrun & Hadded & Hall).
      exists added, touched'. split; [exact Hrun|]. split.
      * intros x Hx. destruct (Hadded x Hx) as (n' & Hn' & Heq & Hnew).
        exists n'. split; [now right | now split].
      * intros n' [<-|Hn']; [|now apply Hall].
        apply existsb_exists in E as (x & Hx & Hhit).
        exists x. split; [apply in_or_app; now left | assumption].
    + destruct (IH (store ++ [pg.mkStored d t n]) (n :: touched) (S cnt) Hrefl')
        as (added & touched' & Hrun & Hadded & Hall).
      exists (pg.mkStored d t n :: added), touched'. split; [|split].
      * rewrite Hrun. cbn [length]. rewrite <- app_assoc. cbn [app].
        now rewrite Nat.add_succ_r.
      * intros x [<-|Hx].
        -- exists n. split; [now left|]. split; [reflexivity|].
           intros y Hy. destruct (pg.hit d t target n y) eqn:Ey; [|reflexivity].
           assert (existsb (pg.hit d t target n) store = true)
             by (apply existsb_exists; now exists y).
           congruence.
        -- destruct (Hadded x Hx) as (n' & Hn' & Heq & Hnew).
           exists n'. split; [now right|]. split; [assumption|].
           intros y Hy. apply Hnew. apply in_or_app. now left.
      * intros n' [<-|Hn'].
        -- exists (pg.mkStored d t n). split.
           ++ apply in_or_app. right. now left.
           ++ apply hit_iff. split.
              ** unfold pg.on. cbn [pg.at_shard pg.in_table].
                 now rewrite Z.eqb_refl, String.eqb_refl.
              ** cbn [pg.cols]. apply Hrefl. now left.
        -- destruct (Hall n' Hn') as (x & Hx & Hhit). exists x. split; [|assumption].
           rewrite <- app_assoc in Hx. exact Hx.
Qed.

Lemma signal_key_refl (r : SignalsRequestedSetsRow.t) :
  sameKey (primaryKeyOf SignalsRequested)
          (SignalsRequestedSetsRow.bind r) (SignalsRequestedSetsRow.bind r).
Proof.
  intros c Hc. cbn in Hc.
  repeat (destruct Hc as [<-|Hc]; [eexists; split; reflexivity|]). destruct Hc.
Qed.

(** What [InsertIntoSignalsRequestedSets] does on a slice that is not
    empty, in terms of the statement's batch. *)
Lemma InsertInto_exec router pdb r0 rest b :
  let d := router (SignalsRequestedSetsRow.ShardID r0) (GetTotalNumDBShards pdb) in
  let batch := map SignalsRequestedSetsRow.bind (r0 :: rest) in
  InsertIntoSignalsRequestedSets router pdb (r0 :: rest) b
  = match pg.upsert_all d "signals_requested_sets" (primaryKeyOf SignalsRequested)
            pg.DoNothing (rows b, [], 0) batch with
    | inl (store', _, cnt) =>
        ((Some (mkResult cnt), None),
         mkBackend store'
           (statements b ++ [mkIssued d createSignalsRequestedSetQuery (ByName batch)]))
    | inr e =>
        ((None, Some e),
         mkBackend (rows b)
           (statements b ++ [mkIssued d createSignalsRequestedSetQuery (ByName batch)]))
    end.
Proof.
  intros d batch.
  unfold InsertIntoSignalsRequestedSets, NamedExecContext. fold d. fold batch.
  rewrite parse_create_signals. unfold pg.exec_insert.
  change (pg.valid_insert _ _ _ _) with true. cbv iota.
  rewrite (mapM_all _ (fun n => n)), map_id.
  2:{ intros n Hn. apply in_map_iff in Hn as (r & <- & _). reflexivity. }
  cbn [rows record].
  change ["shard_id"; "domain_id"; "workflow_id"; "run_id"; "signal_id"]%string
    with (primaryKeyOf SignalsRequested).
  destruct (pg.upsert_all d "signals_requested_sets" (primaryKeyOf SignalsRequested)
              pg.DoNothing (rows b, [], 0) batch) as [[[store' touched'] cnt]|e]; reflexivity.
Qed.

(** On the modelled driver, the insert appends one stored row for each
    row of the slice whose key was not stored yet. *)
Lemma insert_signals_requested_appends (router : Z -> Z -> Z) (pdb : db)
    (r0 : SignalsRequestedSetsRow.t) (rest : list SignalsRequestedSetsRow.t) (b : Backend) :
  let d := router (SignalsRequestedSetsRow.ShardID r0) (GetTotalNumDBShards pdb) in
  let out := InsertIntoSignalsRequestedSets router pdb (r0 :: rest) b in
  exists added,
    fst out = (Some (mkResult (length added)), None) /\
    rows (snd out) = rows b ++ added /\
    (forall x, In x added ->
       exists r, In r (r0 :: rest) /\
         x = pg.mkStored d "signals_requested_sets" (SignalsRequestedSetsRow.bind r) /\
         forall y, In y (rows b) ->
           ~ (pg.at_shard y = d /\ pg.in_table y = "signals_requested_sets"%string /\
              sameKey (primaryKeyOf SignalsRequested) (pg.cols y)
                      (SignalsRequestedSetsRow.bind r))) /\
    (forall r, In r (r0 :: rest) ->
       exists x, In x (rows (snd out)) /\
         pg.at_shard x = d /\ pg.in_table x = "signals_requested_sets"%string /\
         sameKey (primaryKeyOf SignalsRequested) (pg.cols x) (SignalsRequestedSetsRow.bind r)).
Proof.
  intros d out. subst out. rewrite InsertInto_exec. fold d.
  destruct (upsert_all_do_nothing_adds d "signals_requested_sets"
              (primaryKeyOf SignalsRequested)
              (map SignalsRequestedSetsRow.bind (r0 :: rest)) (rows b) [] 0)
    as (added & touched' & -> & Hadded & Hall).
  { intros n Hn. apply in_map_iff in Hn as (r & <- & _). apply signal_key_refl. }
  exists added. cbn [fst snd rows Nat.add]. split; [reflexivity|]. split; [reflexivity|]. split.
  - intros x Hx. destruct (Hadded x Hx) as (n & Hn & Heq & Hnew).
    apply in_map_iff in Hn as (r & <- & Hr). exists r. split; [assumption|].
    split; [assumption|]. intros y Hy (H1 & H2 & H3).
    assert (pg.hit d "signals_requested_sets" (primaryKeyOf SignalsRequested)
              (SignalsRequestedSetsRow.bind r) y = true)
      by (apply hit_iff; split; [apply on_iff; now split | assumption]).
    rewrite (Hnew y Hy) in H. discriminate.
  - intros r Hr.
    destruct (Hall (SignalsRequestedSetsRow.bind r) (in_map _ _ _ Hr)) as (x & Hx & Hhit).
    apply hit_iff in Hhit as (Hon & Hkey). apply on_iff in Hon as (H1 & H2).
    exists x. repeat split; assumption.
Qed.

(** X9: an [InsertIntoSignalsRequestedSets] on a slice that is not empty
    that returns no error has only appended: the stored rows are the
    earlier ones, in place, followed by the added ones; each added row is
    a row of the slice, put on the routed shard in the signals-requested
    table, whose key no earlier row had; the result reports the number of
    added rows; and afterwards every row of the slice has a stored row
    with its shard id, domain id, workflow id, run id and signal id. *)
Theorem insert_signals_requested_only_adds (router : Z -> Z -> Z) (pdb : db)
    (r0 : SignalsRequestedSetsRow.t) (rest : list SignalsRequestedSetsRow.t) (b : Backend) :
  let d := router (SignalsRequestedSetsRow.ShardID r0) (GetTotalNumDBShards pdb) in
  let out := InsertIntoSignalsRequestedSets router pdb (r0 :: rest) b in
  snd (fst out) = None ->
  exists added,
    fst (fst out) = Some (mkResult (length added)) /\
    rows (snd out) = rows b ++ added /\
    (forall x, In x added ->
       exists r, In r (r0 :: rest) /\
         x = pg.mkStored d "signals_requested_sets" (SignalsRequestedSetsRow.bind r) /\
         forall y, In y (rows b) ->
           ~ (pg.at_shard y = d /\ pg.in_table y = "signals_requested_sets"%string /\
              sameKey (primaryKeyOf SignalsRequested) (pg.cols y)
                      (SignalsRequestedSetsRow.bind r))) /\
    (forall r, In r (r0 :: rest) ->
       exists x, In x (rows (snd out)) /\
         pg.at_shard x = d /\ pg.in_table x = "signals_requested_sets"%string /\
         sameKey (primaryKeyOf SignalsRequested) (pg.cols x) (SignalsRequestedSetsRow.bind r)).
Proof.
  intros d out _.
  destruct (insert_signals_requested_appends router pdb r0 rest b)
    as (added & Hres & Hrows & Hadded & Hall).
  exists added. fold out in Hres. rewrite Hres. repeat split; assumption.
Qed.

Lemma insert_signals_requested_only_adds_witness :
  let held := snd (InsertIntoSignalsRequestedSets shardRouter sampleDb
                     [sampleSignal "s1"] emptyBackend) in
  let out := InsertIntoSignalsRequestedSets shardRouter sampleDb
               [sampleSignal "s1"; sampleSignal "s2"; sampleSignal "s2"] held in
  exists added,
    fst (fst out) = Some (mkResult 1) /\ length added = 1 /\
    rows (snd out) = rows held ++ added.
Proof.
  intros held out.
  destruct (insert_signals_requested_only_adds shardRouter sampleDb
              (sampleSignal "s1") [sampleSignal "s2"; sampleSignal "s2"] held eq_refl)
    as (added & Hres & Hrows & _ & _).
  exists added. split; [reflexivity|]. split; [|exact Hrows].
  change (fst (fst out)) with (Some (mkResult 1)) in Hres. now injection Hres.
Defined.

(** X10: after [InsertIntoSignalsRequestedSets], a
    [SelectFromSignalsRequestedSets] on the identity of one of the rows of
    the slice that returns no error returns that row, whether the insert
    added it or found it stored.  The row is one that the router sends to
    the physical shard of the first row of the slice, where the insert
    writes the whole slice. *)
Theorem select_after_insert_signals_requested (router : Z -> Z -> Z) (pdb : db)
    (r0 : SignalsRequestedSetsRow.t) (rest : list SignalsRequestedSetsRow.t) (b : Backend)
    (r : SignalsRequestedSetsRow.t) (keys : list string)
    (sel : list SignalsRequestedSetsRow.t) (b2 : Backend) :
  let out := InsertIntoSignalsRequestedSets router pdb (r0 :: rest) b in
  In r (r0 :: rest) ->
  router (SignalsRequestedSetsRow.ShardID r) (GetTotalNumDBShards pdb)
  = router (SignalsRequestedSetsRow.ShardID r0) (GetTotalNumDBShards pdb) ->
  SelectFromSignalsRequestedSets router pdb
    (SignalsRequestedSetsFilter.mk (SignalsRequestedSetsRow.ShardID r)
       (SignalsRequestedSetsRow.DomainID r) (SignalsRequestedSetsRow.WorkflowID r)
       (SignalsRequestedSetsRow.RunID r) keys) (snd out) = ((sel, None), b2) ->
  In r sel.
Proof.
  intros out Hr Hshard Hsel.
  set (d := router (SignalsRequestedSetsRow.ShardID r0) (GetTotalNumDBShards pdb)) in *.
  assert (Hx : exists x, In x (rows (snd out)) /\ pg.on d "signals_requested_sets" x = true /\
                         sameKey (primaryKeyOf SignalsRequested) (pg.cols x)
                                 (SignalsRequestedSetsRow.bind r)).
  { subst out. rewrite InsertInto_exec. fold d.
    destruct (upsert_all_do_nothing_adds d "signals_requested_sets"
                (primaryKeyOf SignalsRequested)
                (map SignalsRequestedSetsRow.bind (r0 :: rest)) (rows b) [] 0)
      as (added & touched' & -> & _ & Hall).
    { intros n Hn. apply in_map_iff in Hn as (r' & <- & _). apply signal_key_refl. }
    destruct (Hall (SignalsRequestedSetsRow.bind r) (in_map _ _ _ Hr)) as (x & Hx & Hhit).
    apply hit_iff in Hhit as (Hon & Hkey). exists x. cbn [snd rows]. now repeat split. }
  destruct Hx as (x & Hx & Hon & Hkey).
  change (SelectFrom SignalsRequested router pdb (SignalsRequestedSetsRow.ShardID r)
            (SignalsRequestedSetsRow.DomainID r) (SignalsRequestedSetsRow.WorkflowID r)
            (SignalsRequestedSetsRow.RunID r) keys (snd out) = ((sel, None), b2)) in Hsel.
  rewrite SelectFrom_exec in Hsel. cbv zeta in Hsel. rewrite Hshard in Hsel. fold d in Hsel.
  destruct (SelectContext (snd out) d (scanOf SignalsRequested) (getQryOf SignalsRequested)
              (identityArgs (SignalsRequestedSetsRow.ShardID r)
                 (SignalsRequestedSetsRow.DomainID r) (SignalsRequestedSetsRow.WorkflowID r)
                 (SignalsRequestedSetsRow.RunID r)))
    as [[raw err] b'] eqn:ES.
  cbn [fst snd] in Hsel. injection Hsel as <- -> <-.
  assert (Hval : forall c v, In c (primaryKeyOf SignalsRequested) ->
                   lookup c (SignalsRequestedSetsRow.bind r) = Some v ->
                   lookup c (pg.cols x) = Some v).
  { intros c v Hc Hv. destruct (Hkey c Hc) as (w & H1 & H2). congruence. }
  destruct (select_context_finds _ _ _ _ _ _ _ _ _ _ _ _ x (parse_get SignalsRequested) ES Hx Hon)
    as (tx & rx & Htx & Hrx & Hin).
  { repeat split; apply Hval; try (cbn; tauto); now destruct r. }
  rewrite (project_agree (selectColumnsOf SignalsRequested) (pg.cols x)
             (SignalsRequestedSetsRow.bind r)) in Htx.
  2:{ intros c [<-|[]]. destruct (Hkey "signal_id"%string) as (w & H1 & H2); [cbn; tauto|].
      cbn [keyColumnOf]. congruence. }
  destruct r as [sh dom wf run sid]. cbn in Htx. injection Htx as <-.
  cbn in Hrx. injection Hrx as <-.
  apply in_map_iff. eexists. split; [|exact Hin]. reflexivity.
Qed.

Lemma select_after_insert_signals_requested_witness :
  let out := InsertIntoSignalsRequestedSets shardRouter sampleDb
               [sampleSignal "s1"; sampleSignal "s2"; sampleSignal "s1"] emptyBackend in
  let sel := fst (fst (SelectFromSignalsRequestedSets shardRouter sampleDb
                         (SignalsRequestedSetsFilter.mk 5 [x01] "wf" [x02] []) (snd out))) in
  length sel = 2 /\ In (sampleSignal "s2") sel.
Proof.
  intros out sel. split; [reflexivity|].
  apply (select_after_insert_signals_requested shardRouter sampleDb
           (sampleSignal "s1") [sampleSignal "s2"; sampleSignal "s1"] emptyBackend
           (sampleSignal "s2") [] sel
           (snd (SelectFromSignalsRequestedSets shardRouter sampleDb
                   (SignalsRequestedSetsFilter.mk 5 [x01] "wf" [x02] []) (snd out)))).
  - right; left; reflexivity.
  - reflexivity.
  - reflexivity.
Defined.

(** * The generators on any table *)

Lemma identb_word u : identb u = true -> allb wordchar u = true.
Proof. destruct u; [discriminate | trivial]. Qed.

Lemma identb_flush u : identb u = true -> pg.flush u = [u].
Proof. destruct u; [discriminate | reflexivity]. Qed.

Lemma identb_is_word u : identb u = true -> pg.is_word u = true.
Proof.
  destruct u as [|c u]; [discriminate|]. cbn. intros H.
  apply andb_true_iff in H as (H & _). unfold wordchar in H.
  apply andb_true_iff in H as (_ & H). exact H.
Qed.

Lemma identb_prefix (p u : string) :
  identb p = true -> identb u = true -> identb (p ++ u) = true.
Proof.
  intros Hp Hu. destruct p as [|c p]; [discriminate|]. cbn in Hp |- *.
  apply andb_true_iff in Hp as (Hc & Hp). rewrite Hc. cbn.
  clear Hc. induction p as [|c' p IH]; cbn in *.
  - now apply identb_word.
  - apply andb_true_iff in Hp as (-> & Hp). now apply IH.
Qed.

Lemma stringMap_map (a : list string) (f : string -> string) : stringMap a f = map f a.
Proof. induction a as [|v a IH]; cbn; [reflexivity | now rewrite IH]. Qed.

Lemma lexemes_ident w u s :
  identb u = true -> pg.lexemes w (u ++ s) = pg.lexemes (w ++ u) s.
Proof. intros H. apply lexemes_word. now apply identb_word. Qed.

(** A comma-separated list of identifiers, closed by a parenthesis, is
    read as its items. *)
Lemma lexemes_concat cols : forall c rest,
  forallb identb (c :: cols) = true ->
  pg.lexemes "" (String.concat "," (c :: cols) ++ String ")" rest)
  = commaSep (c :: cols) ++ ")"%string :: pg.lexemes "" rest.
Proof.
  induction cols as [|c' cols IH]; intros c rest H.
  - cbn [forallb] in H. apply andb_true_iff in H as (Hc & _).
    cbn [String.concat commaSep app]. rewrite lexemes_ident by assumption.
    cbn [append pg.lexemes]. change (pg.is_space ")") with false.
    change (pg.is_punct ")") with true. cbv iota.
    now rewrite identb_flush.
  - cbn [forallb] in H. apply andb_true_iff in H as (Hc & H).
    change (String.concat "," (c :: c' :: cols))
      with (c ++ "," ++ String.concat "," (c' :: cols))%string.
    rewrite append_assoc. rewrite lexemes_ident by assumption.
    rewrite append_assoc. cbn [append pg.lexemes].
    change (pg.is_space ",") with false. change (pg.is_punct ",") with true. cbv iota.
    rewrite identb_flush by assumption. rewrite IH by exact H. reflexivity.
Qed.

Lemma items_commaSep cols : forall c rest,
  forallb identb (c :: cols) = true ->
  pg.items (commaSep (c :: cols) ++ ")"%string :: rest) = Some (c :: cols, ")"%string :: rest).
Proof.
  induction cols as [|c' cols IH]; intros c rest H;
    cbn [forallb] in H; apply andb_true_iff in H as (Hc & H).
  - cbn [commaSep app pg.items]. rewrite identb_is_word by assumption. reflexivity.
  - change (commaSep (c :: c' :: cols) ++ ")"%string :: rest)
      with (c :: ","%string :: (commaSep (c' :: cols) ++ ")"%string :: rest)).
    rewrite items_comma by (now apply identb_is_word). now rewrite IH.
Qed.

Lemma mapM_app {A B : Type} (f : A -> option B) (l1 l2 : list A) (r1 r2 : list B) :
  mapM f l1 = Some r1 -> mapM f l2 = Some r2 -> mapM f (l1 ++ l2) = Some (r1 ++ r2).
Proof.
  revert r1. induction l1 as [|a l1 IH]; intros r1 H1 H2; cbn in *.
  - injection H1 as <-. exact H2.
  - destruct (f a); [|discriminate]. destruct (mapM f l1) as [bs|]; [|discriminate].
    injection H1 as <-. now rewrite (IH bs eq_refl H2).
Qed.

Lemma mapM_named cols :
  forallb identb cols = true -> mapM pg.named (map (fun x => ":" ++ x)%string cols) = Some cols.
Proof.
  induction cols as [|c cols IH]; intros H; [reflexivity|].
  cbn [forallb] in H. apply andb_true_iff in H as (Hc & H).
  cbn [map mapM]. rewrite IH by assumption.
  destruct c; [discriminate | reflexivity].
Qed.

Lemma mapM_excluded cols :
  mapM pg.excluded (map (fun x => "excluded." ++ x)%string cols) = Some cols.
Proof. induction cols as [|c cols IH]; [reflexivity|]. cbn [map mapM]. now rewrite IH. Qed.

Lemma forallb_map_prefix (p : string) cols :
  identb p = true -> forallb identb cols = true ->
  forallb identb (map (fun x => p ++ x)%string cols) = true.
Proof.
  intros Hp. induction cols as [|c cols IH]; intros H; [reflexivity|].
  cbn [forallb map] in *. apply andb_true_iff in H as (Hc & H).
  now rewrite identb_prefix, IH.
Qed.

Lemma parens_list l rest :
  l <> [] -> forallb identb l = true ->
  pg.parens ("("%string :: commaSep l ++ ")"%string :: rest) = Some (l, rest).
Proof.
  intros Hne H. destruct l as [|x xs]; [congruence|].
  unfold pg.parens. change (String.eqb "(" "(") with true. cbv iota.
  rewrite items_commaSep by assumption. reflexivity.
Qed.

Lemma identb_keyColumns mapKeyName :
  identb mapKeyName = true -> forallb identb (keyColumns mapKeyName) = true.
Proof. intros H. cbn. now rewrite H. Qed.

(** The lexemes of a generated upsert. *)
Lemma lexemes_set_key (tableName mapKeyName c : string) (cols : list string) :
  identb tableName = true -> identb mapKeyName = true -> forallb identb (c :: cols) = true ->
  let L := keyColumns mapKeyName ++ c :: cols in
  pg.lexemes "" (makeSetKeyInMapQry tableName (c :: cols) mapKeyName)
  = "INSERT"%string :: "INTO"%string :: tableName :: "("%string :: commaSep L
    ++ ")"%string :: "VALUES"%string :: "("%string
         :: commaSep (map (fun x => ":" ++ x)%string L)
    ++ ")"%string :: "ON"%string :: "CONFLICT"%string :: "("%string
         :: commaSep (keyColumns mapKeyName)
    ++ ")"%string :: "DO"%string :: "UPDATE"%string :: "SET"%string :: "("%string :: commaSep L
    ++ ")"%string :: "="%string :: "("%string
         :: commaSep (map (fun x => "excluded." ++ x)%string L)
    ++ [")"%string].
Proof.
  intros Ht Hk Hc L. subst L.
  unfold makeSetKeyInMapQry, setKeyInMapQueryTemplate.
  rewrite !stringMap_map.
  pose proof (forallb_map_prefix ":" (c :: cols) eq_refl Hc) as Hc1.
  pose proof (forallb_map_prefix "excluded." (c :: cols) eq_refl Hc) as Hc2.
  cbn [append] in Hc1, Hc2. rewrite map_cons in Hc1, Hc2. rewrite !map_cons.
  cbn -[String.concat map].
  rewrite (lexemes_ident _ tableName) by assumption.
  cbn -[String.concat map].
  rewrite (identb_flush tableName) by assumption.
  cbn -[String.concat map].
  rewrite (lexemes_ident _ mapKeyName) by assumption.
  cbn -[String.concat map].
  rewrite (identb_flush mapKeyName) by assumption.
  cbn -[String.concat map].
  rewrite lexemes_concat by assumption.
  cbn -[String.concat map commaSep].
  rewrite (lexemes_ident _ mapKeyName) by assumption.
  cbn -[String.concat map commaSep].
  rewrite lexemes_concat by assumption.
  cbn -[String.concat map commaSep].
  rewrite (lexemes_ident _ mapKeyName) by assumption.
  cbn -[String.concat map commaSep].
  rewrite (identb_flush mapKeyName) by assumption.
  cbn -[String.concat map commaSep].
  rewrite (lexemes_ident _ mapKeyName) by assumption.
  cbn -[String.concat map commaSep].
  rewrite (identb_flush mapKeyName) by assumption.
  cbn -[String.concat map commaSep].
  rewrite lexemes_concat by assumption.
  cbn -[String.concat map commaSep].
  rewrite (lexemes_ident _ mapKeyName) by assumption.
  cbn -[String.concat map commaSep].
  rewrite lexemes_concat by assumption.
  reflexivity.
Qed.

(** X11: for any table name, key column and value columns that are
    identifiers, with at least one value column, the statement
    [makeSetKeyInMapQry] generates is read by the backend as an upsert
    into that table which inserts the identity columns, the key column
    and the value columns in the order given, takes each of them from the
    placeholder of its own name, names the identity and key columns as
    its conflict target, and on conflict assigns every inserted column
    from the proposed row. *)
Theorem upsert_generator_overwrites_every_column (tableName mapKeyName c : string)
    (cols : list string) :
  identb tableName = true -> identb mapKeyName = true -> forallb identb (c :: cols) = true ->
  pg.parse (makeSetKeyInMapQry tableName (c :: cols) mapKeyName)
  = Some (pg.Insert tableName
            (keyColumns mapKeyName ++ c :: cols) (keyColumns mapKeyName ++ c :: cols)
            (keyColumns mapKeyName)
            (pg.DoUpdate (keyColumns mapKeyName ++ c :: cols)
                         (keyColumns mapKeyName ++ c :: cols))).
Proof.
  intros Ht Hk Hc.
  unfold pg.parse. rewrite (lexemes_set_key tableName mapKeyName c cols Ht Hk Hc). cbv zeta.
  set (L := keyColumns mapKeyName ++ c :: cols).
  assert (HK : forallb identb (keyColumns mapKeyName) = true) by now apply identb_keyColumns.
  assert (HL : forallb identb L = true) by (unfold L; rewrite forallb_app; now rewrite HK, Hc).
  assert (HLne : L <> []) by discriminate.
  assert (HL1 : forallb identb (map (fun x => ":" ++ x)%string L) = true)
    by now apply forallb_map_prefix.
  assert (HL2 : forallb identb (map (fun x => "excluded." ++ x)%string L) = true)
    by now apply forallb_map_prefix.
  assert (HL1ne : map (fun x => ":" ++ x)%string L <> []) by discriminate.
  assert (HL2ne : map (fun x => "excluded." ++ x)%string L <> []) by discriminate.
  assert (HKne : keyColumns mapKeyName <> []) by discriminate.
  change (String.eqb "INSERT" "DELETE") with false.
  change (String.eqb "INSERT" "SELECT") with false.
  change (String.eqb "INSERT" "INSERT") with true. cbv iota.
  unfold pg.parse_insert.
  change (String.eqb "INTO" "INTO") with true. rewrite (identb_is_word tableName Ht).
  cbn [andb]. cbv iota.
  rewrite (parens_list L _ HLne HL).
  change (String.eqb "VALUES" "VALUES") with true. cbv iota.
  rewrite (parens_list _ _ HL1ne HL1).
  change (String.eqb "ON" "ON") with true. change (String.eqb "CONFLICT" "CONFLICT") with true.
  cbn [andb]. cbv iota.
  rewrite (parens_list _ _ HKne HK).
  rewrite (mapM_named L HL).
  unfold pg.parse_conflict.
  change (String.eqb "DO" "DO") with true. change (String.eqb "UPDATE" "NOTHING") with false.
  change (String.eqb "UPDATE" "UPDATE") with true. change (String.eqb "SET" "SET") with true.
  cbv iota.
  rewrite (parens_list L _ HLne HL).
  change (String.eqb "=" "=") with true. cbv iota.
  rewrite (parens_list _ _ HL2ne HL2).
  rewrite (mapM_excluded L).
  reflexivity.
Qed.

Lemma upsert_generator_overwrites_every_column_witness :
  pg.parse (makeSetKeyInMapQry "buffered_event_maps" ["data"; "data_encoding"; "version"]
              "event_id")
  = Some (pg.Insert "buffered_event_maps"
            ["shard_id"; "domain_id"; "workflow_id"; "run_id"; "event_id";
             "data"; "data_encoding"; "version"]%string
            ["shard_id"; "domain_id"; "workflow_id"; "run_id"; "event_id";
             "data"; "data_encoding"; "version"]%string
            ["shard_id"; "domain_id"; "workflow_id"; "run_id"; "event_id"]%string
            (pg.DoUpdate
               ["shard_id"; "domain_id"; "workflow_id"; "run_id"; "event_id";
                "data"; "data_encoding"; "version"]%string
               ["shard_id"; "domain_id"; "workflow_id"; "run_id"; "event_id";
                "data"; "data_encoding"; "version"]%string)).
Proof.
  apply (upsert_generator_overwrites_every_column "buffered_event_maps" "event_id" "data"
           ["data_encoding"; "version"]%string); reflexivity.
Defined.

(** X12: without a value column the generator writes a column list that
    ends in a comma, which the backend refuses: [makeSetKeyInMapQry] cannot
    serve a table that has only its key, as the signals-requested set,
    whose statements are written out by hand. *)
Theorem upsert_generator_needs_a_value_column (tableName mapKeyName : string) :
  identb tableName = true -> identb mapKeyName = true ->
  pg.parse (makeSetKeyInMapQry tableName [] mapKeyName) = None.
Proof.
  intros Ht Hk.
  unfold pg.parse, makeSetKeyInMapQry, setKeyInMapQueryTemplate.
  cbn -[pg.parse_insert].
  rewrite (lexemes_ident _ tableName) by assumption.
  cbn -[pg.parse_insert].
  rewrite (identb_flush tableName) by assumption.
  cbn -[pg.parse_insert].
  rewrite (lexemes_ident _ mapKeyName) by assumption.
  cbn -[pg.parse_insert].
  rewrite (identb_flush mapKeyName) by assumption.
  cbn -[pg.parse_insert pg.lexemes].
  unfold pg.parse_insert.
  rewrite (identb_is_word tableName Ht).
  cbn -[pg.lexemes]. rewrite (identb_is_word mapKeyName Hk). reflexivity.
Qed.

Lemma upsert_generator_needs_a_value_column_witness :
  pg.parse (makeSetKeyInMapQry "signals_requested_sets" [] "signal_id") = None.
Proof.
  apply (upsert_generator_needs_a_value_column "signals_requested_sets" "signal_id");
    reflexivity.
Defined.

(** A comma-separated list of identifiers followed by a blank. *)
Lemma lexemes_concat_blank cols : forall c rest,
  forallb identb (c :: cols) = true ->
  pg.lexemes "" (String.concat "," (c :: cols) ++ String " " rest)
  = commaSep (c :: cols) ++ pg.lexemes "" rest.
Proof.
  induction cols as [|c' cols IH]; intros c rest H.
  - cbn [forallb] in H. apply andb_true_iff in H as (Hc & _).
    cbn [String.concat commaSep app]. rewrite lexemes_ident by assumption.
    cbn [append pg.lexemes]. change (pg.is_space " ") with true. cbv iota.
    now rewrite identb_flush.
  - cbn [forallb] in H. apply andb_true_iff in H as (Hc & H).
    change (String.concat "," (c :: c' :: cols))
      with (c ++ "," ++ String.concat "," (c' :: cols))%string.
    rewrite append_assoc. rewrite lexemes_ident by assumption.
    rewrite append_assoc. cbn [append pg.lexemes].
    change (pg.is_space ",") with false. change (pg.is_punct ",") with true. cbv iota.
    rewrite identb_flush by assumption. rewrite IH by exact H. reflexivity.
Qed.

Lemma items_commaSep_word cols : forall c w rest,
  forallb identb (c :: cols) = true -> String.eqb w "," = false ->
  pg.items (commaSep (c :: cols) ++ w :: rest) = Some (c :: cols, w :: rest).
Proof.
  induction cols as [|c' cols IH]; intros c w rest H Hw;
    cbn [forallb] in H; apply andb_true_iff in H as (Hc & H).
  - cbn [commaSep app pg.items]. rewrite identb_is_word by assumption. now rewrite Hw.
  - change (commaSep (c :: c' :: cols) ++ w :: rest)
      with (c :: ","%string :: (commaSep (c' :: cols) ++ w :: rest)).
    rewrite items_comma by (now apply identb_is_word). now rewrite IH.
Qed.

(** X13: for any table name, key column and value columns that are
    identifiers, with at least one value column, the statement
    [makeGetMapQryTemplate] generates is read by the backend as a select
    of the key column followed by the value columns, in the order given,
    from that table, restricted to the execution bound to [$1 .. $4]; and
    the statement [makeDeleteMapQry] generates as a delete on that table
    under the same restriction. *)
Theorem get_and_delete_generators_restrict_to_the_execution (tableName mapKeyName c : string)
    (cols : list string) :
  identb tableName = true -> identb mapKeyName = true -> forallb identb (c :: cols) = true ->
  pg.parse (makeGetMapQryTemplate tableName (c :: cols) mapKeyName)
  = Some (pg.Select (mapKeyName :: c :: cols) tableName identityConds) /\
  pg.parse (makeDeleteMapQry tableName) = Some (pg.Delete tableName identityConds).
Proof.
  intros Ht Hk Hc. split.
  - unfold pg.parse, makeGetMapQryTemplate, getMapQueryTemplate.
    cbn -[String.concat pg.parse_select].
    rewrite (lexemes_ident _ mapKeyName) by assumption.
    cbn -[String.concat pg.parse_select].
    rewrite (identb_flush mapKeyName) by assumption.
    cbn -[String.concat pg.parse_select].
    rewrite lexemes_concat_blank by assumption.
    cbn -[String.concat pg.parse_select commaSep].
    rewrite (lexemes_ident _ tableName) by assumption.
    cbn -[String.concat pg.parse_select commaSep].
    rewrite (identb_flush tableName) by assumption.
    cbn -[String.concat pg.parse_select commaSep].
    unfold pg.parse_select.
    change (mapKeyName :: ","%string :: commaSep (c :: cols) ++ ?r)
      with (commaSep (mapKeyName :: c :: cols) ++ r).
    rewrite items_commaSep_word;
      [| cbn [forallb] in Hc |- *; now rewrite Hk, Hc | reflexivity].
    change (String.eqb "FROM" "FROM") with true. rewrite (identb_is_word tableName Ht).
    reflexivity.
  - unfold pg.parse, makeDeleteMapQry, deleteMapQueryTemplate.
    cbn -[pg.parse_delete].
    rewrite (lexemes_ident _ tableName) by assumption.
    cbn -[pg.parse_delete].
    rewrite (identb_flush tableName) by assumption.
    cbn -[pg.parse_delete].
    unfold pg.parse_delete.
    change (String.eqb "FROM" "FROM") with true. rewrite (identb_is_word tableName Ht).
    reflexivity.
Qed.

Lemma get_and_delete_generators_restrict_to_the_execution_witness :
  pg.parse (makeGetMapQryTemplate "buffered_event_maps" ["data"; "data_encoding"] "event_id")
  = Some (pg.Select ["event_id"; "data"; "data_encoding"]%string "buffered_event_maps"
            identityConds) /\
  pg.parse (makeDeleteMapQry "buffered_event_maps")
  = Some (pg.Delete "buffered_event_maps" identityConds).
Proof.
  apply (get_and_delete_generators_restrict_to_the_execution
           "buffered_event_maps" "event_id" "data" ["data_encoding"]%string); reflexivity.
Defined.

(** ** The delete-by-key-set generator *)

Lemma expand_plain u : forall s args,
  plainb u = true ->
  sqlx.expand (u ++ s) args
  = match sqlx.expand s args with
    | inl (q, vs) => inl ((u ++ q)%string, vs)
    | inr e => inr e
    end.
Proof.
  induction u as [|c u IH]; intros s args H.
  - cbn [append]. destruct (sqlx.expand s args) as [[q vs]|e]; reflexivity.
  - cbn [plainb allb] in H. apply andb_true_iff in H as (Hc & Hu).
    apply negb_true_iff in Hc. cbn [append sqlx.expand]. rewrite Hc.
    rewrite (IH s args Hu). destruct (sqlx.expand s args) as [[q vs]|e]; reflexivity.
Qed.

Lemma rebind_plain u : forall j s,
  plainb u = true -> sqlx.rebindDollar j (u ++ s) = (u ++ sqlx.rebindDollar j s)%string.
Proof.
  induction u as [|c u IH]; intros j s H; [reflexivity|].
  cbn [plainb allb] in H. apply andb_true_iff in H as (Hc & Hu).
  apply negb_true_iff in Hc. cbn [append sqlx.rebindDollar]. rewrite Hc.
  now rewrite (IH j s Hu).
Qed.

Lemma In_Rebind_generated (tableName mapKeyName : string) (a b c d key0 : value)
    (keys : list value) :
  plainb tableName = true -> plainb mapKeyName = true ->
  exists q,
    sqlx.In (makeDeleteKeyInMapQry tableName mapKeyName)
      [sqlx.One a; sqlx.One b; sqlx.One c; sqlx.One d; sqlx.Many (key0 :: keys)]
    = inl (q, [a; b; c; d] ++ key0 :: keys) /\
    sqlx.Rebind (sqlx.BindType PluginName) q
    = deleteKeyInMapQryBound tableName mapKeyName (S (length keys)).
Proof.
  intros Ht Hk.
  unfold deleteKeyInMapQryBound. rewrite concat_placeholders.
  unfold sqlx.In, makeDeleteKeyInMapQry, deleteKeyInMapQueryTemplate.
  cbn -[sqlx.expand]. cbn.
  rewrite (expand_plain tableName _ _ Ht). cbn.
  rewrite (expand_plain mapKeyName _ _ Hk). cbn.
  rewrite app_nil_r.
  eexists. split; [reflexivity|].
  cbn. rewrite (rebind_plain tableName _ _ Ht). cbn.
  rewrite (rebind_plain mapKeyName _ _ Hk). cbn.
  rewrite rebind_more. reflexivity.
Qed.

Lemma parse_delete_keys_generated (tableName mapKeyName : string) (n : nat) :
  identb tableName = true -> identb mapKeyName = true ->
  pg.parse (deleteKeyInMapQryBound tableName mapKeyName (S n))
  = Some (pg.Delete tableName (identityConds ++ [pg.CIn mapKeyName (seq 5 (S n))])).
Proof.
  intros Ht Hk.
  unfold deleteKeyInMapQryBound. rewrite concat_placeholders.
  unfold pg.parse.
  cbn -[pg.parse_delete].
  rewrite (lexemes_ident _ tableName) by assumption.
  cbn -[pg.parse_delete].
  rewrite (identb_flush tableName) by assumption.
  cbn -[pg.parse_delete].
  rewrite (lexemes_ident _ mapKeyName) by assumption.
  cbn -[pg.parse_delete].
  rewrite (identb_flush mapKeyName) by assumption.
  cbn -[pg.parse_delete].
  rewrite lexemes_moreDollar.
  unfold pg.parse_delete.
  change (String.eqb "FROM" "FROM") with true. rewrite (identb_is_word tableName Ht).
  cbn -[pg.items].
  rewrite items_commaTail by reflexivity.
  cbn -[mapM].
  change (String "$" "5" :: placeholders 6 n) with (placeholders 5 (S n)).
  rewrite mapM_dollar_placeholders. reflexivity.
Qed.

(** X14: for any table name and key column that are identifiers without a
    question mark, the statement [makeDeleteKeyInMapQry] generates, once
    [sqlx.In] has expanded it on the four identity values and a slice of
    [n+1] keys and [sqlx.Rebind] has numbered its placeholders, takes as
    arguments the identity values followed by the keys in the order given
    and is read by the backend as a delete on that table, restricted to
    the execution bound to [$1 .. $4] and to the keys bound to
    [$5 .. $(5+n)]. *)
Theorem delete_keys_generator_binds_every_key (tableName mapKeyName : string)
    (a b c d key0 : value) (keys : list value) :
  identb tableName = true -> identb mapKeyName = true ->
  plainb tableName = true -> plainb mapKeyName = true ->
  exists q,
    sqlx.In (makeDeleteKeyInMapQry tableName mapKeyName)
      [sqlx.One a; sqlx.One b; sqlx.One c; sqlx.One d; sqlx.Many (key0 :: keys)]
    = inl (q, [a; b; c; d] ++ key0 :: keys) /\
    pg.parse (sqlx.Rebind (sqlx.BindType PluginName) q)
    = Some (pg.Delete tableName
              (identityConds ++ [pg.CIn mapKeyName (seq 5 (S (length keys)))])).
Proof.
  intros Ht Hk Ht' Hk'.
  destruct (In_Rebind_generated tableName mapKeyName a b c d key0 keys Ht' Hk')
    as (q & Hin & Hre).
  exists q. split; [exact Hin|]. rewrite Hre. now apply parse_delete_keys_generated.
Qed.

Lemma delete_keys_generator_binds_every_key_witness :
  exists q,
    sqlx.In (makeDeleteKeyInMapQry "buffered_event_maps" "event_id")
      [sqlx.One (VInt 5); sqlx.One (VBytes [x01]); sqlx.One (VText "wf");
       sqlx.One (VBytes [x02]); sqlx.Many [VInt 7; VInt 8; VInt 9]]
    = inl (q, [VInt 5; VBytes [x01]; VText "wf"; VBytes [x02]; VInt 7; VInt 8; VInt 9]) /\
    pg.parse (sqlx.Rebind (sqlx.BindType PluginName) q)
    = Some (pg.Delete "buffered_event_maps"
              (identityConds ++ [pg.CIn "event_id" [5; 6; 7]])).
Proof.
  apply (delete_keys_generator_binds_every_key "buffered_event_maps" "event_id"
           (VInt 5) (VBytes [x01]) (VText "wf") (VBytes [x02]) (VInt 7) [VInt 8; VInt 9]);
    reflexivity.
Defined.

(** ** What the operations hand to the driver *)

(** X15: for every collection kind, a Replace (Insert for the
    signals-requested set) of a slice that is not empty hands the driver
    exactly one statement, whatever comes of it: the kind's upsert, on the
    physical shard the router gives for the shard id of the first row,
    bound by name to all the rows of the slice in their order, activity
    infos with their last-heartbeat time converted.  When it returns an
    error, no stored row has changed. *)
Theorem replace_issues_one_statement (k : kind) (router : Z -> Z -> Z) (pdb : db)
    (r0 : rowOf k) (rest : list (rowOf k)) (b : Backend) :
  let out := ReplaceInto k router pdb (r0 :: rest) b in
  statements (snd out)
  = statements b ++
    [mkIssued (router (shardIDOf k r0) (GetTotalNumDBShards pdb)) (setKeyQryOf k)
       (ByName (map (bindOf k) (map (written k pdb) (r0 :: rest))))] /\
  (snd (fst out) <> None -> rows (snd out) = rows b).
Proof.
  intros out. subst out. rewrite ReplaceInto_exec. split; [apply named_exec_records|].
  unfold NamedExecContext.
  destruct (pg.parse (setKeyQryOf k)) as [[t c v tg act|o t w|t w]|];
    cbn [fst snd rows record]; try reflexivity.
  destruct (pg.exec_insert _ _ _ _ _ _ _ _) as [[st n]|e]; cbn [fst snd rows record];
    [congruence | reflexivity].
Qed.

Lemma replace_issues_one_statement_witness :
  let out := ReplaceInto ActivityInfo shardRouter sampleDb
               [sampleActivity 7 "json"; sampleActivity 7 "thriftrw"] sampleBackend in
  length (statements (snd out)) = 2 /\ rows (snd out) = rows sampleBackend.
Proof.
  intros out. subst out.
  destruct (replace_issues_one_statement ActivityInfo shardRouter sampleDb
              (sampleActivity 7 "json") [sampleActivity 7 "thriftrw"] sampleBackend)
    as (Hst & Hrows).
  split.
  - etransitivity; [exact (f_equal (@length issued) Hst) | reflexivity].
  - apply Hrows. discriminate.
Defined.

(** * The Meta service handler *)

Section MetaHandlers.

Variables Ctx WireValue HealthStatus Meta_Health_Result Code NoWireCall ResponseWriter E St
  : Type.
Variable Error : E -> string.
Variable yarpcErrorNamer : E -> option string.
Variable yarpcErrorCoder : E -> option (option Code).
Variable FromWire : WireValue -> option E.
Variable ReadRequest : Ctx -> NoWireCall -> ResponseWriter * option E.
Variable WrapResponse : option HealthStatus -> option E -> option Meta_Health_Result * option E.
Variable impl : metaserver.Interface Ctx HealthStatus E St.

(** X16: a handler of [Health] that cannot decode its request does not
    reach the implementation: when [FromWire] fails, the wire handler
    returns at once the zero response and the invalid-argument error made
    of its message and the decoding error, and the state the
    implementation works on is as it was; when [ReadRequest] fails, so
    does the no-wire handler, with its own message.  Neither depends on
    the other handler's decoder. *)
Theorem health_decode_failure_never_reaches_the_implementation
    (ctx : Ctx) (body : WireValue) (nwc : NoWireCall) (s : St) :
  (forall err, FromWire body = Some err ->
     metaserver.Health Error yarpcErrorNamer yarpcErrorCoder FromWire WrapResponse
       impl ctx body s
     = ((metaserver.zeroResponse Meta_Health_Result Code,
         Some (metaserver.InvalidArgumentErrorf
                 "could not decode Thrift request for service 'Meta' procedure 'Health': %w"
                 err)), s)) /\
  (forall err, snd (ReadRequest ctx nwc) = Some err ->
     metaserver.HandleNoWire Error yarpcErrorNamer yarpcErrorCoder ReadRequest WrapResponse
       impl ctx nwc s
     = ((metaserver.zeroNoWireResponse Meta_Health_Result Code ResponseWriter,
         Some (metaserver.InvalidArgumentErrorf
                 "could not decode (via no wire) Thrift request for service 'Meta' procedure 'Health': %w"
                 err)), s)).
Proof.
  split; intros err H.
  - unfold metaserver.Health. now rewrite H.
  - unfold metaserver.HandleNoWire. destruct (ReadRequest ctx nwc) as [rw e].
    cbn [snd] in H. now rewrite H.
Qed.

(** X17: whatever the request, the implementation and the response
    helper do, the response of the wire handler of [Health] is
    consistent with the error returned beside it: with an error the
    response is the zero response; a response with a body comes without
    an error; and a response that is not flagged as an application error
    carries no error details, name or code. *)
Theorem health_response_is_consistent (ctx : Ctx) (body : WireValue) (s : St) :
  let out := metaserver.Health Error yarpcErrorNamer yarpcErrorCoder FromWire WrapResponse
               impl ctx body s in
  let response := fst (fst out) in
  let err := snd (fst out) in
  (err <> None -> response = metaserver.zeroResponse Meta_Health_Result Code) /\
  (metaserver.Body response <> None -> err = None) /\
  (metaserver.IsApplicationError response = false ->
   metaserver.ApplicationErrorDetails response = ""%string /\
   metaserver.ApplicationErrorName response = ""%string /\
   metaserver.ApplicationErrorCode response = None).
Proof.
  unfold metaserver.Health.
  destruct (FromWire body) as [e|].
  - cbn. repeat split; congruence.
  - destruct (metaserver.impl_Health impl ctx s) as [[success appErr] s'].
    destruct (WrapResponse success appErr) as [result [e|]]; cbn.
    + repeat split; congruence.
    + destruct appErr as [a|]; cbn; repeat split; congruence.
Qed.

(** X18: on a request that both decode, the no-wire handler of [Health]
    answers as the wire handler does: it calls the implementation on the
    same state and leaves it in the same state, returns the same error,
    and its response, which also carries the response writer that
    reading the request gave, has the same body, application-error flag,
    details, name and code. *)
Theorem health_handlers_agree (ctx : Ctx) (body : WireValue) (nwc : NoWireCall)
    (rw : ResponseWriter) (s : St) :
  FromWire body = None ->
  ReadRequest ctx nwc = (rw, None) ->
  let wired := metaserver.Health Error yarpcErrorNamer yarpcErrorCoder FromWire WrapResponse
                 impl ctx body s in
  let unwired := metaserver.HandleNoWire Error yarpcErrorNamer yarpcErrorCoder ReadRequest
                   WrapResponse impl ctx nwc s in
  metaserver.overTheWire (fst (fst unwired)) = fst (fst wired) /\
  metaserver.nw_ResponseWriter (fst (fst unwired)) = Some rw /\
  snd (fst unwired) = snd (fst wired) /\
  snd unwired = snd wired.
Proof.
  intros Hw Hn. unfold metaserver.Health, metaserver.HandleNoWire. rewrite Hw, Hn.
  destruct (metaserver.impl_Health impl ctx s) as [[success appErr] s'].
  destruct (WrapResponse success appErr) as [result [e|]]; cbn; repeat split.
Qed.

End MetaHandlers.

Lemma health_handlers_agree_witness :
  let wired := metaserver.Health sampleError sampleNamer sampleCoder sampleFromWire
                 sampleWrapResponse sampleImpl tt "" 0 in
  let unwired := metaserver.HandleNoWire sampleError sampleNamer sampleCoder sampleReadRequest
                   sampleWrapResponse sampleImpl tt "" 0 in
  snd wired = 1 /\
  snd (fst wired) = Some (metaserver.Raised "starting") /\
  metaserver.overTheWire (fst (fst unwired)) = fst (fst wired) /\
  snd unwired = snd wired.
Proof.
  split; [reflexivity|]. split; [reflexivity|].
  destruct (health_handlers_agree unit string bool bool nat string unit string nat
              sampleError sampleNamer sampleCoder sampleFromWire
              sampleReadRequest sampleWrapResponse sampleImpl tt "" "" tt 0
              eq_refl eq_refl) as (H1 & _ & _ & H4).
  split; [exact H1 | exact H4].
Defined.

Lemma health_decode_failure_never_reaches_the_implementation_witness :
  snd (metaserver.Health sampleError sampleNamer sampleCoder sampleFromWire
         sampleWrapResponse sampleImpl tt "?" 0) = 0 /\
  snd (metaserver.HandleNoWire sampleError sampleNamer sampleCoder sampleReadRequest
         sampleWrapResponse sampleImpl tt "?" 0) = 0.
Proof.
  destruct (health_decode_failure_never_reaches_the_implementation
              unit string bool bool nat string unit string nat
              sampleError sampleNamer sampleCoder sampleFromWire
              sampleReadRequest sampleWrapResponse sampleImpl tt "?" "?" 0) as (H1 & H2).
  split.
  - now rewrite (H1 "unexpected field"%string eq_refl).
  - now rewrite (H2 "unexpected field"%string eq_refl).
Defined.

(** * The task-list scavenger activity *)

Section ScavengerActivity.

Variables W E : Type.
Variable getScannerContext : W -> option E.
Variable NewScavenger : W -> W.
Variable Info : string -> option E -> W -> W.
Variables Start Stop : W -> W.
Variable Alive : W -> bool.
Variable RecordHeartbeat : W -> W.
Variable Err : W -> option E.
Variable Sleep : Z -> W -> W.

Lemma heartbeats_rounds (n : nat) : forall (w : W) (extra : nat),
  (forall i, i < n ->
     Alive (scanner.after RecordHeartbeat Sleep i w) = true /\
     Err (RecordHeartbeat (scanner.after RecordHeartbeat Sleep i w)) = None) ->
  scanner.heartbeats Info Stop Alive RecordHeartbeat Err Sleep (n + extra) w
  = scanner.heartbeats Info Stop Alive RecordHeartbeat Err Sleep extra
      (scanner.after RecordHeartbeat Sleep n w).
Proof.
  induction n as [|n IH]; intros w extra H; [reflexivity|].
  destruct (H 0 (Nat.lt_0_succ n)) as (Ha & He). cbn [scanner.after] in Ha, He.
  cbn [Nat.add scanner.heartbeats scanner.after]. rewrite Ha, He.
  apply IH. intros i Hi. apply (H (S i)). lia.
Qed.

(** X19: when the scanner context is there, the scavenger is found alive
    and the activity context without error for [n] rounds, and the
    scavenger is then found not alive, [TaskListScavengerActivity]
    returns, given more than [n] rounds, and returns no error; by then it
    has started the scavenger, made [n] rounds of one heartbeat and one
    sleep of ten seconds each, and has not stopped the scavenger. *)
Theorem scavenger_activity_ends_with_the_scavenger (n rounds : nat) (w : W) :
  getScannerContext w = None ->
  (forall i, i < n ->
     Alive (scanner.after RecordHeartbeat Sleep i
              (scanner.started NewScavenger Info Start w)) = true /\
     Err (RecordHeartbeat (scanner.after RecordHeartbeat Sleep i
                             (scanner.started NewScavenger Info Start w))) = None) ->
  Alive (scanner.after RecordHeartbeat Sleep n
           (scanner.started NewScavenger Info Start w)) = false ->
  n < rounds ->
  scanner.TaskListScavengerActivity getScannerContext NewScavenger Info Start Stop Alive
    RecordHeartbeat Err Sleep rounds w
  = Some (None, scanner.after RecordHeartbeat Sleep n
                  (scanner.started NewScavenger Info Start w)).
Proof.
  intros Hctx Hrun Hend Hlt. unfold scanner.TaskListScavengerActivity. rewrite Hctx.
  fold (scanner.started NewScavenger Info Start w).
  replace rounds with (n + S (rounds - S n)) by lia.
  rewrite heartbeats_rounds by exact Hrun.
  cbn [scanner.heartbeats]. now rewrite Hend.
Qed.

(** X20: when the scanner context is there, the scavenger is found alive
    and the activity context without error for [n] rounds, and in the
    next round the scavenger is alive and the activity context has an
    error after the heartbeat, [TaskListScavengerActivity] returns, given
    more than [n] rounds: it logs the error, stops the scavenger and
    returns what the activity context then gives as its error, without
    sleeping again. *)
Theorem scavenger_activity_stops_on_context_error (n rounds : nat) (w : W) (e : E) :
  getScannerContext w = None ->
  (forall i, i < n ->
     Alive (scanner.after RecordHeartbeat Sleep i
              (scanner.started NewScavenger Info Start w)) = true /\
     Err (RecordHeartbeat (scanner.after RecordHeartbeat Sleep i
                             (scanner.started NewScavenger Info Start w))) = None) ->
  Alive (scanner.after RecordHeartbeat Sleep n
           (scanner.started NewScavenger Info Start w)) = true ->
  Err (RecordHeartbeat (scanner.after RecordHeartbeat Sleep n
                          (scanner.started NewScavenger Info Start w))) = Some e ->
  n < rounds ->
  let beaten := RecordHeartbeat (scanner.after RecordHeartbeat Sleep n
                                   (scanner.started NewScavenger Info Start w)) in
  let stopped := Stop (Info "activity context error, stopping scavenger" (Some e) beaten) in
  scanner.TaskListScavengerActivity getScannerContext NewScavenger Info Start Stop Alive
    RecordHeartbeat Err Sleep rounds w
  = Some (Err stopped, stopped).
Proof.
  intros Hctx Hrun Halive Herr Hlt beaten stopped. subst stopped beaten.
  unfold scanner.TaskListScavengerActivity. rewrite Hctx.
  fold (scanner.started NewScavenger Info Start w).
  replace rounds with (n + S (rounds - S n)) by lia.
  rewrite heartbeats_rounds by exact Hrun.
  cbn [scanner.heartbeats]. rewrite Halive, Herr. reflexivity.
Qed.

End ScavengerActivity.

Lemma scavenger_activity_ends_with_the_scavenger_witness :
  sampleScavengerRun 3 (mkWorld 0 2 5 [])
  = Some (None,
          mkWorld 2 2 5
            [CInfo "Starting task list scavenger"; CStart;
             CHeartbeat; CSleep; CHeartbeat; CSleep]).
Proof.
  apply (scavenger_activity_ends_with_the_scavenger sampleWorld string
           (fun _ => None) (fun w => w) (fun msg _ => did (CInfo msg))
           (did CStart) (did CStop) sampleAlive (did CHeartbeat) sampleErr sampleSleep
           2 3 (mkWorld 0 2 5 [])).
  - reflexivity.
  - intros i Hi. destruct i as [|[|i]]; [split; reflexivity | split; reflexivity | lia].
  - reflexivity.
  - lia.
Defined.

Lemma scavenger_activity_stops_on_context_error_witness :
  sampleScavengerRun 9 (mkWorld 0 5 1 [])
  = Some (Some "context canceled",
          mkWorld 1 5 1
            [CInfo "Starting task list scavenger"; CStart;
             CHeartbeat; CSleep; CHeartbeat;
             CInfo "activity context error, stopping scavenger"; CStop]).
Proof.
  apply (scavenger_activity_stops_on_context_error sampleWorld string
           (fun _ => None) (fun w => w) (fun msg _ => did (CInfo msg))
           (did CStart) (did CStop) sampleAlive (did CHeartbeat) sampleErr sampleSleep
           1 9 (mkWorld 0 5 1 []) "context canceled").
  - reflexivity.
  - intros i Hi. destruct i as [|i]; [split; reflexivity | lia].
  - reflexivity.
  - reflexivity.
  - lia.
Defined.
